(** * FastAPI-boilerplate: tiered rate limiting and auth-context resolution

    A shallow embedding of the rate-limit, tier-resolution, token-blacklist
    and rate-limit-rule endpoints of the application, with the properties
    its specification states about them.

    Conventions.
    - Python [int] is [Z]; [a % b] is [Z.modulo] (both take the sign of the
      divisor) and raises [ZeroDivisionError] when [b = 0].
    - Python [str] is [string]; the characters the code inspects ('/', ' ',
      '@', ':') are ASCII, so working on bytes agrees with working on code
      points.
    - [async]/[await] is sequential composition; every function that touches
      the database, the counter store or the logger is a computation in the
      monad [M] (state of the world plus exceptions).
    - The clock is an explicit argument [now] (seconds since the epoch). *)

From Stdlib Require Import ZArith String Ascii List Bool Lia.
From stdpp Require Import base option list gmap strings pretty.

Open Scope string_scope.
Open Scope Z_scope.

(* ===================================================================== *)
(** * Strings: the [str] methods the code uses *)
(* ===================================================================== *)

Module Str.

(** [s.lstrip(c)] for a one-character [c]. *)
Fixpoint lstrip (c : ascii) (s : string) : string :=
  match s with
  | EmptyString => EmptyString
  | String a s' => if Ascii.eqb a c then lstrip c s' else s
  end.

(** [s.rstrip(c)] for a one-character [c]. *)
Fixpoint rstrip (c : ascii) (s : string) : string :=
  match s with
  | EmptyString => EmptyString
  | String a s' =>
      match rstrip c s' with
      | EmptyString => if Ascii.eqb a c then EmptyString else String a EmptyString
      | r => String a r
      end
  end.

(** [s.strip(c)]. *)
Definition strip (c : ascii) (s : string) : string := rstrip c (lstrip c s).

(** [s.replace(a, b)] for one-character [a] and [b]. *)
Fixpoint replace (a b : ascii) (s : string) : string :=
  match s with
  | EmptyString => EmptyString
  | String x s' => String (if Ascii.eqb x a then b else x) (replace a b s')
  end.

(** [c in s]. *)
Fixpoint contains (c : ascii) (s : string) : bool :=
  match s with
  | EmptyString => false
  | String x s' => Ascii.eqb x c || contains c s'
  end.

(** [s.partition(c)]: the part before the first [c], the separator found
    (empty when there is none) and the part after it. *)
Fixpoint partition (c : ascii) (s : string) : string * string * string :=
  match s with
  | EmptyString => (EmptyString, EmptyString, EmptyString)
  | String x s' =>
      if Ascii.eqb x c then (EmptyString, String c EmptyString, s')
      else let '(h, sep, t) := partition c s' in (String x h, sep, t)
  end.

(** [str.lower] on one character of a header value. Header values are
    decoded as Latin-1, so every character is below 256: 'A'..'Z' and
    the accented capitals 0xC0..0xDE (0xD7, the multiplication sign,
    apart) move up by 32. *)
Definition lower_char (a : ascii) : ascii :=
  let n := N_of_ascii a in
  if ((65 <=? n) && (n <=? 90))%N then ascii_of_N (n + 32)
  else if ((192 <=? n) && (n <=? 222) && negb (n =? 215))%N then ascii_of_N (n + 32)
  else a.

Fixpoint lower (s : string) : string :=
  match s with
  | EmptyString => EmptyString
  | String x s' => String (lower_char x) (lower s')
  end.

(** Truthiness of a string: [not s] is [s == ""]. *)
Definition truthy (s : string) : bool :=
  match s with EmptyString => false | _ => true end.

End Str.

(** schemas/rate_limit.py: [path.strip("/").replace("/", "_")]. *)
Definition sanitize_path (path : string) : string :=
  Str.replace "/" "_" (Str.strip "/" path).

(* ===================================================================== *)
(** * Exceptions *)
(* ===================================================================== *)

(** The exception classes the code raises or catches. All of them derive
    from Python's [Exception] (cancellation and the other [BaseException]s
    are outside the model); [HTTPException] carries the status code and the
    detail message. *)
Inductive exn : Type :=
| HTTPException (status_code : Z) (detail : string)
| JWTError
| IntegrityError
| OperationalError
| ConnectionError
| ZeroDivisionError
| TypeError
| AttributeError
| Exception (msg : string).

#[global] Instance exn_eq_dec : EqDecision exn.
Proof. solve_decision. Defined.

(** Modelled from the spec: core/exceptions/http_exceptions.py is not among
    the sources; the specification maps each fault to one status code: 401
    and 403 for auth failures, 404 for missing entities, a 409-equivalent
    for uniqueness violations and 429 for rate-limit rejection. *)
Definition UnauthorizedException (detail : string) : exn := HTTPException 401 detail.
Definition ForbiddenException (detail : string) : exn := HTTPException 403 detail.
Definition NotFoundException (detail : string) : exn := HTTPException 404 detail.
Definition DuplicateValueException (detail : string) : exn := HTTPException 409 detail.
Definition RateLimitException (detail : string) : exn := HTTPException 429 detail.

Inductive result (A : Type) : Type :=
| Ok (a : A)
| Raise (e : exn).
Arguments Ok {A} a.
Arguments Raise {A} e.

Definition is_ok {A} (r : result A) : bool :=
  match r with Ok _ => true | Raise _ => false end.

(* ===================================================================== *)
(** * Persistent entities (models/*.py, core/db/token_blacklist.py) *)
(* ===================================================================== *)

(** The [created_at]/[updated_at] columns play no part below and are left
    out of the rows. *)

Module Tier.
Record t : Type := mk { id : Z; name : string }.
End Tier.

Module RateLimit.
Record t : Type := mk {
  id : Z;
  tier_id : Z;
  name : string;
  path : string;
  limit : Z;
  period : Z
}.
End RateLimit.

Module User.
Record t : Type := mk {
  id : Z;
  username : string;
  email : string;
  is_superuser : bool;
  is_deleted : bool;
  tier_id : option Z
}.
End User.

Module TokenBlacklist.
Record t : Type := mk { id : Z; token : string; expires_at : Z }.
End TokenBlacklist.

(** The relational store: one list of rows per table, in storage order,
    the auto-increment counters of the tables the code inserts into, and
    whether the server answers. *)
Record DB : Type := mkDB {
  available : bool;
  tier_rows : list Tier.t;
  rate_limit_rows : list RateLimit.t;
  user_rows : list User.t;
  token_blacklist_rows : list TokenBlacklist.t;
  rate_limit_seq : Z;
  token_blacklist_seq : Z
}.

(* ===================================================================== *)
(** * The counter store (Redis) *)
(* ===================================================================== *)

(** A key holds an integer and, once armed, the instant at which the key
    expires. *)
Record Redis : Type := mkRedis {
  reachable : bool;
  store : gmap string (Z * option Z)
}.

Definition live (now : Z) (e : Z * option Z) : bool :=
  match e.2 with
  | None => true
  | Some deadline => now <? deadline
  end.

(** What the server sees under [key] at [now]: an expired key is gone. *)
Definition redis_lookup (now : Z) (key : string) (r : Redis) : option (Z * option Z) :=
  match store r !! key with
  | Some e => if live now e then Some e else None
  | None => None
  end.

(** INCR: creates the key at 1 when absent, keeps the time to live. *)
Definition redis_incr (now : Z) (key : string) (r : Redis) : result Z * Redis :=
  if reachable r then
    match redis_lookup now key r with
    | Some (n, d) => (Ok (n + 1), mkRedis (reachable r) (<[key := (n + 1, d)]> (store r)))
    | None => (Ok 1, mkRedis (reachable r) (<[key := (1, None)]> (store r)))
    end
  else (Raise ConnectionError, r).

(** EXPIRE: arms the time to live of an existing key; a time to live that
    is not positive deletes the key. *)
Definition redis_expire (now : Z) (key : string) (seconds : Z) (r : Redis)
  : result bool * Redis :=
  if reachable r then
    match redis_lookup now key r with
    | Some (n, _) =>
        if seconds <=? 0
        then (Ok true, mkRedis (reachable r) (delete key (store r)))
        else (Ok true, mkRedis (reachable r) (<[key := (n, Some (now + seconds))]> (store r)))
    | None => (Ok false, r)
    end
  else (Raise ConnectionError, r).

(* ===================================================================== *)
(** * The world and the monad of effects *)
(* ===================================================================== *)

Inductive level : Type := WARNING | ERROR.

(** A log record: level, message, and the exception interpolated into the
    message when there is one. *)
Record LogRecord : Type := mkLog {
  levelname : level;
  message : string;
  exc_info : option exn
}.

(** [client] is the module-level [client: Redis | None] of
    core/utils/rate_limit.py. *)
Record World : Type := mkWorld {
  db : DB;
  client : option Redis;
  logs : list LogRecord
}.

Definition M (A : Type) : Type := World -> result A * World.

Definition ret {A} (a : A) : M A := fun w => (Ok a, w).

Definition raise {A} (e : exn) : M A := fun w => (Raise e, w).

Definition bind {A B} (m : M A) (k : A -> M B) : M B :=
  fun w =>
    match m w with
    | (Ok a, w') => k a w'
    | (Raise e, w') => (Raise e, w')
    end.

(** [try: m except Exception as e: h(e)]. *)
Definition try_except {A} (m : M A) (h : exn -> M A) : M A :=
  fun w =>
    match m w with
    | (Ok a, w') => (Ok a, w')
    | (Raise e, w') => h e w'
    end.

Declare Scope M_scope.
Delimit Scope M_scope with M.
Notation "x <- m ;; k" := (bind m (fun x => k))
  (at level 100, m at next level, right associativity) : M_scope.
Notation "m ;;; k" := (bind m (fun _ => k))
  (at level 100, right associativity) : M_scope.
Open Scope M_scope.

Definition logger (l : level) (msg : string) (e : option exn) : M unit :=
  fun w => (Ok tt, mkWorld (db w) (client w) (logs w ++ [mkLog l msg e])%list).

(** A call on the module-level client; on [None] Python fails with
    [AttributeError]. *)
Definition client_call {A} (f : Redis -> result A * Redis) : M A :=
  fun w =>
    match client w with
    | None => (Raise AttributeError, w)
    | Some r => let '(res, r') := f r in (res, mkWorld (db w) (Some r') (logs w))
    end.

(** [a % b]. *)
Definition py_mod (a b : Z) : M Z :=
  if b =? 0 then raise ZeroDivisionError else ret (a mod b).

(* ===================================================================== *)
(** * core/utils/rate_limit.py *)
(* ===================================================================== *)

(** The [user_id] the limiter is called with: [user["id"]] for a resolved
    user, [request.client.host] otherwise. *)
Inductive Identity : Type :=
| UserIdentity (id : Z)
| AnonymousIdentity (client_address : string).

(** [f"{user_id}"]. *)
Definition str_identity (i : Identity) : string :=
  match i with
  | UserIdentity id => pretty id
  | AnonymousIdentity host => host
  end.

(** [f"ratelimit:{user_id}:{sanitized_path}:{window_start}"]. *)
Definition ratelimit_key (user_id : Identity) (sanitized_path : string) (window_start : Z)
  : string :=
  "ratelimit:" ++ str_identity user_id ++ ":" ++ sanitized_path ++ ":" ++ pretty window_start.

Definition is_rate_limited (now : Z) (user_id : Identity) (path : string)
    (limit period : Z) : M bool :=
  fun w =>
    match client w with
    | None =>
        (logger ERROR "Redis client is not initialized." None ;;;
         raise (Exception "Redis client is not initialized.")) w
    | Some _ =>
        (let current_timestamp := now in
         m <- py_mod current_timestamp period ;;
         let window_start := current_timestamp - m in
         let sanitized_path := sanitize_path path in
         let key := ratelimit_key user_id sanitized_path window_start in
         try_except
           (current_count <- client_call (redis_incr now key) ;;
            (if current_count =? 1
             then client_call (redis_expire now key period) ;;; ret tt
             else ret tt) ;;;
            if current_count >? limit then ret true else ret false)
           (fun e =>
              logger ERROR
                ("Error checking rate limit for user " ++ str_identity user_id
                 ++ " on path " ++ path ++ ": ") (Some e) ;;;
              raise e)) w
    end.

(* ===================================================================== *)
(** * The repository interface (FastCRUD) *)
(* ===================================================================== *)

(** Modelled from the spec: the crud_* modules (crud_tiers,
    crud_rate_limits, crud_users, crud_token_blacklist) are not among the
    sources; the specification describes them as a generic persistent
    repository exposing get/create/update/delete/exists over typed entities
    filtered by field predicates. [get] returns the first matching row,
    [exists] says whether one matches; a statement that needs the server
    fails with [OperationalError] when it does not answer; a write that
    breaks a column constraint declared in models/*.py (NOT NULL, UNIQUE)
    fails with [IntegrityError] and leaves the table as it was. *)
Module FastCRUD.

Definition query {A} (f : DB -> A) : M A :=
  fun w =>
    if available (db w) then (Ok (f (db w)), w) else (Raise OperationalError, w).

Definition exec {A} (f : DB -> result A * DB) : M A :=
  fun w =>
    if available (db w)
    then let '(r, d) := f (db w) in (r, mkWorld d (client w) (logs w))
    else (Raise OperationalError, w).

Definition get {R} (table : DB -> list R) (filters : R -> bool) : M (option R) :=
  query (fun d => find filters (table d)).

Definition exists_ {R} (table : DB -> list R) (filters : R -> bool) : M bool :=
  query (fun d => existsb filters (table d)).

(** A keyword filter [column=value] on a NOT NULL column whose value may
    be [None]: no row has a NULL there. *)
Definition eq_opt {V} (eqb : V -> V -> bool) (column : V) (value : option V) : bool :=
  match value with
  | Some v => eqb column v
  | None => false
  end.

End FastCRUD.

(** [name] is UNIQUE in the rate_limit table. *)
Fixpoint unique_names (rows : list RateLimit.t) : bool :=
  match rows with
  | [] => true
  | r :: rest =>
      negb (existsb (fun r' => String.eqb (RateLimit.name r') (RateLimit.name r)) rest)
      && unique_names rest
  end.

(* ===================================================================== *)
(** * core/config.py: the default rate limit *)
(* ===================================================================== *)

(** [config(name, default=...)]: the value of the environment variable when
    it is set, the default otherwise. *)
Definition config (environ : gmap string Z) (name : string) (default : Z) : Z :=
  match environ !! name with
  | Some v => v
  | None => default
  end.

Record Settings : Type := mkSettings {
  DEFAULT_RATE_LIMIT_LIMIT : Z;
  DEFAULT_RATE_LIMIT_PERIOD : Z
}.

Definition DefaultRateLimitSettings (environ : gmap string Z) : Settings :=
  {| DEFAULT_RATE_LIMIT_LIMIT := config environ "DEFAULT_RATE_LIMIT_LIMIT" 10;
     DEFAULT_RATE_LIMIT_PERIOD := config environ "DEFAULT_RATE_LIMIT_PERIOD" 3600 |}.

(* ===================================================================== *)
(** * schemas/rate_limit.py *)
(* ===================================================================== *)

(** The request bodies, as the endpoints receive them: the [path]
    validator has already run. *)
Record RateLimitCreate : Type := mkRateLimitCreate {
  create_path : string;
  create_limit : Z;
  create_period : Z;
  create_name : option string
}.

Record RateLimitUpdate : Type := mkRateLimitUpdate {
  update_path : option string;
  update_limit : option Z;
  update_period : option Z;
  update_name : option string
}.

(** [validate_and_sanitize_path] of [RateLimitBase] and of
    [RateLimitUpdate]. *)
Definition RateLimitCreate_validate (path : string) (limit period : Z) (name : option string)
  : RateLimitCreate :=
  mkRateLimitCreate (sanitize_path path) limit period name.

Definition RateLimitUpdate_validate (path : option string) (limit period : option Z)
    (name : option string) : RateLimitUpdate :=
  mkRateLimitUpdate
    (match path with Some v => Some (sanitize_path v) | None => None end)
    limit period name.

(* ===================================================================== *)
(** * The crud objects of the four tables *)
(* ===================================================================== *)

Module crud_rate_limits.

(** [create(db, object=RateLimitCreateInternal(...))]: the row gets the
    next id. *)
Definition create (tier_id : Z) (o : RateLimitCreate) : M RateLimit.t :=
  FastCRUD.exec (fun d =>
    match create_name o with
    | None => (Raise IntegrityError, d)
    | Some n =>
        let row := RateLimit.mk (rate_limit_seq d + 1) tier_id n
                     (create_path o) (create_limit o) (create_period o) in
        let rows := (rate_limit_rows d ++ [row])%list in
        if unique_names rows
        then (Ok row,
              mkDB (available d) (tier_rows d) rows (user_rows d) (token_blacklist_rows d)
                   (rate_limit_seq d + 1) (token_blacklist_seq d))
        else (Raise IntegrityError, d)
    end).

(** The fields of [object] that are set replace the row's. *)
Definition apply_update (v : RateLimitUpdate) (r : RateLimit.t) : RateLimit.t :=
  RateLimit.mk (RateLimit.id r) (RateLimit.tier_id r)
    (default (RateLimit.name r) (update_name v))
    (default (RateLimit.path r) (update_path v))
    (default (RateLimit.limit r) (update_limit v))
    (default (RateLimit.period r) (update_period v)).

(** [update(db, object=values, id=id)]. *)
Definition update (v : RateLimitUpdate) (id : Z) : M unit :=
  FastCRUD.exec (fun d =>
    let rows :=
      map (fun r => if RateLimit.id r =? id then apply_update v r else r) (rate_limit_rows d) in
    if unique_names rows
    then (Ok tt,
          mkDB (available d) (tier_rows d) rows (user_rows d) (token_blacklist_rows d)
               (rate_limit_seq d) (token_blacklist_seq d))
    else (Raise IntegrityError, d)).

(** [delete(db, id=id)]. *)
Definition delete (id : Z) : M unit :=
  FastCRUD.exec (fun d =>
    (Ok tt,
     mkDB (available d) (tier_rows d)
          (List.filter (fun r => negb (RateLimit.id r =? id)) (rate_limit_rows d))
          (user_rows d) (token_blacklist_rows d) (rate_limit_seq d) (token_blacklist_seq d))).

End crud_rate_limits.

Module crud_token_blacklist.

(** [create(db, object=TokenBlacklistCreate(token, expires_at))]; [token]
    is UNIQUE. *)
Definition create (token : string) (expires_at : Z) : M TokenBlacklist.t :=
  FastCRUD.exec (fun d =>
    if existsb (fun r => String.eqb (TokenBlacklist.token r) token) (token_blacklist_rows d)
    then (Raise IntegrityError, d)
    else
      let row := TokenBlacklist.mk (token_blacklist_seq d + 1) token expires_at in
      (Ok row,
       mkDB (available d) (tier_rows d) (rate_limit_rows d) (user_rows d) (token_blacklist_rows d ++ [row])%list
            (rate_limit_seq d) (token_blacklist_seq d + 1))).

End crud_token_blacklist.

(* ===================================================================== *)
(** * core/security.py *)
(* ===================================================================== *)

(** The claims of a decoded token that the code reads: [payload.get("sub")]
    and [payload.get("exp")]. *)
Record Payload : Type := mkPayload {
  sub : option string;
  exp : option Z
}.

(** [except cls: h]: the handler runs on the exceptions of the class, the
    others propagate. *)
Definition try_except_cls {A} (cls : exn -> bool) (m : M A) (h : exn -> M A) : M A :=
  try_except m (fun e => if cls e then h e else raise e).

Definition is_JWTError (e : exn) : bool :=
  match e with JWTError => true | _ => false end.

(** What the dependencies read of a request:
    [request.headers.get("Authorization")], [request.url.path] and
    [request.client.host]; the code reads the host of [request.client]
    without a test, so a client address is taken to be there. *)
Record Request : Type := mkRequest {
  authorization : option string;
  url_path : string;
  client_host : string
}.

Section Security.

(** The signature check of the token library under [SECRET_KEY] and
    [ALGORITHM]: the payload of a token the application's key signed,
    [None] for any other string. *)
Variable jwt_verify : string -> option Payload.

(** [jwt.decode(token, SECRET_KEY, algorithms=[ALGORITHM])]: fails with
    [JWTError] on a bad signature and on an [exp] claim in the past. *)
Definition jwt_decode (now : Z) (token : string) : M Payload :=
  match jwt_verify token with
  | None => raise JWTError
  | Some payload =>
      match exp payload with
      | Some e => if e <? now then raise JWTError else ret payload
      | None => ret payload
      end
  end.

(** Returns [TokenData(username_or_email)] or [None]. *)
Definition verify_token (now : Z) (token : string) : M (option string) :=
  is_blacklisted <-
    FastCRUD.exists_ token_blacklist_rows
      (fun r => String.eqb (TokenBlacklist.token r) token) ;;
  if is_blacklisted then ret None
  else
    try_except_cls is_JWTError
      (payload <- jwt_decode now token ;;
       match sub payload with
       | None => ret None
       | Some username_or_email => ret (Some username_or_email)
       end)
      (fun _ => ret None).

Definition blacklist_token (now : Z) (token : string) : M unit :=
  payload <- jwt_decode now token ;;
  expires_at <-
    match exp payload with
    | Some e => ret e
    | None => raise TypeError
    end ;;
  crud_token_blacklist.create token expires_at ;;;
  ret tt.

(** api/v1/logout.py *)
Definition logout (now : Z) (access_token : string) : M string :=
  try_except_cls is_JWTError
    (blacklist_token now access_token ;;;
     ret "Logged out successfully")
    (fun _ => raise (UnauthorizedException "Invalid token.")).

(* =================================================================== *)
(** * api/dependencies.py: resolving the caller *)
(* =================================================================== *)

Definition get_current_user (now : Z) (token : string) : M User.t :=
  token_data <- verify_token now token ;;
  match token_data with
  | None => raise (UnauthorizedException "User not authenticated.")
  | Some username_or_email =>
      user <-
        (if Str.contains "@" username_or_email
         then FastCRUD.get user_rows
                (fun u => String.eqb (User.email u) username_or_email
                          && Bool.eqb (User.is_deleted u) false)
         else FastCRUD.get user_rows
                (fun u => String.eqb (User.username u) username_or_email
                          && Bool.eqb (User.is_deleted u) false)) ;;
      match user with
      | Some u => ret u
      | None => raise (UnauthorizedException "User not authenticated.")
      end
  end.

Definition get_optional_user (now : Z) (request : Request) : M (option User.t) :=
  match authorization request with
  | None => ret None
  | Some token =>
      if negb (Str.truthy token) then ret None
      else
        try_except
          (let '(token_type, _, token_value) := Str.partition " " token in
           if negb (String.eqb (Str.lower token_type) "bearer")
              || negb (Str.truthy token_value)
           then ret None
           else
             token_data <- verify_token now token_value ;;
             match token_data with
             | None => ret None
             | Some _ =>
                 u <- get_current_user now token_value ;;
                 ret (Some u)
             end)
          (fun e =>
             match e with
             | HTTPException status_code detail =>
                 (if negb (status_code =? 401)
                  then logger ERROR
                         ("Unexpected HTTPException in get_optional_user: " ++ detail) None
                  else ret tt) ;;;
                 ret None
             | exc =>
                 logger ERROR "Unexpected error in get_optional_user: " (Some exc) ;;;
                 ret None
             end)
  end.

End Security.

(** [get_current_superuser]. *)
Definition get_current_superuser (current_user : User.t) : M User.t :=
  if negb (User.is_superuser current_user)
  then raise (ForbiddenException "You do not have enough privileges.")
  else ret current_user.

(* ===================================================================== *)
(** * api/dependencies.py: the rate limiter *)
(* ===================================================================== *)

(** The continuation of the first warning's literal over the next source
    line, with that line's indentation. *)
Definition continuation_indent : string := "                        ".

Definition rate_limiter (settings : Settings) (now : Z) (request : Request)
    (user : option User.t) : M unit :=
  let DEFAULT_LIMIT := DEFAULT_RATE_LIMIT_LIMIT settings in
  let DEFAULT_PERIOD := DEFAULT_RATE_LIMIT_PERIOD settings in
  let path := sanitize_path (url_path request) in
  policy <-
    match user with
    | Some u =>
        let user_id := UserIdentity (User.id u) in
        tier <- FastCRUD.get tier_rows
                  (fun t => FastCRUD.eq_opt Z.eqb (Tier.id t) (User.tier_id u)) ;;
        match tier with
        | Some t =>
            rate_limit <-
              FastCRUD.get rate_limit_rows
                (fun r => (RateLimit.tier_id r =? Tier.id t)
                          && String.eqb (RateLimit.path r) path) ;;
            match rate_limit with
            | Some r => ret (user_id, RateLimit.limit r, RateLimit.period r)
            | None =>
                logger WARNING
                  ("User " ++ str_identity user_id ++ " with tier '" ++ Tier.name t
                   ++ "' has no specific rate limit for path '" ++ path ++ "'. "
                   ++ continuation_indent ++ "Applying default rate limit.") None ;;;
                ret (user_id, DEFAULT_LIMIT, DEFAULT_PERIOD)
            end
        | None =>
            logger WARNING
              ("User " ++ str_identity user_id
               ++ " has no assigned tier. Applying default rate limit.") None ;;;
            ret (user_id, DEFAULT_LIMIT, DEFAULT_PERIOD)
        end
    | None =>
        let user_id := AnonymousIdentity (client_host request) in
        ret (user_id, DEFAULT_LIMIT, DEFAULT_PERIOD)
    end ;;
  let '(user_id, limit, period) := policy in
  is_limited <- is_rate_limited now user_id path limit period ;;
  if is_limited then raise (RateLimitException "Rate limit exceeded.")
  else ret tt.

(* ===================================================================== *)
(** * api/v1/rate_limits.py *)
(* ===================================================================== *)

Definition tier_by_name (tier_name : string) : M (option Tier.t) :=
  FastCRUD.get tier_rows (fun t => String.eqb (Tier.name t) tier_name).

Definition write_rate_limit (tier_name : string) (rate_limit : RateLimitCreate)
  : M RateLimit.t :=
  db_tier <- tier_by_name tier_name ;;
  match db_tier with
  | None => raise (NotFoundException "Tier not found")
  | Some db_tier =>
      db_rate_limit <-
        FastCRUD.exists_ rate_limit_rows
          (fun r => FastCRUD.eq_opt String.eqb (RateLimit.name r) (create_name rate_limit)) ;;
      if db_rate_limit
      then raise (DuplicateValueException "Rate Limit Name not available")
      else
        let rate_limit_internal :=
          RateLimitCreate_validate (create_path rate_limit) (create_limit rate_limit)
            (create_period rate_limit) (create_name rate_limit) in
        crud_rate_limits.create (Tier.id db_tier) rate_limit_internal
  end.

Definition patch_rate_limit (tier_name : string) (id : Z) (values : RateLimitUpdate)
  : M string :=
  db_tier <- tier_by_name tier_name ;;
  match db_tier with
  | None => raise (NotFoundException "Tier not found")
  | Some db_tier =>
      db_rate_limit <-
        FastCRUD.get rate_limit_rows
          (fun r => (RateLimit.tier_id r =? Tier.id db_tier) && (RateLimit.id r =? id)) ;;
      match db_rate_limit with
      | None => raise (NotFoundException "Rate Limit not found")
      | Some db_rate_limit =>
          db_rate_limit_path <-
            FastCRUD.exists_ rate_limit_rows
              (fun r => (RateLimit.tier_id r =? Tier.id db_tier)
                        && FastCRUD.eq_opt String.eqb (RateLimit.path r) (update_path values)) ;;
          if db_rate_limit_path
          then raise (DuplicateValueException "There is already a rate limit for this path")
          else
            FastCRUD.exists_ rate_limit_rows (fun _ => true) ;;;
            if db_rate_limit_path
            then raise (DuplicateValueException "There is already a rate limit with this name")
            else
              crud_rate_limits.update values (RateLimit.id db_rate_limit) ;;;
              ret "Rate Limit updated"
      end
  end.

Definition erase_rate_limit (tier_name : string) (id : Z) : M string :=
  db_tier <- tier_by_name tier_name ;;
  match db_tier with
  | None => raise (NotFoundException "Tier not found")
  | Some db_tier =>
      db_rate_limit <-
        FastCRUD.get rate_limit_rows
          (fun r => (RateLimit.tier_id r =? Tier.id db_tier) && (RateLimit.id r =? id)) ;;
      match db_rate_limit with
      | None => raise (NotFoundException "Rate Limit not found")
      | Some db_rate_limit =>
          crud_rate_limits.delete (RateLimit.id db_rate_limit) ;;;
          ret "Rate Limit deleted"
      end
  end.

(* ===================================================================== *)
(** * Sequences of requests *)
(* ===================================================================== *)

#[global] Instance Identity_eq_dec : EqDecision Identity.
Proof. solve_decision. Defined.

(** One call of the limiter: the clock reading and the arguments. *)
Record Call : Type := mkCall {
  call_now : Z;
  call_user_id : Identity;
  call_path : string;
  call_limit : Z;
  call_period : Z
}.

(** The key a call counts against. *)
Definition call_key (c : Call) : string :=
  ratelimit_key (call_user_id c) (sanitize_path (call_path c))
    (call_now c - call_now c mod call_period c).

(** The calls served one after the other on the same world, with the
    outcome of each. *)
Fixpoint run_calls (cs : list Call) (w : World) : list (result bool) * World :=
  match cs with
  | [] => ([], w)
  | c :: cs' =>
      let '(res, w') :=
        is_rate_limited (call_now c) (call_user_id c) (call_path c)
          (call_limit c) (call_period c) w in
      let '(rs, w'') := run_calls cs' w' in
      (res :: rs, w'')
  end.

(** The calls of identity [user_id] on [path] under the rule
    [(limit, period)] whose clock reading lies in the window that starts at
    [window_start]. *)
Definition in_window (user_id : Identity) (path : string) (limit period window_start : Z)
    (c : Call) : bool :=
  bool_decide (call_user_id c = user_id /\ call_path c = path
               /\ call_limit c = limit /\ call_period c = period
               /\ (call_now c / period) * period = window_start).

(** How many of the calls [cs] are of that identity, path and window. *)
Definition requests_in_window (user_id : Identity) (path : string)
    (limit period window_start : Z) (cs : list Call) : Z :=
  Z.of_nat (length (List.filter (in_window user_id path limit period window_start) cs)).

(** A call that counts against another key than [key], or fails before it
    reaches the store. *)
Definition elsewhere (key : string) (c : Call) : Prop :=
  call_period c <> 0 -> call_key c <> key.

(** The counter under [key] stands at [k] for the window
    [[window_start, window_start + period)]: nothing live there before the
    first request, afterwards the count with an expiry no earlier than the
    end of the window. *)
Definition counted (key : string) (period window_start k : Z) (r : Redis) : Prop :=
  (k = 0 /\ forall e, store r !! key = Some e -> live window_start e = false)
  \/ (0 < k /\ exists d, store r !! key = Some (k, Some d) /\ window_start + period <= d).

(** Requests of one caller on one route at the clock readings [times],
    each passed through the [rate_limiter] dependency. *)
Fixpoint run_limiter (settings : Settings) (request : Request) (user : option User.t)
    (times : list Z) (w : World) : list (result unit) * World :=
  match times with
  | [] => ([], w)
  | now :: times' =>
      let '(res, w') := rate_limiter settings now request user w in
      let '(rs, w'') := run_limiter settings request user times' w' in
      (res :: rs, w'')
  end.

(** A fault of the server, as opposed to an answer of the application
    (an [HTTPException] with its status code). *)
Definition is_server_fault (e : exn) : bool :=
  match e with
  | HTTPException _ _ => false
  | _ => true
  end.

(** The tier assigned to a user and the rule of a tier for a path, as the
    two lookups of [rate_limiter] find them. *)
Definition tier_of (d : DB) (u : User.t) : option Tier.t :=
  find (fun t => FastCRUD.eq_opt Z.eqb (Tier.id t) (User.tier_id u)) (tier_rows d).

Definition rule_of (d : DB) (t : Tier.t) (path : string) : option RateLimit.t :=
  find (fun r => (RateLimit.tier_id r =? Tier.id t) && String.eqb (RateLimit.path r) path)
       (rate_limit_rows d).

(** Tier resolution in the specification's words: an anonymous caller gets
    the system default; an authenticated one gets the rule of its tier for
    the path when the tier is assigned and the rule exists, and the system
    default otherwise. *)
Definition spec_tier_resolution (settings : Settings) (d : DB) (request : Request)
    (user : option User.t) : Identity * Z * Z :=
  let path := sanitize_path (url_path request) in
  let system_default :=
    (DEFAULT_RATE_LIMIT_LIMIT settings, DEFAULT_RATE_LIMIT_PERIOD settings) in
  match user with
  | None => (AnonymousIdentity (client_host request), system_default.1, system_default.2)
  | Some u =>
      match tier_of d u with
      | None => (UserIdentity (User.id u), system_default.1, system_default.2)
      | Some t =>
          match rule_of d t path with
          | Some r => (UserIdentity (User.id u), RateLimit.limit r, RateLimit.period r)
          | None => (UserIdentity (User.id u), system_default.1, system_default.2)
          end
      end
  end.

(** A store that cannot serve the limiter: no client, or no answer. *)
Definition store_down (w : World) : Prop :=
  client w = None \/ exists r, client w = Some r /\ reachable r = false.

(** The limiter applied to a resolved policy, as [rate_limiter] ends. *)
Definition enforce (now : Z) (path : string) (policy : Identity * Z * Z) : M unit :=
  let '(user_id, limit, period) := policy in
  is_limited <- is_rate_limited now user_id path limit period ;;
  if is_limited then raise (RateLimitException "Rate limit exceeded.")
  else ret tt.

(** [patch_rate_limit] with the second, unfiltered [exists] call and the
    guard that follows it taken out. *)
Definition patch_rate_limit_without_name_guard (tier_name : string) (id : Z)
    (values : RateLimitUpdate) : M string :=
  db_tier <- tier_by_name tier_name ;;
  match db_tier with
  | None => raise (NotFoundException "Tier not found")
  | Some db_tier =>
      db_rate_limit <-
        FastCRUD.get rate_limit_rows
          (fun r => (RateLimit.tier_id r =? Tier.id db_tier) && (RateLimit.id r =? id)) ;;
      match db_rate_limit with
      | None => raise (NotFoundException "Rate Limit not found")
      | Some db_rate_limit =>
          db_rate_limit_path <-
            FastCRUD.exists_ rate_limit_rows
              (fun r => (RateLimit.tier_id r =? Tier.id db_tier)
                        && FastCRUD.eq_opt String.eqb (RateLimit.path r) (update_path values)) ;;
          if db_rate_limit_path
          then raise (DuplicateValueException "There is already a rate limit for this path")
          else
            crud_rate_limits.update values (RateLimit.id db_rate_limit) ;;;
            ret "Rate Limit updated"
      end
  end.

(** The invariant of the data model: at most one rule per
    [(tier_id, path)]. *)
Definition one_rule_per_tier_path (rows : list RateLimit.t) : Prop :=
  NoDup (map (fun r => (RateLimit.tier_id r, RateLimit.path r)) rows).

#[global] Instance one_rule_per_tier_path_dec rows : Decision (one_rule_per_tier_path rows).
Proof. unfold one_rule_per_tier_path. apply _. Defined.

(* ===================================================================== *)
(** * api/v1/rate_limits.py: reading one rule *)
(* ===================================================================== *)

Definition read_rate_limit (tier_name : string) (id : Z) : M RateLimit.t :=
  db_tier <- tier_by_name tier_name ;;
  match db_tier with
  | None => raise (NotFoundException "Tier not found")
  | Some db_tier =>
      db_rate_limit <-
        FastCRUD.get rate_limit_rows
          (fun r => (RateLimit.tier_id r =? Tier.id db_tier) && (RateLimit.id r =? id)) ;;
      match db_rate_limit with
      | None => raise (NotFoundException "Rate Limit not found")
      | Some db_rate_limit => ret db_rate_limit
      end
  end.

(** The table of rules as the database keeps it: ids distinct and handed
    out below the sequence, names distinct. *)
Definition rate_limit_table_ok (d : DB) : Prop :=
  NoDup (map RateLimit.id (rate_limit_rows d))
  /\ Forall (fun r => RateLimit.id r <= rate_limit_seq d) (rate_limit_rows d)
  /\ unique_names (rate_limit_rows d) = true.

(* ===================================================================== *)
(** * core/security.py and api/v1/login.py: issuing tokens *)
(* ===================================================================== *)

(** core/config.py: the two durations of [CryptSettings]. *)
Record CryptSettings : Type := mkCryptSettings {
  ACCESS_TOKEN_EXPIRE_MINUTES : Z;
  REFRESH_TOKEN_EXPIRE_DAYS : Z
}.

Definition load_CryptSettings (environ : gmap string Z) : CryptSettings :=
  {| ACCESS_TOKEN_EXPIRE_MINUTES := config environ "ACCESS_TOKEN_EXPIRE_MINUTES" 30;
     REFRESH_TOKEN_EXPIRE_DAYS := config environ "REFRESH_TOKEN_EXPIRE_DAYS" 7 |}.

(** A [timedelta | None] in whole seconds; [if expires_delta:] holds for a
    delta that is there and is not zero. *)
Definition timedelta_truthy (expires_delta : option Z) : bool :=
  match expires_delta with
  | Some seconds => negb (seconds =? 0)
  | None => false
  end.

(** What [login_for_access_token] answers: the body and the cookie it
    sets. *)
Record LoginResponse : Type := mkLoginResponse {
  access_token : string;
  token_type : string;
  refresh_token_cookie : string;
  refresh_token_max_age : Z
}.

Section Login.

(** The token library under [SECRET_KEY] and [ALGORITHM] ([jwt.encode] and
    the signature check of [jwt.decode]), [bcrypt.checkpw], and the
    [hashed_password] column of the user table, which the row record leaves
    out, read by primary key. *)
Variable jwt_verify : string -> option Payload.
Variable jwt_encode : Payload -> string.
Variable bcrypt_checkpw : string -> string -> bool.
Variable hashed_password : Z -> string.
Variable crypt : CryptSettings.

(** [data] is the dict of claims; the code adds ["exp"]. The clock reading
    [now] stands for [datetime.now(UTC)]. *)
Definition create_access_token (now : Z) (data : Payload) (expires_delta : option Z) : string :=
  let expire :=
    if timedelta_truthy expires_delta
    then now + default 0 expires_delta
    else now + ACCESS_TOKEN_EXPIRE_MINUTES crypt * 60 in
  jwt_encode (mkPayload (sub data) (Some expire)).

Definition create_refresh_token (now : Z) (data : Payload) (expires_delta : option Z) : string :=
  let expire :=
    if timedelta_truthy expires_delta
    then now + default 0 expires_delta
    else now + REFRESH_TOKEN_EXPIRE_DAYS crypt * 86400 in
  jwt_encode (mkPayload (sub data) (Some expire)).

Definition verify_password (plain_password hashed : string) : bool :=
  bcrypt_checkpw plain_password hashed.

(** Returns the user's row, or [False] (here [None]). *)
Definition authenticate_user (username_or_email password : string) : M (option User.t) :=
  db_user <-
    (if Str.contains "@" username_or_email
     then FastCRUD.get user_rows
            (fun u => String.eqb (User.email u) username_or_email
                      && Bool.eqb (User.is_deleted u) false)
     else FastCRUD.get user_rows
            (fun u => String.eqb (User.username u) username_or_email
                      && Bool.eqb (User.is_deleted u) false)) ;;
  match db_user with
  | None => ret None
  | Some u =>
      if negb (verify_password password (hashed_password (User.id u))) then ret None
      else ret (Some u)
  end.

(** api/v1/login.py; [now_access] and [now_refresh] are the clock readings
    of the two token constructors. *)
Definition login_for_access_token (now_access now_refresh : Z) (username password : string)
  : M LoginResponse :=
  user <- authenticate_user username password ;;
  match user with
  | None => raise (UnauthorizedException "Wrong username, email or password.")
  | Some u =>
      let access_token_expires := Some (ACCESS_TOKEN_EXPIRE_MINUTES crypt * 60) in
      let access_token :=
        create_access_token now_access (mkPayload (Some (User.username u)) None)
          access_token_expires in
      let refresh_token :=
        create_refresh_token now_refresh (mkPayload (Some (User.username u)) None) None in
      let max_age := REFRESH_TOKEN_EXPIRE_DAYS crypt * 24 * 60 * 60 in
      ret (mkLoginResponse access_token "bearer" refresh_token max_age)
  end.

(** [refresh_token] is [request.cookies.get("refresh_token")]. *)
Definition refresh_access_token (now now_access : Z) (refresh_token : option string)
  : M (string * string) :=
  match refresh_token with
  | None => raise (UnauthorizedException "Refresh token missing.")
  | Some refresh_token =>
      if negb (Str.truthy refresh_token)
      then raise (UnauthorizedException "Refresh token missing.")
      else
        user_data <- verify_token jwt_verify now refresh_token ;;
        match user_data with
        | None => raise (UnauthorizedException "Invalid refresh token.")
        | Some username_or_email =>
            let new_access_token :=
              create_access_token now_access (mkPayload (Some username_or_email) None) None in
            ret (new_access_token, "bearer")
        end
  end.

End Login.

(* ===================================================================== *)
(** * api/v1/users.py: deleting a user, assigning a tier *)
(* ===================================================================== *)

Module crud_users.

(** Modelled from the spec: [delete(db, username=...)] is a soft delete,
    marking a row deleted by its flag instead of removing it; the user
    table has the [is_deleted] column (models/user.py). *)
Definition delete (username : string) : M unit :=
  FastCRUD.exec (fun d =>
    (Ok tt,
     mkDB (available d) (tier_rows d) (rate_limit_rows d)
          (map (fun u =>
                  if String.eqb (User.username u) username
                  then User.mk (User.id u) (User.username u) (User.email u)
                         (User.is_superuser u) true (User.tier_id u)
                  else u) (user_rows d))
          (token_blacklist_rows d) (rate_limit_seq d) (token_blacklist_seq d))).

(** Modelled from the spec: [update(db, object=UserTierUpdate(tier_id),
    username=...)] writes the given column of the rows the filter
    selects. *)
Definition update_tier (tier_id : Z) (username : string) : M unit :=
  FastCRUD.exec (fun d =>
    (Ok tt,
     mkDB (available d) (tier_rows d) (rate_limit_rows d)
          (map (fun u =>
                  if String.eqb (User.username u) username
                  then User.mk (User.id u) (User.username u) (User.email u)
                         (User.is_superuser u) (User.is_deleted u) (Some tier_id)
                  else u) (user_rows d))
          (token_blacklist_rows d) (rate_limit_seq d) (token_blacklist_seq d))).

End crud_users.

Section Users.

(** The token library, the detail [ForbiddenException()] carries when it is
    raised without one, and the [name] column of the user table, read by
    primary key. *)
Variable jwt_verify : string -> option Payload.
Variable forbidden_detail : string.
Variable user_name : Z -> string.

(** [current_user] and [token] are what the [get_current_user] and
    [oauth2_scheme] dependencies resolved. *)
Definition erase_user (now : Z) (username : string) (current_user : User.t) (token : string)
  : M string :=
  db_user <- FastCRUD.get user_rows (fun u => String.eqb (User.username u) username) ;;
  match db_user with
  | None => raise (NotFoundException "User not found")
  | Some _ =>
      if negb (String.eqb username (User.username current_user))
      then raise (ForbiddenException forbidden_detail)
      else
        crud_users.delete username ;;;
        blacklist_token jwt_verify now token ;;;
        ret "User deleted"
  end.

Definition patch_user_tier (username : string) (values_tier_id : Z) : M string :=
  db_user <- FastCRUD.get user_rows (fun u => String.eqb (User.username u) username) ;;
  match db_user with
  | None => raise (NotFoundException "User not found")
  | Some db_user =>
      db_tier <- FastCRUD.get tier_rows (fun t => Tier.id t =? values_tier_id) ;;
      match db_tier with
      | None => raise (NotFoundException "Tier not found")
      | Some _ =>
          crud_users.update_tier values_tier_id username ;;;
          ret ("User " ++ user_name (User.id db_user) ++ " Tier updated")
      end
  end.

End Users.

(* ===================================================================== *)
(** * The dependency chain of a rate-limited route *)
(* ===================================================================== *)

(** [rate_limiter] declares [user = Depends(get_optional_user)]: the
    framework resolves the caller first and hands it to the limiter. *)
Definition rate_limiter_dependency (jwt_verify : string -> option Payload)
    (settings : Settings) (now : Z) (request : Request) : M unit :=
  user <- get_optional_user jwt_verify now request ;;
  rate_limiter settings now request user.

(** The subject a token stands for at [now] in a database: none when the
    token is blacklisted, when its signature or its expiry fails, or when
    it names no subject. *)
Definition token_subject (jwt_verify : string -> option Payload) (now : Z) (token : string)
    (d : DB) : option string :=
  if existsb (fun r => String.eqb (TokenBlacklist.token r) token) (token_blacklist_rows d)
  then None
  else match jwt_verify token with
       | None => None
       | Some payload =>
           match exp payload with
           | Some e => if e <? now then None else sub payload
           | None => sub payload
           end
       end.

(** The row a subject names: by email when it holds an '@', by username
    otherwise, soft-deleted rows left aside. *)
Definition user_of_subject (s : string) (d : DB) : option User.t :=
  find (fun u => String.eqb (if Str.contains "@" s then User.email u else User.username u) s
                 && Bool.eqb (User.is_deleted u) false)
       (user_rows d).

(** The user table after [crud_users.delete]. *)
Definition soft_deleted (username : string) (rows : list User.t) : list User.t :=
  map (fun u =>
         if String.eqb (User.username u) username
         then User.mk (User.id u) (User.username u) (User.email u)
                (User.is_superuser u) true (User.tier_id u)
         else u) rows.

(** The user table after [crud_users.update] with a tier id. *)
Definition tier_assigned (username : string) (tier_id : Z) (rows : list User.t)
  : list User.t :=
  map (fun u =>
         if String.eqb (User.username u) username
         then User.mk (User.id u) (User.username u) (User.email u)
                (User.is_superuser u) (User.is_deleted u) (Some tier_id)
         else u) rows.

(* ===================================================================== *)
(** * api/v1/rate_limits.py: the body of a PATCH, field by field *)
(* ===================================================================== *)

Module PatchBody.

(** A field of the request body as pydantic keeps it: left out, sent as
    [null], or sent with a value. Reading the attribute ([values.path])
    gives [None] for the first two alike; the set of fields that were sent,
    which the update writes, tells them apart. *)
Inductive Field (V : Type) : Type :=
| Unset
| Null
| Value (v : V).

Arguments Unset {V}.
Arguments Null {V}.
Arguments Value {V} v.

Record t : Type := mk {
  path : Field string;
  limit : Field Z;
  period : Field Z;
  name : Field string
}.

Definition attribute {V} (f : Field V) : option V :=
  match f with
  | Value v => Some v
  | Unset | Null => None
  end.

Definition is_null {V} (f : Field V) : bool :=
  match f with
  | Null => true
  | Unset | Value _ => false
  end.

Definition has_null (b : t) : bool :=
  is_null (path b) || is_null (limit b) || is_null (period b) || is_null (name b).

(** The [RateLimitUpdate] the endpoint receives: the attributes of the
    body, the path through its validator. *)
Definition values (b : t) : RateLimitUpdate :=
  RateLimitUpdate_validate (attribute (path b)) (attribute (limit b)) (attribute (period b))
    (attribute (name b)).

(** Modelled from the spec: [update(db, object=values, id=id)] writes the
    fields that the body sets, a null included. The columns path, limit,
    period and name are NOT NULL (models/rate_limit.py), so a null written
    into a row fails with [IntegrityError] and leaves the table as it
    was. *)
Definition update (b : t) (id : Z) : M unit :=
  fun w =>
    if available (db w) && has_null b
       && existsb (fun r => RateLimit.id r =? id) (rate_limit_rows (db w))
    then (Raise IntegrityError, w)
    else crud_rate_limits.update (values b) id w.

(** [patch_rate_limit] on such a body. *)
Definition patch_rate_limit (tier_name : string) (id : Z) (b : t) : M string :=
  let values := values b in
  db_tier <- tier_by_name tier_name ;;
  match db_tier with
  | None => raise (NotFoundException "Tier not found")
  | Some db_tier =>
      db_rate_limit <-
        FastCRUD.get rate_limit_rows
          (fun r => (RateLimit.tier_id r =? Tier.id db_tier) && (RateLimit.id r =? id)) ;;
      match db_rate_limit with
      | None => raise (NotFoundException "Rate Limit not found")
      | Some db_rate_limit =>
          db_rate_limit_path <-
            FastCRUD.exists_ rate_limit_rows
              (fun r => (RateLimit.tier_id r =? Tier.id db_tier)
                        && FastCRUD.eq_opt String.eqb (RateLimit.path r) (update_path values)) ;;
          if db_rate_limit_path
          then raise (DuplicateValueException "There is already a rate limit for this path")
          else
            FastCRUD.exists_ rate_limit_rows (fun _ => true) ;;;
            if db_rate_limit_path
            then raise (DuplicateValueException "There is already a rate limit with this name")
            else
              update b (RateLimit.id db_rate_limit) ;;;
              ret "Rate Limit updated"
      end
  end.

End PatchBody.

(* ===================================================================== *)
(** * Path sanitizing *)
(* ===================================================================== *)

Lemma rstrip_snoc (c : ascii) (s : string) :
  Str.rstrip c (s ++ String c EmptyString) = Str.rstrip c s.
Proof.
  induction s as [|a s IH]; simpl.
  - by rewrite Ascii.eqb_refl.
  - by rewrite IH.
Qed.

Lemma strip_snoc (c : ascii) (s : string) :
  Str.strip c (s ++ String c EmptyString) = Str.strip c s.
Proof.
  unfold Str.strip. induction s as [|a s IH]; simpl.
  - by rewrite Ascii.eqb_refl.
  - destruct (Ascii.eqb a c) eqn:E; [done|].
    change (String a (s ++ String c EmptyString)) with (String a s ++ String c EmptyString).
    apply rstrip_snoc.
Qed.

Lemma strip_cons (c : ascii) (s : string) :
  Str.strip c (String c s) = Str.strip c s.
Proof. unfold Str.strip. simpl. by rewrite Ascii.eqb_refl. Qed.

Lemma replace_no_occurrence (a b : ascii) (s : string) :
  a <> b -> Str.contains a (Str.replace a b s) = false.
Proof.
  intros Hab. induction s as [|x s IH]; simpl; [done|].
  rewrite IH, orb_false_r.
  destruct (Ascii.eqb x a) eqn:E; [|done].
  apply Ascii.eqb_neq. congruence.
Qed.

(** C7. [sanitize_path] drops the '/' at both ends and turns every other
    '/' into '_': a leading or a trailing '/' never changes the result, the
    result holds no '/', and "/users/", "users" and "/users" all give
    "users", hence one rate-limit key for any identity and window. *)
Theorem sanitize_path_normalizes :
  (forall p, sanitize_path ("/" ++ p) = sanitize_path p)
  /\ (forall p, sanitize_path (p ++ "/") = sanitize_path p)
  /\ (forall p, Str.contains "/" (sanitize_path p) = false)
  /\ sanitize_path "/users/" = "users"
  /\ sanitize_path "users" = "users"
  /\ sanitize_path "/users" = "users"
  /\ sanitize_path "/api/v1/users/" = "api_v1_users"
  /\ (forall user_id window_start,
        ratelimit_key user_id (sanitize_path "/users/") window_start
        = ratelimit_key user_id (sanitize_path "users") window_start
        /\ ratelimit_key user_id (sanitize_path "/users") window_start
           = ratelimit_key user_id (sanitize_path "users") window_start).
Proof.
  split; [|split; [|split]].
  - intros p. unfold sanitize_path. change ("/" ++ p) with (String "/" p).
    by rewrite strip_cons.
  - intros p. unfold sanitize_path. by rewrite (strip_snoc "/" p).
  - intros p. unfold sanitize_path. by apply replace_no_occurrence.
  - repeat split; reflexivity.
Qed.

Example ratelimit_key_users :
  ratelimit_key (UserIdentity 7) (sanitize_path "/api/v1/users/") 120
  = "ratelimit:7:api_v1_users:120"
  /\ ratelimit_key (AnonymousIdentity "10.0.0.1") (sanitize_path "users") 0
     = "ratelimit:10.0.0.1:users:0".
Proof. split; reflexivity. Qed.

Example partition_lower_bearer :
  Str.partition " " "BEARER abc def" = ("BEARER", " ", "abc def")
  /\ Str.partition " " "token" = ("token", "", "")
  /\ Str.lower "BeArEr" = "bearer".
Proof. repeat split; reflexivity. Qed.

(* ===================================================================== *)
(** * The fixed-window counter *)
(* ===================================================================== *)

(** [now - now % period] is [floor(now / period) * period], and [now] lies
    in the window that starts there. *)
Lemma window_start_floor (now period : Z) :
  0 < period ->
  now - now mod period = (now / period) * period
  /\ now - now mod period <= now < now - now mod period + period.
Proof.
  intros HT. pose proof (Z.mod_pos_bound now period HT).
  pose proof (Z.div_mod now period). lia.
Qed.

Lemma live_later (t t' : Z) (e : Z * option Z) :
  live t e = false -> t <= t' -> live t' e = false.
Proof.
  unfold live. destruct (e.2) as [d|]; [|done].
  rewrite !Z.ltb_ge. lia.
Qed.

Lemma ratelimit_key_window_inj user_id p ws ws' :
  ratelimit_key user_id p ws = ratelimit_key user_id p ws' -> ws = ws'.
Proof.
  unfold ratelimit_key. intros H.
  do 5 apply String.app_inj in H.
  by apply (inj pretty) in H.
Qed.

(** One call against the key of its own window: the count goes from [k] to
    [k + 1], the answer is whether [k + 1] exceeds the limit, and no other
    key changes. *)
Lemma is_rate_limited_counts now user_id path limit period w r k :
  client w = Some r -> reachable r = true -> 0 < period -> 0 <= k ->
  counted (ratelimit_key user_id (sanitize_path path) (now - now mod period))
    period (now - now mod period) k r ->
  exists r',
    is_rate_limited now user_id path limit period w
    = (Ok (k + 1 >? limit), mkWorld (db w) (Some r') (logs w))
    /\ reachable r' = true
    /\ counted (ratelimit_key user_id (sanitize_path path) (now - now mod period))
         period (now - now mod period) (k + 1) r'
    /\ forall key', key' <> ratelimit_key user_id (sanitize_path path) (now - now mod period) ->
         store r' !! key' = store r !! key'.
Proof.
  intros Hc Hr HT Hk Hcnt.
  destruct (window_start_floor now period HT) as [_ Hwin].
  set (ws := now - now mod period) in *.
  set (key := ratelimit_key user_id (sanitize_path path) ws) in *.
  unfold is_rate_limited. rewrite Hc.
  unfold py_mod. destruct (Z.eqb_spec period 0) as [?|_]; [lia|].
  unfold bind at 1. unfold ret at 1. fold ws. fold key.
  unfold try_except, bind, client_call. rewrite Hc.
  unfold redis_incr. rewrite Hr.
  destruct Hcnt as [[-> Hfresh]|[Hpos (d & Hd & Hdl)]].
  - assert (redis_lookup now key r = None) as ->.
    { unfold redis_lookup. destruct (store r !! key) as [e|] eqn:E; [|done].
      by rewrite (live_later ws now e (Hfresh e eq_refl)) by lia. }
    simpl. unfold redis_expire, redis_lookup. simpl.
    rewrite ?Hr, lookup_insert_eq. simpl.
    destruct (Z.leb_spec period 0) as [?|_]; [lia|]. simpl.
    change (0 + 1) with 1.
    eexists. split; [destruct (1 >? limit); reflexivity|]. simpl. split; [done|]. split.
    + right. split; [lia|]. exists (now + period). simpl.
      rewrite insert_insert_eq, lookup_insert_eq. split; [done|lia].
    + intros key' Hne. by rewrite insert_insert_eq, lookup_insert_ne.
  - assert (redis_lookup now key r = Some (k, Some d)) as ->.
    { unfold redis_lookup. rewrite Hd. unfold live. simpl.
      destruct (Z.ltb_spec now d); [done|lia]. }
    simpl. destruct (Z.eqb_spec (k + 1) 1) as [?|_]; [lia|].
    unfold ret. simpl.
    eexists. split; [by destruct (k + 1 >? limit)|]. simpl. split; [done|]. split.
    + right. split; [lia|]. exists d. simpl. by rewrite lookup_insert_eq.
    + intros key' Hne. by rewrite lookup_insert_ne.
Qed.

(** The two store commands touch their own key only. *)
Lemma redis_incr_frame now key r res r' :
  redis_incr now key r = (res, r') ->
  reachable r' = reachable r
  /\ forall key', key' <> key -> store r' !! key' = store r !! key'.
Proof.
  unfold redis_incr. intros H.
  destruct (reachable r) eqn:Hr; [|by simplify_eq].
  destruct (redis_lookup now key r) as [[n d]|]; simplify_eq; simpl;
    (split; [done|]); intros key' Hne; by rewrite lookup_insert_ne.
Qed.

Lemma redis_expire_frame now key seconds r res r' :
  redis_expire now key seconds r = (res, r') ->
  reachable r' = reachable r
  /\ forall key', key' <> key -> store r' !! key' = store r !! key'.
Proof.
  unfold redis_expire. intros H.
  destruct (reachable r) eqn:Hr; [|by simplify_eq].
  destruct (redis_lookup now key r) as [[n d]|]; [|by simplify_eq].
  destruct (seconds <=? 0); simplify_eq; simpl;
    (split; [done|]); intros key' Hne.
  - by rewrite lookup_delete_ne.
  - by rewrite lookup_insert_ne.
Qed.

(** Whatever its arguments and its outcome, a call of the limiter leaves
    the database, the reachability of the store and every key but its own
    as they were. *)
Lemma is_rate_limited_frame now user_id path limit period w r res w' :
  client w = Some r ->
  is_rate_limited now user_id path limit period w = (res, w') ->
  db w' = db w
  /\ exists r',
       client w' = Some r' /\ reachable r' = reachable r
       /\ forall key',
            (period <> 0 ->
             key' <> ratelimit_key user_id (sanitize_path path) (now - now mod period)) ->
            store r' !! key' = store r !! key'.
Proof.
  intros Hc. unfold is_rate_limited. rewrite Hc.
  unfold py_mod. destruct (Z.eqb_spec period 0) as [->|Hp].
  { intros H. unfold bind, raise in H. simplify_eq. eauto 6. }
  unfold bind at 1. unfold ret at 1.
  set (key := ratelimit_key user_id (sanitize_path path) (now - now mod period)).
  unfold try_except, bind, client_call. rewrite Hc.
  destruct (redis_incr now key r) as [r1 s1] eqn:E1.
  apply redis_incr_frame in E1 as [Hr1 Hs1].
  destruct r1 as [n|e]; simpl.
  2:{ intros H. unfold logger, raise in H. simplify_eq. simpl. split; [done|].
      exists s1. split; [done|]. split; [done|]. intros key' Hk. apply Hs1. auto. }
  intros H. destruct (n =? 1); simpl in H.
  - destruct (redis_expire now key period s1) as [r2 s2] eqn:E2.
    apply redis_expire_frame in E2 as [Hr2 Hs2].
    destruct r2 as [b|e]; simpl in H.
    + destruct (n >? limit); unfold ret in H; simpl in H; simplify_eq; simpl;
        (split; [done|]); exists s2; (split; [done|]); (split; [congruence|]);
        intros key' Hk; rewrite Hs2, Hs1; auto.
    + unfold logger, raise in H. simplify_eq. simpl. split; [done|].
      exists s2. split; [done|]. split; [congruence|].
      intros key' Hk. rewrite Hs2, Hs1; auto.
  - destruct (n >? limit); unfold ret in H; simpl in H; simplify_eq; simpl;
      (split; [done|]); exists s1; (split; [done|]); (split; [congruence|]);
      intros key' Hk; rewrite Hs1; auto.
Qed.

Section FixedWindow.

Variables (user_id : Identity) (path : string) (limit period window_start : Z).
Hypothesis period_pos : 0 < period.

Local Abbreviation key := (ratelimit_key user_id (sanitize_path path) window_start).
Local Abbreviation mine := (in_window user_id path limit period window_start).
Local Abbreviation count := (requests_in_window user_id path limit period window_start).

Lemma mine_spec c :
  mine c = true ->
  call_user_id c = user_id /\ call_path c = path /\ call_limit c = limit
  /\ call_period c = period
  /\ call_now c - call_now c mod period = window_start.
Proof.
  unfold in_window. intros H. apply bool_decide_eq_true in H.
  destruct H as (? & ? & ? & ? & H). repeat (split; [done|]).
  by destruct (window_start_floor (call_now c) period period_pos) as [-> _].
Qed.

Lemma count_cons c cs :
  count (c :: cs) = (if mine c then 1 else 0) + count cs.
Proof.
  unfold requests_in_window. simpl. destruct (mine c); simpl; lia.
Qed.

Lemma count_nonneg cs : 0 <= count cs.
Proof. unfold requests_in_window. lia. Qed.

(** Serving a sequence of calls: the calls of this window see the counter
    grow by one each, the others leave it alone. *)
Lemma run_calls_counted cs :
  forall w r k,
    client w = Some r -> reachable r = true -> 0 <= k ->
    counted key period window_start k r ->
    Forall (fun c => mine c = true \/ elsewhere key c) cs ->
    (forall i c, cs !! i = Some c -> mine c = true ->
       (run_calls cs w).1 !! i = Some (Ok (k + count (take (S i) cs) >? limit)))
    /\ db (run_calls cs w).2 = db w
    /\ exists r',
         client (run_calls cs w).2 = Some r' /\ reachable r' = true
         /\ counted key period window_start (k + count cs) r'
         /\ forall key',
              Forall (fun c => call_period c <> 0 -> call_key c <> key') cs ->
              store r' !! key' = store r !! key'.
Proof.
  induction cs as [|c cs IH]; intros w r k Hc Hr Hk Hcnt Hall.
  - simpl. split; [by intros i c Hi|]. split; [done|].
    exists r. unfold requests_in_window. simpl. rewrite Z.add_0_r. eauto.
  - apply Forall_cons in Hall as [Hc0 Hall]. simpl.
    destruct (is_rate_limited (call_now c) (call_user_id c) (call_path c)
                (call_limit c) (call_period c) w) as [res w1] eqn:E.
    destruct (run_calls cs w1) as [rs w2] eqn:E2.
    rewrite count_cons.
    destruct (mine c) eqn:Hm.
    + destruct (mine_spec c Hm) as (Hu & Hp & Hl & Hpe & Hws).
      rewrite Hu, Hp, Hl, Hpe in E.
      destruct (is_rate_limited_counts (call_now c) user_id path limit period w r k)
        as (r1 & E' & Hr1 & Hcnt1 & Hfr1); auto.
      { by rewrite Hws. }
      rewrite Hws in Hcnt1, Hfr1. rewrite E in E'. injection E' as -> ->.
      destruct (IH (mkWorld (db w) (Some r1) (logs w)) r1 (k + 1)
                  eq_refl Hr1 ltac:(lia) Hcnt1 Hall)
        as (Hres & Hdb & r2 & Hc2 & Hr2 & Hcnt2 & Hfr2).
      rewrite E2 in Hres, Hdb, Hc2. simpl in *.
      split; [|split; [done|]].
      * intros [|i] c' Hi Hm'; simpl in *.
        -- rewrite count_cons, Hm.
           unfold requests_in_window. simpl. f_equal; f_equal; f_equal; lia.
        -- rewrite count_cons, Hm. rewrite (Hres i c' Hi Hm').
           f_equal; f_equal; f_equal; lia.
      * exists r2. split; [done|]. split; [done|]. split.
        -- by replace (k + (1 + count cs)) with (k + 1 + count cs) by lia.
        -- intros key' Hk'. apply Forall_cons in Hk' as [Hk0 Hk'].
           rewrite Hfr2 by done. apply Hfr1.
           intros ->. apply Hk0; [lia|].
           unfold call_key. by rewrite Hu, Hp, Hpe, Hws.
    + destruct Hc0 as [?|Hel]; [congruence|].
      destruct (is_rate_limited_frame _ _ _ _ _ _ _ _ _ Hc E)
        as (Hdb1 & r1 & Hc1 & Hr1 & Hfr1).
      assert (store r1 !! key = store r !! key) as Hsame.
      { apply Hfr1. intros Hp0 Heq. by apply (Hel Hp0). }
      assert (counted key period window_start k r1) as Hcnt1.
      { unfold counted. by rewrite Hsame. }
      destruct (IH _ r1 k Hc1 ltac:(congruence) Hk Hcnt1 Hall)
        as (Hres & Hdb & r2 & Hc2 & Hr2 & Hcnt2 & Hfr2).
      rewrite E2 in Hres, Hdb, Hc2. simpl in *.
      split; [|split; [congruence|]].
      * intros [|i] c' Hi Hm'; simpl in *.
        -- congruence.
        -- rewrite count_cons, Hm. by rewrite (Hres i c' Hi Hm').
      * exists r2. split; [done|]. split; [done|]. split; [done|].
        intros key' Hk'. apply Forall_cons in Hk' as [Hk0 Hk'].
        rewrite Hfr2 by done. apply Hfr1.
        intros Hp0 Heq. by apply (Hk0 Hp0).
Qed.

End FixedWindow.

Lemma run_calls_frame cs :
  forall w r,
    client w = Some r ->
    db (run_calls cs w).2 = db w
    /\ exists r',
         client (run_calls cs w).2 = Some r' /\ reachable r' = reachable r
         /\ forall key', Forall (elsewhere key') cs -> store r' !! key' = store r !! key'.
Proof.
  induction cs as [|c cs IH]; intros w r Hc; simpl.
  - split; [done|]. exists r. auto.
  - destruct (is_rate_limited (call_now c) (call_user_id c) (call_path c)
                (call_limit c) (call_period c) w) as [res w1] eqn:E.
    destruct (is_rate_limited_frame _ _ _ _ _ _ _ _ _ Hc E)
      as (Hdb1 & r1 & Hc1 & Hr1 & Hfr1).
    destruct (IH w1 r1 Hc1) as (Hdb2 & r2 & Hc2 & Hr2 & Hfr2).
    destruct (run_calls cs w1) as [rs w2]. simpl in *.
    split; [congruence|]. exists r2. split; [done|]. split; [congruence|].
    intros key' Hk'. apply Forall_cons in Hk' as [Hk0 Hk'].
    rewrite Hfr2 by done. apply Hfr1.
    intros Hp0 Heq. by apply (Hk0 Hp0).
Qed.

Lemma requests_in_window_take user_id path limit period window_start cs i c :
  cs !! i = Some c ->
  in_window user_id path limit period window_start c = true ->
  1 <= requests_in_window user_id path limit period window_start (take (S i) cs).
Proof.
  intros Hi Hm. unfold requests_in_window.
  rewrite (take_S_r cs i c Hi), List.filter_app, length_app. simpl.
  rewrite Hm. simpl. lia.
Qed.

(** C1. Under the rule [(limit, period)] with [0 <= limit] and
    [0 < period], among the calls of one identity on one path whose clock
    reading [t] has [floor(t / period) * period = window_start], interleaved
    in any way with calls that count against other keys, the [n]-th is
    allowed ([False]) when [n <= limit] and rejected ([True]) when
    [limit < n]; with [limit = 0] every one of them is rejected. The store
    is reachable and holds no live counter for the window beforehand. *)
Theorem fixed_window_limit user_id path limit period window_start cs w r i c :
  0 <= limit -> 0 < period ->
  client w = Some r -> reachable r = true ->
  (forall e,
     store r !! ratelimit_key user_id (sanitize_path path) window_start = Some e ->
     live window_start e = false) ->
  Forall (fun c => in_window user_id path limit period window_start c = true
                   \/ elsewhere (ratelimit_key user_id (sanitize_path path) window_start) c)
         cs ->
  cs !! i = Some c ->
  in_window user_id path limit period window_start c = true ->
  let n := requests_in_window user_id path limit period window_start (take (S i) cs) in
  1 <= n
  /\ (n <= limit -> (run_calls cs w).1 !! i = Some (Ok false))
  /\ (limit < n -> (run_calls cs w).1 !! i = Some (Ok true))
  /\ (limit = 0 -> (run_calls cs w).1 !! i = Some (Ok true)).
Proof.
  intros HL HT Hc Hr Hfresh Hall Hi Hm n.
  pose proof (requests_in_window_take _ _ _ _ _ _ _ _ Hi Hm) as Hn. fold n in Hn.
  destruct (run_calls_counted user_id path limit period window_start HT cs w r 0)
    as (Hres & _); auto; [lia|by left|].
  specialize (Hres i c Hi Hm). rewrite Z.add_0_l in Hres. fold n in Hres.
  split; [done|]. repeat split; intros H; rewrite Hres; do 2 f_equal; lia.
Qed.

(** A user sends three requests on "/users" within the minute that starts
    at 120 under the rule (2, 60), while an anonymous caller hits the same
    path: the third is rejected. *)
Lemma fixed_window_limit_witness :
  (run_calls
     [mkCall 120 (UserIdentity 7) "/users" 2 60;
      mkCall 125 (AnonymousIdentity "10.0.0.1") "/users" 10 3600;
      mkCall 130 (UserIdentity 7) "/users" 2 60;
      mkCall 179 (UserIdentity 7) "/users" 2 60]
     (mkWorld (mkDB true [] [] [] [] 0 0) (Some (mkRedis true ∅)) [])).1 !! 3%nat
  = Some (Ok true).
Proof.
  refine (proj1 (proj2 (proj2
    (fixed_window_limit (UserIdentity 7) "/users" 2 60 120 _ _ (mkRedis true ∅) 3
       (mkCall 179 (UserIdentity 7) "/users" 2 60) _ _ _ _ _ _ _ _))) _).
  - lia.
  - lia.
  - reflexivity.
  - reflexivity.
  - intros e He. simpl in He. by rewrite lookup_empty in He.
  - apply Forall_cons; split; [by left|].
    apply Forall_cons; split; [right; intros _; vm_compute; discriminate|].
    apply Forall_cons; split; [by left|].
    apply Forall_cons; split; [by left|].
    apply Forall_nil_2.
  - reflexivity.
  - reflexivity.
  - vm_compute. reflexivity.
Defined.

Lemma next_window_start (now now' period : Z) :
  0 < period ->
  (now / period) * period + period <= now' ->
  (now / period) * period + period <= (now' / period) * period.
Proof.
  intros HT H.
  assert (now / period + 1 <= now' / period) as Hq.
  { replace (now / period + 1) with ((now / period * period + period) / period).
    - by apply Z.div_le_mono.
    - replace (now / period * period + period) with ((now / period + 1) * period) by lia.
      apply Z.div_mul. lia. }
  nia.
Qed.

(** C2, as the code has it. Let [window_start = floor(now / period) * period]
    (which the code computes as [now - now % period]) and let a request of
    the same identity on the same path arrive at [now' >= window_start +
    period], after any number of requests [cs] of the earlier window and
    any number of requests [cs'] of the window of [now'], both mixed with
    calls that count against other keys. It is counted under another key
    than the earlier window's, and that counter starts afresh: with [n] the
    number of requests of the new window so far, this one included, the
    counter stands at [n] after it, however many requests the earlier
    window saw, and the request is allowed exactly when [n <= limit]. The
    first request of the new window ([n = 1]) is thus allowed when
    [1 <= limit] and rejected when [limit <= 0]. *)
Theorem window_boundary_resets user_id path limit period now now' cs cs' w r :
  0 < period ->
  client w = Some r -> reachable r = true ->
  (now / period) * period + period <= now' ->
  (forall e,
     store r !! ratelimit_key user_id (sanitize_path path) (now' - now' mod period) = Some e ->
     live (now' - now' mod period) e = false) ->
  Forall (fun c => in_window user_id path limit period ((now / period) * period) c = true
                   \/ elsewhere (ratelimit_key user_id (sanitize_path path)
                                   (now' - now' mod period)) c)
         cs ->
  Forall (fun c => in_window user_id path limit period ((now' / period) * period) c = true
                   \/ elsewhere (ratelimit_key user_id (sanitize_path path)
                                   (now' - now' mod period)) c)
         cs' ->
  let n := requests_in_window user_id path limit period ((now' / period) * period) cs' + 1 in
  let w' := (run_calls cs' (run_calls cs w).2).2 in
  now - now mod period = (now / period) * period
  /\ (now / period) * period + period <= now' - now' mod period
  /\ ratelimit_key user_id (sanitize_path path) (now' - now' mod period)
     <> ratelimit_key user_id (sanitize_path path) (now - now mod period)
  /\ (exists r',
        is_rate_limited now' user_id path limit period w'
        = (Ok (n >? limit), mkWorld (db w) (Some r') (logs w'))
        /\ exists deadline,
             store r' !! ratelimit_key user_id (sanitize_path path) (now' - now' mod period)
             = Some (n, Some deadline)
             /\ now' - now' mod period + period <= deadline)
  /\ (n <= limit -> (is_rate_limited now' user_id path limit period w').1 = Ok false)
  /\ (limit < n -> (is_rate_limited now' user_id path limit period w').1 = Ok true).
Proof.
  intros HT Hc Hr Hnow' Hfresh Hall Hall' n w'.
  destruct (window_start_floor now period HT) as [Hws _].
  destruct (window_start_floor now' period HT) as [Hws' _].
  pose proof (next_window_start now now' period HT Hnow') as Hnext.
  split; [done|]. split; [lia|]. split.
  { intros Heq. apply ratelimit_key_window_inj in Heq. lia. }
  set (key' := ratelimit_key user_id (sanitize_path path) (now' - now' mod period)) in *.
  destruct (run_calls_frame cs w r Hc) as (Hdb & r1 & Hc1 & Hr1 & Hfr).
  assert (Forall (elsewhere key') cs) as Hel.
  { eapply Forall_impl; [exact Hall|]. intros c [Hm|?]; [|done].
    destruct (mine_spec _ _ _ _ _ HT c Hm) as (Hu & Hp & _ & Hpe & Hw).
    intros _ Heq. unfold call_key, key' in Heq. rewrite Hu, Hp, Hpe, Hw in Heq.
    apply ratelimit_key_window_inj in Heq. lia. }
  assert (counted key' period (now' - now' mod period) 0 r1) as Hcnt0.
  { left. split; [done|]. intros e. rewrite (Hfr key' Hel). apply Hfresh. }
  assert (exists r2,
            db w' = db w /\ client w' = Some r2 /\ reachable r2 = true
            /\ counted key' period (now' - now' mod period) (n - 1) r2)
    as (r2 & Hdb2 & Hc2 & Hr2 & Hcnt2).
  { subst key'. rewrite Hws' in *.
    destruct (run_calls_counted user_id path limit period (now' / period * period) HT cs'
                (run_calls cs w).2 r1 0 Hc1 ltac:(congruence) ltac:(lia) Hcnt0 Hall')
      as (_ & Hdb' & r2 & Hc2 & Hr2 & Hcnt2 & _).
    exists r2. split; [subst w'; congruence|]. split; [done|]. split; [done|].
    subst n. by replace (_ + 1 - 1) with (0 + requests_in_window user_id path limit period
                                              (now' / period * period) cs') by lia. }
  assert (0 <= n - 1) as Hn.
  { subst n. pose proof (count_nonneg user_id path limit period (now' / period * period) cs').
    lia. }
  destruct (is_rate_limited_counts now' user_id path limit period w' r2 (n - 1)
              Hc2 Hr2 HT Hn Hcnt2) as (r3 & E & _ & Hcnt3 & _).
  replace (n - 1 + 1) with n in E, Hcnt3 by lia.
  rewrite E, Hdb2. split; [|split].
  - exists r3. split; [done|]. fold key' in Hcnt3.
    destruct Hcnt3 as [[? _]|[_ (d & Hd & Hdl)]]; [lia|]. by exists d.
  - intros Hle. cbn [fst]. f_equal. rewrite Z.gtb_ltb. apply Z.ltb_ge. lia.
  - intros Hlt. cbn [fst]. f_equal. rewrite Z.gtb_ltb. apply Z.ltb_lt. lia.
Qed.

(** Three requests use up the rule (2, 60) in the minute that starts at
    120; the requests at 180 and at 185 are allowed, and the counter of the
    new minute stands at 2. *)
Lemma window_boundary_resets_witness :
  let w' :=
    (run_calls [mkCall 180 (UserIdentity 7) "/users" 2 60]
       (run_calls
          [mkCall 120 (UserIdentity 7) "/users" 2 60;
           mkCall 130 (UserIdentity 7) "/users" 2 60;
           mkCall 179 (UserIdentity 7) "/users" 2 60]
          (mkWorld (mkDB true [] [] [] [] 0 0) (Some (mkRedis true ∅)) [])).2).2 in
  (is_rate_limited 185 (UserIdentity 7) "/users" 2 60 w').1 = Ok false.
Proof.
  intros w'.
  refine (proj1 (proj2 (proj2 (proj2 (proj2
    (window_boundary_resets (UserIdentity 7) "/users" 2 60 130 185
       [mkCall 120 (UserIdentity 7) "/users" 2 60;
        mkCall 130 (UserIdentity 7) "/users" 2 60;
        mkCall 179 (UserIdentity 7) "/users" 2 60]
       [mkCall 180 (UserIdentity 7) "/users" 2 60]
       (mkWorld (mkDB true [] [] [] [] 0 0) (Some (mkRedis true ∅)) [])
       (mkRedis true ∅) _ _ _ _ _ _ _))))) _).
  - lia.
  - reflexivity.
  - reflexivity.
  - vm_compute. discriminate.
  - intros e He. simpl in He. by rewrite lookup_empty in He.
  - repeat (apply Forall_cons; split; [by left|]). apply Forall_nil_2.
  - repeat (apply Forall_cons; split; [by left|]). apply Forall_nil_2.
  - vm_compute. discriminate.
Defined.

(** C2 as stated fails for the rule (0, 60): the window [0, 60) is
    exhausted (its request at 30 is rejected), the request at 60 =
    window_start + period counts against a new key, and it is rejected
    too. *)
Lemma window_boundary_limit_zero_rejected :
  let u := UserIdentity 7 in
  let w0 := mkWorld (mkDB true [] [] [] [] 0 0) (Some (mkRedis true ∅)) [] in
  let w1 := (run_calls [mkCall 30 u "/users" 0 60] w0).2 in
  (run_calls [mkCall 30 u "/users" 0 60] w0).1 = [Ok true]
  /\ (30 / 60) * 60 + 60 = 60
  /\ ratelimit_key u (sanitize_path "/users") (60 - 60 mod 60)
     <> ratelimit_key u (sanitize_path "/users") (30 - 30 mod 60)
  /\ (is_rate_limited 60 u "/users" 0 60 w1).1 = Ok true.
Proof.
  vm_compute. repeat split; discriminate.
Qed.

(* ===================================================================== *)
(** * Tier resolution *)
(* ===================================================================== *)

Lemma tier_of_unassigned d u : User.tier_id u = None -> tier_of d u = None.
Proof.
  unfold tier_of. intros ->. induction (tier_rows d); simpl; auto.
Qed.

(** With the database answering, [rate_limiter] enforces the policy that
    the specification's tier resolution names, and logs one warning when an
    authenticated caller falls back to the default, nothing otherwise. *)
Lemma rate_limiter_resolution settings now request user w :
  available (db w) = true \/ user = None ->
  exists msgs,
    rate_limiter settings now request user w
    = enforce now (sanitize_path (url_path request))
        (spec_tier_resolution settings (db w) request user)
        (mkWorld (db w) (client w) (logs w ++ msgs)%list)
    /\ Forall (fun m => levelname m = WARNING) msgs
    /\ (length msgs <= 1)%nat
    /\ (msgs = [] <->
        user = None
        \/ exists u t r,
             user = Some u /\ tier_of (db w) u = Some t
             /\ rule_of (db w) t (sanitize_path (url_path request)) = Some r).
Proof.
  intros Hav. unfold rate_limiter, spec_tier_resolution, enforce.
  destruct user as [u|].
  - destruct Hav as [Hav|?]; [|done].
    unfold bind at 1. unfold bind at 1.
    unfold FastCRUD.get at 1, FastCRUD.query. rewrite Hav.
    fold (tier_of (db w) u).
    destruct (tier_of (db w) u) as [t|] eqn:Ht.
    + unfold bind at 1. unfold FastCRUD.get, FastCRUD.query. rewrite Hav.
      fold (rule_of (db w) t (sanitize_path (url_path request))).
      destruct (rule_of (db w) t (sanitize_path (url_path request))) as [r|] eqn:Hr.
      * exists []. rewrite app_nil_r. destruct w. simpl. split; [done|].
        split; [constructor|]. split; [simpl; lia|]. split; [|done]. intros _. right. by exists u, t, r.
      * eexists [_]. simpl. split; [reflexivity|]. split; [by repeat constructor|].
        split; [simpl; lia|]. split; [done|]. intros [?|(u' & t' & r' & ? & Hf & Hf')]; [done|].
        simplify_eq.
    + eexists [_]. simpl. split; [reflexivity|]. split; [by repeat constructor|].
      split; [simpl; lia|]. split; [done|]. intros [?|(u' & t' & r' & ? & Hf & ?)]; [done|].
      simplify_eq.
  - exists []. rewrite app_nil_r. destruct w. simpl. split; [done|].
    split; [constructor|]. split; [simpl; lia|]. split; [|done]. intros _. by left.
Qed.

(* ===================================================================== *)
(** * Store faults *)
(* ===================================================================== *)

Lemma is_rate_limited_fault now user_id path limit period w :
  store_down w ->
  exists e w',
    is_rate_limited now user_id path limit period w = (Raise e, w')
    /\ is_server_fault e = true
    /\ db w' = db w /\ client w' = client w
    /\ (client w = None -> e = Exception "Redis client is not initialized.")
    /\ (client w <> None -> period <> 0 -> e = ConnectionError)
    /\ (client w = None \/ period <> 0 ->
        exists m, logs w' = (logs w ++ [m])%list /\ levelname m = ERROR
                  /\ (client w <> None -> exc_info m = Some e)).
Proof.
  intros [Hc|(r & Hc & Hr)]; unfold is_rate_limited; rewrite Hc.
  - unfold bind, logger, raise. simpl.
    do 2 eexists. split; [reflexivity|]. simpl.
    repeat split; try done. intros _. eexists. split; [reflexivity|]. done.
  - unfold py_mod. destruct (Z.eqb_spec period 0) as [->|Hp].
    + unfold bind, raise. do 2 eexists. split; [reflexivity|].
      repeat split; try done. intros [?|?]; done.
    + unfold bind at 1. unfold ret at 1.
      unfold try_except, bind, client_call. rewrite Hc.
      unfold redis_incr. rewrite Hr. unfold logger, raise. simpl.
      do 2 eexists. split; [reflexivity|]. simpl.
      repeat split; try done. intros _. eexists. split; [reflexivity|]. done.
Qed.

(** C8. When the module-level client is [None], or the store does not
    answer, [is_rate_limited] returns neither [True] nor [False]: it raises
    (the "not initialized" exception, or the store's own exception, logged
    at level ERROR and raised again), and [rate_limiter] lets the exception
    through, so the request ends in a server fault, not in an allow or a
    429. *)
Theorem store_fault_propagates settings now user_id path limit period request user w :
  store_down w ->
  (exists e w',
     is_rate_limited now user_id path limit period w = (Raise e, w')
     /\ is_server_fault e = true
     /\ db w' = db w /\ client w' = client w
     /\ (client w = None -> e = Exception "Redis client is not initialized.")
     /\ (client w <> None -> period <> 0 -> e = ConnectionError)
     /\ (client w = None \/ period <> 0 ->
         exists m, logs w' = (logs w ++ [m])%list /\ levelname m = ERROR
                   /\ (client w <> None -> exc_info m = Some e)))
  /\ (exists e w',
        rate_limiter settings now request user w = (Raise e, w')
        /\ is_server_fault e = true).
Proof.
  intros Hdown. split; [by apply is_rate_limited_fault|].
  destruct (available (db w)) eqn:Hav; [|destruct user as [u|] eqn:Hu].
  1,3: (destruct (rate_limiter_resolution settings now request user w) as (msgs & E & _);
        [subst; auto|]; subst; rewrite E;
        destruct (spec_tier_resolution settings (db w) request _) as [[uid l] p];
        unfold enforce, bind;
        edestruct (is_rate_limited_fault now uid (sanitize_path (url_path request)) l p
                     (mkWorld (db w) (client w) (logs w ++ msgs)%list))
          as (e & w' & E' & Hf & _); [exact Hdown|];
        rewrite E'; eauto).
  unfold rate_limiter, bind, FastCRUD.get, FastCRUD.query. rewrite Hav.
  by do 2 eexists.
Qed.

Lemma store_fault_propagates_witness :
  exists e w',
    rate_limiter (DefaultRateLimitSettings ∅) 100
      (mkRequest None "/users" "10.0.0.1") None
      (mkWorld (mkDB true [] [] [] [] 0 0) (Some (mkRedis false ∅)) [])
    = (Raise e, w')
    /\ is_server_fault e = true.
Proof.
  refine (proj2 (store_fault_propagates (DefaultRateLimitSettings ∅) 100
                   (AnonymousIdentity "10.0.0.1") "/users" 10 3600
                   (mkRequest None "/users" "10.0.0.1") None
                   (mkWorld (mkDB true [] [] [] [] 0 0) (Some (mkRedis false ∅)) []) _)).
  right. by eexists.
Defined.

Lemma lstrip_absent c s : Str.contains c s = false -> Str.lstrip c s = s.
Proof.
  destruct s as [|a s]; simpl; [done|].
  intros H. apply orb_false_iff in H as [-> _]. done.
Qed.

Lemma rstrip_absent c s : Str.contains c s = false -> Str.rstrip c s = s.
Proof.
  induction s as [|a s IH]; simpl; [done|].
  intros H. apply orb_false_iff in H as [Ha Hs].
  rewrite (IH Hs), Ha. by destruct s.
Qed.

Lemma replace_absent a b s : Str.contains a s = false -> Str.replace a b s = s.
Proof.
  induction s as [|x s IH]; simpl; [done|].
  intros H. apply orb_false_iff in H as [Hx Hs].
  by rewrite (IH Hs), Hx.
Qed.

(** [rate_limiter] sanitizes the path and [is_rate_limited] sanitizes it
    again: the second pass changes nothing. *)
Lemma sanitize_path_idempotent p : sanitize_path (sanitize_path p) = sanitize_path p.
Proof.
  assert (Str.contains "/" (sanitize_path p) = false) as H.
  { unfold sanitize_path. by apply replace_no_occurrence. }
  unfold sanitize_path at 1. unfold Str.strip.
  by rewrite (lstrip_absent _ _ H), (rstrip_absent _ _ H), (replace_absent _ _ _ H).
Qed.

(** The requests of one caller on one route within one window, through
    [rate_limiter]: the policy is resolved anew each time, to the same
    answer, and the counter grows by one per request. *)
Lemma run_limiter_counted settings request user window_start uid limit period times :
  forall w r k,
    available (db w) = true \/ user = None ->
    spec_tier_resolution settings (db w) request user = (uid, limit, period) ->
    0 < period -> client w = Some r -> reachable r = true -> 0 <= k ->
    counted (ratelimit_key uid (sanitize_path (url_path request)) window_start)
      period window_start k r ->
    Forall (fun t => (t / period) * period = window_start) times ->
    forall i t, times !! i = Some t ->
      (run_limiter settings request user times w).1 !! i
      = Some (if k + Z.of_nat i + 1 >? limit
              then Raise (RateLimitException "Rate limit exceeded.")
              else Ok tt).
Proof.
  induction times as [|now times IH]; intros w r k Hav Hres HT Hc Hr Hk Hcnt Hall i t Hi;
    [done|].
  apply Forall_cons in Hall as [Hnow Hall]. simpl.
  destruct (rate_limiter_resolution settings now request user w Hav) as (msgs & E & _).
  destruct (window_start_floor now period HT) as [Hws _]. rewrite Hnow in Hws.
  destruct (is_rate_limited_counts now uid (sanitize_path (url_path request)) limit period
              (mkWorld (db w) (client w) (logs w ++ msgs)%list) r k)
    as (r1 & E1 & Hr1 & Hcnt1 & _); auto.
  { by rewrite sanitize_path_idempotent, Hws. }
  rewrite sanitize_path_idempotent, Hws in Hcnt1. simpl in E1.
  set (w1 := mkWorld (db w) (Some r1) (logs w ++ msgs)%list) in *.
  assert (rate_limiter settings now request user w
          = (if k + 1 >? limit
             then Raise (RateLimitException "Rate limit exceeded.")
             else Ok tt, w1)) as ->.
  { rewrite E, Hres. unfold enforce, bind. rewrite E1. by destruct (k + 1 >? limit). }
  pose proof (IH w1 r1 (k + 1) Hav Hres HT eq_refl Hr1 ltac:(lia) Hcnt1 Hall) as Hrest.
  destruct (run_limiter settings request user times w1) as [rs w2]. simpl in *.
  destruct i as [|i]; simpl.
  - by replace (k + Z.of_nat 0 + 1) with (k + 1) by lia.
  - rewrite (Hrest i t Hi).
    by replace (k + Z.of_nat (S i) + 1) with (k + 1 + Z.of_nat i + 1) by lia.
Qed.

(** C3. [rate_limiter] enforces the rule of the user's tier for the
    sanitized path when both the tier and the rule are found; an anonymous
    caller gets the defaults; an authenticated caller whose tier lookup
    finds nothing, or whose tier has no rule for the path, gets the
    defaults too, the resolution raising nothing and logging one WARNING.
    With the environment silent the defaults are 10 and 3600, so of the
    requests of a user without a tier within one hour window the first ten
    pass and the eleventh (and the later ones) end in the rate-limit
    error. *)
Theorem rate_limiter_tier_resolution :
  (forall settings now request u t rule w,
     available (db w) = true ->
     tier_of (db w) u = Some t ->
     rule_of (db w) t (sanitize_path (url_path request)) = Some rule ->
     rate_limiter settings now request (Some u) w
     = enforce now (sanitize_path (url_path request))
         (UserIdentity (User.id u), RateLimit.limit rule, RateLimit.period rule) w)
  /\ (forall settings now request w,
        rate_limiter settings now request None w
        = enforce now (sanitize_path (url_path request))
            (AnonymousIdentity (client_host request),
             DEFAULT_RATE_LIMIT_LIMIT settings, DEFAULT_RATE_LIMIT_PERIOD settings) w)
  /\ (forall settings now request u w,
        available (db w) = true ->
        tier_of (db w) u = None
        \/ (exists t, tier_of (db w) u = Some t
                      /\ rule_of (db w) t (sanitize_path (url_path request)) = None) ->
        exists m,
          levelname m = WARNING
          /\ rate_limiter settings now request (Some u) w
             = enforce now (sanitize_path (url_path request))
                 (UserIdentity (User.id u),
                  DEFAULT_RATE_LIMIT_LIMIT settings, DEFAULT_RATE_LIMIT_PERIOD settings)
                 (mkWorld (db w) (client w) (logs w ++ [m])%list))
  /\ (forall environ : gmap string Z,
        environ !! "DEFAULT_RATE_LIMIT_LIMIT" = None ->
        environ !! "DEFAULT_RATE_LIMIT_PERIOD" = None ->
        DefaultRateLimitSettings environ = mkSettings 10 3600)
  /\ (forall request u w r window_start times,
        User.tier_id u = None ->
        available (db w) = true ->
        client w = Some r -> reachable r = true ->
        (forall e,
           store r !! ratelimit_key (UserIdentity (User.id u))
                        (sanitize_path (url_path request)) window_start = Some e ->
           live window_start e = false) ->
        Forall (fun t => (t / 3600) * 3600 = window_start) times ->
        forall i t, times !! i = Some t ->
          (run_limiter (DefaultRateLimitSettings ∅) request (Some u) times w).1 !! i
          = Some (if (10 <=? i)%nat
                  then Raise (RateLimitException "Rate limit exceeded.")
                  else Ok tt)).
Proof.
  split; [|split; [|split; [|split]]].
  - intros settings now request u t rule w Hav Ht Hr.
    destruct (rate_limiter_resolution settings now request (Some u) w) as (msgs & E & _ & _ & Hm);
      [by left|].
    assert (msgs = []) as -> by (apply Hm; right; by exists u, t, rule).
    rewrite E. unfold spec_tier_resolution. rewrite Ht, Hr, app_nil_r. by destruct w.
  - intros settings now request w.
    destruct (rate_limiter_resolution settings now request None w) as (msgs & E & _ & _ & Hm);
      [by right|].
    assert (msgs = []) as -> by (apply Hm; by left).
    rewrite E. unfold spec_tier_resolution. rewrite app_nil_r. by destruct w.
  - intros settings now request u w Hav Hfall.
    destruct (rate_limiter_resolution settings now request (Some u) w)
      as (msgs & E & Hwarn & Hlen & Hm); [by left|].
    destruct msgs as [|m [|m' msgs]]; [| |simpl in Hlen; lia].
    + destruct (proj1 Hm eq_refl) as [?|(u' & t' & r' & ? & Ht' & Hr')]; [done|].
      simplify_eq. destruct Hfall as [?|(t & ? & ?)]; congruence.
    + exists m. split; [by apply Forall_cons in Hwarn as [? _]|].
      rewrite E. unfold spec_tier_resolution.
      destruct Hfall as [->|(t & -> & ->)]; done.
  - intros environ HL HP. unfold DefaultRateLimitSettings, config. by rewrite HL, HP.
  - intros request u w r window_start times Hu Hav Hc Hr Hfresh Hall i t Hi.
    rewrite (run_limiter_counted (DefaultRateLimitSettings ∅) request (Some u) window_start
               (UserIdentity (User.id u)) 10 3600 times w r 0 (or_introl Hav)) with (t := t);
      try done.
    + replace (0 + Z.of_nat i + 1 >? 10) with (10 <=? i)%nat; [done|].
      destruct (Nat.leb_spec 10 i); symmetry; rewrite Z.gtb_ltb;
        [apply Z.ltb_lt|apply Z.ltb_ge]; lia.
    + unfold spec_tier_resolution. by rewrite (tier_of_unassigned _ _ Hu).
    + by left.
Qed.

(** Eleven requests on "/users" of user 5, who has no tier, within the hour
    that starts at 3600: the eleventh is rejected. *)
Lemma rate_limiter_tier_resolution_witness :
  (run_limiter (DefaultRateLimitSettings ∅) (mkRequest None "/users" "10.0.0.1")
     (Some (User.mk 5 "alice" "alice@example.com" false false None))
     [3600; 3601; 3602; 3603; 3604; 3605; 3606; 3607; 3608; 3609; 7199]
     (mkWorld (mkDB true [Tier.mk 1 "free"] [] [] [] 0 0) (Some (mkRedis true ∅)) [])).1
  !! 10%nat
  = Some (Raise (RateLimitException "Rate limit exceeded.")).
Proof.
  refine (proj2 (proj2 (proj2 (proj2 rate_limiter_tier_resolution)))
            (mkRequest None "/users" "10.0.0.1")
            (User.mk 5 "alice" "alice@example.com" false false None)
            (mkWorld (mkDB true [Tier.mk 1 "free"] [] [] [] 0 0) (Some (mkRedis true ∅)) [])
            (mkRedis true ∅) 3600 _ _ _ _ _ _ _ 10%nat 7199 _).
  - reflexivity.
  - reflexivity.
  - reflexivity.
  - reflexivity.
  - intros e He. simpl in He. by rewrite lookup_empty in He.
  - repeat (apply Forall_cons; split; [reflexivity|]). apply Forall_nil_2.
  - reflexivity.
Defined.

(* ===================================================================== *)
(** * The token blacklist *)
(* ===================================================================== *)

Lemma blacklisted_exists token rows :
  existsb (fun r => String.eqb (TokenBlacklist.token r) token) rows = true
  <-> exists row, In row rows /\ TokenBlacklist.token row = token.
Proof.
  rewrite existsb_exists. split; intros (row & Hin & H); exists row; split; auto.
  - by apply String.eqb_eq.
  - by apply String.eqb_eq.
Qed.

Lemma verify_token_blacklisted jwt_verify now token w :
  available (db w) = true ->
  (exists row, In row (token_blacklist_rows (db w)) /\ TokenBlacklist.token row = token) ->
  verify_token jwt_verify now token w = (Ok None, w).
Proof.
  intros Hav Hrow. apply blacklisted_exists in Hrow.
  unfold verify_token, bind, FastCRUD.exists_, FastCRUD.query.
  by rewrite Hav, Hrow.
Qed.

(** What [blacklist_token] does on a token that decodes at [now]. *)
Lemma blacklist_token_decoded jwt_verify now token payload e w :
  available (db w) = true ->
  jwt_verify token = Some payload ->
  exp payload = Some e ->
  now <= e ->
  blacklist_token jwt_verify now token w
  = if existsb (fun r => String.eqb (TokenBlacklist.token r) token)
         (token_blacklist_rows (db w))
    then (Raise IntegrityError, w)
    else (Ok tt,
          mkWorld
            (mkDB (available (db w)) (tier_rows (db w)) (rate_limit_rows (db w))
               (user_rows (db w))
               (token_blacklist_rows (db w)
                ++ [TokenBlacklist.mk (token_blacklist_seq (db w) + 1) token e])%list
               (rate_limit_seq (db w)) (token_blacklist_seq (db w) + 1))
            (client w) (logs w)).
Proof.
  intros Hav Hver Hexp Hnow.
  unfold blacklist_token, bind at 1, jwt_decode. rewrite Hver, Hexp.
  destruct (Z.ltb_spec e now) as [?|_]; [lia|].
  unfold ret at 1. rewrite Hexp. unfold bind at 1, ret at 1.
  unfold bind, crud_token_blacklist.create, FastCRUD.exec. rewrite Hav.
  destruct (existsb _ (token_blacklist_rows (db w))); [by destruct w|done].
Qed.

(** C5. A token with a row in the blacklist (expired or not, so a
    non-expired one in particular) makes [verify_token] return [None]
    whatever the token library would say of it: the answer is the same for
    every signature check and every clock, the world is left as it was.
    [blacklist_token], on a token that decodes at [now] with expiry [e],
    leaves such a row behind: it appends the row [(token, e)] with
    [now <= e], or finds the token already listed; [logout] leaves the
    same world, and from then on [verify_token] answers [None]. *)
Theorem blacklisted_token_rejected :
  (forall jwt_verify now token w row,
     available (db w) = true ->
     In row (token_blacklist_rows (db w)) ->
     TokenBlacklist.token row = token ->
     verify_token jwt_verify now token w = (Ok None, w))
  /\ (forall jwt_verify now token payload e w,
        available (db w) = true ->
        jwt_verify token = Some payload ->
        exp payload = Some e ->
        now <= e ->
        exists res w',
          blacklist_token jwt_verify now token w = (res, w')
          /\ (logout jwt_verify now token w).2 = w'
          /\ available (db w') = true
          /\ (exists row,
                In row (token_blacklist_rows (db w'))
                /\ TokenBlacklist.token row = token)
          /\ ((forall row, In row (token_blacklist_rows (db w)) ->
                           TokenBlacklist.token row <> token) ->
              res = Ok tt
              /\ (logout jwt_verify now token w).1 = Ok "Logged out successfully"
              /\ token_blacklist_rows (db w')
                 = (token_blacklist_rows (db w)
                    ++ [TokenBlacklist.mk (token_blacklist_seq (db w) + 1) token e])%list)
          /\ (forall jwt_verify' now',
                verify_token jwt_verify' now' token w' = (Ok None, w'))).
Proof.
  split.
  - intros jwt_verify now token w row Hav Hin Htok.
    apply verify_token_blacklisted; eauto.
  - intros jwt_verify now token payload e w Hav Hver Hexp Hnow.
    pose proof (blacklist_token_decoded jwt_verify now token payload e w
                  Hav Hver Hexp Hnow) as E.
    unfold logout, try_except_cls, try_except, bind. rewrite !E.
    destruct (existsb _ (token_blacklist_rows (db w))) eqn:Hex.
    + exists (Raise IntegrityError), w. split; [done|].
      apply blacklisted_exists in Hex as Hrow.
      split; [done|]. split; [done|]. split; [done|]. split.
      * intros Hno. destruct Hrow as (row & Hin & Htok). by destruct (Hno row Hin).
      * intros jwt_verify' now'. by apply verify_token_blacklisted.
    + do 2 eexists. split; [reflexivity|]. simpl.
      assert (exists row,
                In row (token_blacklist_rows (db w)
                        ++ [TokenBlacklist.mk (token_blacklist_seq (db w) + 1) token e])%list
                /\ TokenBlacklist.token row = token) as Hrow.
      { eexists. split; [apply in_or_app; right; by left|done]. }
      split; [done|]. split; [done|]. split; [done|].
      split; [intros _; repeat split; reflexivity|].
      intros jwt_verify' now'. by apply verify_token_blacklisted.
Qed.

(** A signed token of "alice" that expires at 2000 is blacklisted at 1000;
    afterwards [verify_token] rejects it, although its signature and expiry
    are valid. *)
Lemma blacklisted_token_rejected_witness :
  let jwt_verify := fun t =>
    if String.eqb t "signed.alice.2000" then Some (mkPayload (Some "alice") (Some 2000))
    else None in
  let w := mkWorld (mkDB true [] [] [] [] 0 0) None [] in
  (verify_token jwt_verify 1000 "signed.alice.2000" w).1 = Ok (Some "alice")
  /\ (verify_token jwt_verify 1500 "signed.alice.2000"
        (blacklist_token jwt_verify 1000 "signed.alice.2000" w).2).1 = Ok None.
Proof.
  intros jwt_verify w. split; [reflexivity|].
  destruct (proj2 blacklisted_token_rejected jwt_verify 1000 "signed.alice.2000"
              (mkPayload (Some "alice") (Some 2000)) 2000 w)
    as (res & w' & E & _ & _ & _ & _ & Hv).
  - reflexivity.
  - reflexivity.
  - reflexivity.
  - lia.
  - rewrite E. simpl. by rewrite Hv.
Defined.

(* ===================================================================== *)
(** * Optional authentication *)
(* ===================================================================== *)

(** What [get_optional_user] does once the header is there and not empty:
    the outcome of the guarded block [body] decides, and every exception
    of the block ends in [None]. *)
Lemma get_optional_user_handler {A} (body : M (option A)) (w : World) :
  let guarded :=
    try_except body
      (fun e =>
         match e with
         | HTTPException status_code detail =>
             (if negb (status_code =? 401)
              then logger ERROR
                     ("Unexpected HTTPException in get_optional_user: " ++ detail) None
              else ret tt) ;;;
             ret None
         | exc =>
             logger ERROR "Unexpected error in get_optional_user: " (Some exc) ;;;
             ret None
         end) in
  match body w with
  | (Ok a, w') => guarded w = (Ok a, w')
  | (Raise e, w') =>
      exists msgs,
        guarded w = (Ok None, mkWorld (db w') (client w') (logs w' ++ msgs)%list)
        /\ Forall (fun m => levelname m = ERROR) msgs
  end.
Proof.
  intros guarded. unfold guarded, try_except.
  destruct (body w) as [[a|e] w']; [done|].
  destruct e as [code detail| | | | | | | |msg];
    try (eexists [_]; split; [reflexivity|by repeat constructor]).
  unfold bind. destruct (negb (code =? 401)).
  - eexists [_]. split; [reflexivity|by repeat constructor].
  - exists []. split; [|constructor]. unfold ret. rewrite app_nil_r. by destruct w'.
Qed.

(** C6. [get_optional_user] always returns: whatever the request, the
    clock, the token library and the world (database down included), its
    outcome is a value, never an exception. The value is [None] when the
    Authorization header is missing or empty, when its scheme is not
    "bearer" (in any case of letters), when the token part is empty, when
    [verify_token] answers [None] (blacklisted, bad signature, expired, no
    subject), and when [verify_token] or [get_current_user] raises
    anything at all. *)
Theorem get_optional_user_never_raises jwt_verify now request w :
  (exists res w', get_optional_user jwt_verify now request w = (Ok res, w'))
  /\ (authorization request = None \/ authorization request = Some "" ->
      get_optional_user jwt_verify now request w = (Ok None, w))
  /\ (forall token token_type sep token_value,
        authorization request = Some token ->
        Str.partition " " token = (token_type, sep, token_value) ->
        (Str.lower token_type <> "bearer" \/ token_value = "" ->
         get_optional_user jwt_verify now request w = (Ok None, w))
        /\ (Str.lower token_type = "bearer" -> token_value <> "" ->
            (forall w',
               verify_token jwt_verify now token_value w = (Ok None, w') ->
               get_optional_user jwt_verify now request w = (Ok None, w'))
            /\ (forall e w',
                  verify_token jwt_verify now token_value w = (Raise e, w') ->
                  (get_optional_user jwt_verify now request w).1 = Ok None)
            /\ (forall token_data w' e w'',
                  verify_token jwt_verify now token_value w = (Ok (Some token_data), w') ->
                  get_current_user jwt_verify now token_value w' = (Raise e, w'') ->
                  (get_optional_user jwt_verify now request w).1 = Ok None)
            /\ (forall token_data w' u w'',
                  verify_token jwt_verify now token_value w = (Ok (Some token_data), w') ->
                  get_current_user jwt_verify now token_value w' = (Ok u, w'') ->
                  get_optional_user jwt_verify now request w = (Ok (Some u), w'')))).
Proof.
  unfold get_optional_user.
  destruct (authorization request) as [token|]; [|by repeat split; eauto].
  destruct (Str.truthy token) eqn:Htr; simpl.
  2:{ destruct token; [|done]. split; [by eauto|]. split; [done|].
      intros token ty sep v [= <-] [= <- <- <-]. split; [done|].
      by intros _ []. }
  match goal with
  | |- context [try_except ?b ?h] =>
      pose proof (get_optional_user_handler b w) as Hh; simpl in Hh
  end.
  split; [|split].
  - destruct (let '(_, _, _) := Str.partition " " token in _) as [[a|e] w'];
      [by eauto|]. destruct Hh as (msgs & -> & _). eauto.
  - intros [?|[= ->]]; done.
  - intros token' ty sep v [= <-] Hpart. rewrite Hpart in *.
    assert (Str.truthy v = false <-> v = "") as Hv by (by destruct v).
    split.
    + intros Hbad.
      assert (negb (String.eqb (Str.lower ty) "bearer") || negb (Str.truthy v) = true) as Hc.
      { apply orb_true_iff. destruct Hbad as [Hty| ->]; [left|by right].
        apply negb_true_iff. by apply String.eqb_neq. }
      rewrite Hc in *. exact Hh.
    + intros Hty Hne.
      assert (negb (String.eqb (Str.lower ty) "bearer") || negb (Str.truthy v) = false) as Hc.
      { apply orb_false_iff. split; apply negb_false_iff.
        - by apply String.eqb_eq.
        - destruct v; [done|reflexivity]. }
      rewrite Hc in *. unfold bind in *.
      repeat split.
      * intros w' E. by rewrite E in Hh.
      * intros e w' E. rewrite E in Hh. destruct Hh as (msgs & -> & _). done.
      * intros td w' e w'' E E'. rewrite E, E' in Hh. destruct Hh as (msgs & -> & _). done.
      * intros td w' u w'' E E'. by rewrite E, E' in Hh.
Qed.

(** The database is down while a bearer token is presented: the failed
    blacklist lookup is logged and the caller is anonymous. *)
Lemma get_optional_user_never_raises_witness :
  get_optional_user (fun _ => None) 100 (mkRequest (Some "Bearer abc") "/users" "10.0.0.1")
    (mkWorld (mkDB false [] [] [] [] 0 0) None [])
  = (Ok None,
     mkWorld (mkDB false [] [] [] [] 0 0) None
       [mkLog ERROR "Unexpected error in get_optional_user: " (Some OperationalError)])
  /\ (get_optional_user (fun _ => None) 100 (mkRequest (Some "Bearer abc") "/users" "10.0.0.1")
        (mkWorld (mkDB false [] [] [] [] 0 0) None [])).1 = Ok None.
Proof.
  split; [reflexivity|].
  refine (proj1 (proj2 (proj2 (proj2 (proj2
    (get_optional_user_never_raises (fun _ => None) 100
       (mkRequest (Some "Bearer abc") "/users" "10.0.0.1")
       (mkWorld (mkDB false [] [] [] [] 0 0) None []))) "Bearer abc" "Bearer" " " "abc"
       eq_refl eq_refl) eq_refl _)) OperationalError
       (mkWorld (mkDB false [] [] [] [] 0 0) None []) eq_refl).
  discriminate.
Defined.

(* ===================================================================== *)
(** * The rate-limit endpoints *)
(* ===================================================================== *)

Lemma patch_rate_limit_path_taken tier_name id values w db_tier target other p :
  available (db w) = true ->
  find (fun t => String.eqb (Tier.name t) tier_name) (tier_rows (db w)) = Some db_tier ->
  find (fun r => (RateLimit.tier_id r =? Tier.id db_tier) && (RateLimit.id r =? id))
       (rate_limit_rows (db w)) = Some target ->
  update_path values = Some p ->
  In other (rate_limit_rows (db w)) ->
  RateLimit.tier_id other = Tier.id db_tier ->
  RateLimit.path other = p ->
  patch_rate_limit tier_name id values w
  = (Raise (DuplicateValueException "There is already a rate limit for this path"), w).
Proof.
  intros Hav Ht Hr Hp Hin Htier Hpath.
  unfold patch_rate_limit, tier_by_name, bind, FastCRUD.get, FastCRUD.exists_, FastCRUD.query.
  rewrite Hav. cbv beta. rewrite Ht, Hav. cbv beta. rewrite Hr, Hav, Hp. cbv beta.
  assert (existsb (fun r => (RateLimit.tier_id r =? Tier.id db_tier)
                            && FastCRUD.eq_opt String.eqb (RateLimit.path r) (Some p))
                  (rate_limit_rows (db w)) = true) as ->; [|done].
  apply existsb_exists. exists other. split; [done|]. simpl.
  rewrite Htier, Hpath, Z.eqb_refl. by rewrite String.eqb_refl.
Qed.

(** C9. In [patch_rate_limit] the path check looks at every rule of the
    tier, the one being updated included: when the tier and the rule are
    found, an update whose [path] is the path of any rule of that tier is
    answered with [DuplicateValueException], the world untouched; the
    rule's own current path is such a path. *)
Theorem patch_own_path_rejected tier_name id values w db_tier target :
  available (db w) = true ->
  find (fun t => String.eqb (Tier.name t) tier_name) (tier_rows (db w)) = Some db_tier ->
  find (fun r => (RateLimit.tier_id r =? Tier.id db_tier) && (RateLimit.id r =? id))
       (rate_limit_rows (db w)) = Some target ->
  (update_path values = Some (RateLimit.path target) ->
   patch_rate_limit tier_name id values w
   = (Raise (DuplicateValueException "There is already a rate limit for this path"), w))
  /\ (forall other,
        In other (rate_limit_rows (db w)) ->
        RateLimit.tier_id other = Tier.id db_tier ->
        update_path values = Some (RateLimit.path other) ->
        patch_rate_limit tier_name id values w
        = (Raise (DuplicateValueException "There is already a rate limit for this path"), w)).
Proof.
  intros Hav Ht Hr. split.
  - intros Hp. apply find_some in Hr as Hf. destruct Hf as [Hin Hf].
    apply andb_true_iff in Hf as [Hf _]. apply Z.eqb_eq in Hf.
    by eapply patch_rate_limit_path_taken.
  - intros other Hin Htier Hp. by eapply patch_rate_limit_path_taken.
Qed.

(** Rule 3 of tier "free" is for "users"; patching it with its own path
    and a new limit is refused. *)
Lemma patch_own_path_rejected_witness :
  (patch_rate_limit "free" 3 (mkRateLimitUpdate (Some "users") (Some 20) None None)
     (mkWorld
        (mkDB true [Tier.mk 1 "free"] [RateLimit.mk 3 1 "users:5:60" "users" 5 60] [] [] 3 0)
        None [])).1
  = Raise (DuplicateValueException "There is already a rate limit for this path").
Proof.
  refine (f_equal fst
    (proj1 (patch_own_path_rejected "free" 3
              (mkRateLimitUpdate (Some "users") (Some 20) None None)
              (mkWorld
                 (mkDB true [Tier.mk 1 "free"]
                    [RateLimit.mk 3 1 "users:5:60" "users" 5 60] [] [] 3 0)
                 None [])
              (Tier.mk 1 "free") (RateLimit.mk 3 1 "users:5:60" "users" 5 60) _ _ _) _));
    reflexivity.
Defined.

Lemma patch_rate_limit_dead_guard tier_name id values w :
  patch_rate_limit tier_name id values w
  = patch_rate_limit_without_name_guard tier_name id values w.
Proof.
  unfold patch_rate_limit, patch_rate_limit_without_name_guard, tier_by_name, bind,
    FastCRUD.get, FastCRUD.exists_, FastCRUD.query.
  destruct (available (db w)) eqn:Hav; [|done]. cbv beta iota.
  destruct (find _ (tier_rows (db w))) as [t|]; [|done]. rewrite Hav. cbv beta iota.
  destruct (find _ (rate_limit_rows (db w))) as [r|]; [|done]. rewrite Hav. cbv beta iota.
  destruct (existsb _ (rate_limit_rows (db w))); [done|].
  by rewrite Hav.
Qed.


(** C4, at the input where the code leaves the invariant. Tier "free" has
    no rule; two POSTs create rules for the path "users" under two
    different names. [write_rate_limit] checks the name only, both calls
    succeed, and the table ends with two rules for (tier 1, "users"). *)
Theorem write_rate_limit_duplicates_tier_path :
  let w0 := mkWorld (mkDB true [Tier.mk 1 "free"] [] [] [] 0 0) None [] in
  let first := RateLimitCreate_validate "/users" 5 60 (Some "users:5:60") in
  let second := RateLimitCreate_validate "users" 10 60 (Some "users:10:60") in
  let w1 := (write_rate_limit "free" first w0).2 in
  let w2 := (write_rate_limit "free" second w1).2 in
  one_rule_per_tier_path (rate_limit_rows (db w0))
  /\ (write_rate_limit "free" first w0).1 = Ok (RateLimit.mk 1 1 "users:5:60" "users" 5 60)
  /\ (write_rate_limit "free" second w1).1 = Ok (RateLimit.mk 2 1 "users:10:60" "users" 10 60)
  /\ rate_limit_rows (db w2)
     = [RateLimit.mk 1 1 "users:5:60" "users" 5 60;
        RateLimit.mk 2 1 "users:10:60" "users" 10 60]
  /\ ~ one_rule_per_tier_path (rate_limit_rows (db w2)).
Proof.
  simpl. split; [constructor|]. split; [reflexivity|]. split; [reflexivity|].
  split; [reflexivity|].
  unfold one_rule_per_tier_path. simpl. intros H.
  apply NoDup_cons in H as [H _]. apply H. by left.
Qed.

(** ** The other two endpoints keep the invariant *)

Lemma NoDup_map_inj_on {A B} (h : A -> B) (l : list A) :
  NoDup (map h l) -> forall x y, x ∈ l -> y ∈ l -> h x = h y -> x = y.
Proof.
  induction l as [|a l IH]; simpl; intros Hnd x y Hx Hy Heq.
  - by apply elem_of_nil in Hx.
  - apply NoDup_cons in Hnd as [Hna Hnd].
    apply elem_of_cons in Hx as [->|Hx]; apply elem_of_cons in Hy as [->|Hy]; auto.
    + destruct Hna. rewrite Heq. apply list_elem_of_In, in_map. by apply list_elem_of_In.
    + destruct Hna. rewrite <- Heq. apply list_elem_of_In, in_map. by apply list_elem_of_In.
Qed.

Lemma NoDup_map_of_inj_on {A B} (g : A -> B) (l : list A) :
  NoDup l -> (forall x y, x ∈ l -> y ∈ l -> g x = g y -> x = y) -> NoDup (map g l).
Proof.
  induction l as [|a l IH]; simpl; intros Hnd Hinj; [constructor|].
  apply NoDup_cons in Hnd as [Hna Hnd]. apply NoDup_cons. split.
  - intros Hin. apply list_elem_of_In, in_map_iff in Hin as (x & Hx & Hin).
    apply list_elem_of_In in Hin.
    assert (x = a) as -> by (apply Hinj; [by right|by left|done]). done.
  - apply IH; [done|]. intros x y Hx Hy. apply Hinj; by right.
Qed.

Lemma NoDup_of_map {A B} (h : A -> B) (l : list A) : NoDup (map h l) -> NoDup l.
Proof.
  induction l as [|a l IH]; simpl; intros Hnd; [constructor|].
  apply NoDup_cons in Hnd as [Hna Hnd]. apply NoDup_cons. split; [|by apply IH].
  intros Hin. apply Hna, list_elem_of_In, in_map. by apply list_elem_of_In.
Qed.

Lemma NoDup_map_filter {A B} (h : A -> B) (p : A -> bool) (l : list A) :
  NoDup (map h l) -> NoDup (map h (List.filter p l)).
Proof.
  induction l as [|a l IH]; simpl; intros Hnd; [constructor|].
  apply NoDup_cons in Hnd as [Hna Hnd].
  destruct (p a); simpl; [|by apply IH].
  apply NoDup_cons. split; [|by apply IH].
  intros Hin. apply Hna.
  apply list_elem_of_In, in_map_iff in Hin as (x & Hx & Hin).
  apply filter_In in Hin as [Hin _]. rewrite <- Hx.
  apply list_elem_of_In. by apply in_map.
Qed.

Lemma update_keeps_one_rule_per_tier_path v id rows target :
  NoDup (map RateLimit.id rows) ->
  one_rule_per_tier_path rows ->
  target ∈ rows -> RateLimit.id target = id ->
  existsb (fun r => (RateLimit.tier_id r =? RateLimit.tier_id target)
                    && FastCRUD.eq_opt String.eqb (RateLimit.path r) (update_path v))
          rows = false ->
  one_rule_per_tier_path
    (map (fun r => if RateLimit.id r =? id then crud_rate_limits.apply_update v r else r) rows).
Proof.
  intros Hids Hinv Ht Hid Hex. unfold one_rule_per_tier_path in *. rewrite map_map.
  assert (forall x y, x ∈ rows -> y ∈ rows ->
            (RateLimit.id x =? id) = true -> (RateLimit.id y =? id) = false ->
            (RateLimit.tier_id (crud_rate_limits.apply_update v x),
             RateLimit.path (crud_rate_limits.apply_update v x))
            = (RateLimit.tier_id y, RateLimit.path y) -> x = y) as Hmixed.
  { intros x y Hx Hy Hix Hiy Heq. apply Z.eqb_eq in Hix.
    assert (x = target) as ->.
    { apply (NoDup_map_inj_on RateLimit.id rows Hids); auto. congruence. }
    simpl in Heq. injection Heq as Htier Hpath.
    destruct (update_path v) as [p|] eqn:Hp; simpl in Hpath.
    - assert (existsb (fun r => (RateLimit.tier_id r =? RateLimit.tier_id target)
                                && FastCRUD.eq_opt String.eqb (RateLimit.path r) (Some p))
                      rows = true) as Hex'; [|congruence].
      apply existsb_exists. exists y. split; [by apply list_elem_of_In|]. simpl.
      rewrite <- Htier, <- Hpath, Z.eqb_refl. by rewrite String.eqb_refl.
    - apply (NoDup_map_inj_on _ rows Hinv); auto. by rewrite Htier, Hpath. }
  apply NoDup_map_of_inj_on; [by eapply NoDup_of_map|].
  intros x y Hx Hy.
  destruct (RateLimit.id x =? id) eqn:Hix; destruct (RateLimit.id y =? id) eqn:Hiy.
  - intros _. apply (NoDup_map_inj_on RateLimit.id rows Hids); auto.
    apply Z.eqb_eq in Hix, Hiy. congruence.
  - by apply Hmixed.
  - intros Heq. symmetry. by apply Hmixed.
  - apply (NoDup_map_inj_on _ rows Hinv); auto.
Qed.

(** [patch_rate_limit] and [erase_rate_limit] never produce a second rule
    for a [(tier_id, path)]: from a table with distinct ids and one rule
    per pair, whatever they are asked and whatever they answer, the table
    they leave has one rule per pair. *)
Lemma patch_rate_limit_keeps_one_rule tier_name id values w :
  NoDup (map RateLimit.id (rate_limit_rows (db w))) ->
  one_rule_per_tier_path (rate_limit_rows (db w)) ->
  one_rule_per_tier_path (rate_limit_rows (db (patch_rate_limit tier_name id values w).2)).
Proof.
  intros Hids Hinv.
  rewrite patch_rate_limit_dead_guard.
  unfold patch_rate_limit_without_name_guard, tier_by_name, bind,
    FastCRUD.get, FastCRUD.exists_, FastCRUD.query.
  destruct (available (db w)) eqn:Hav; [|done]. cbv beta iota.
  destruct (find _ (tier_rows (db w))) as [t|]; [|done]. rewrite Hav. cbv beta iota.
  destruct (find _ (rate_limit_rows (db w))) as [r|] eqn:Hr; [|done].
  rewrite Hav. cbv beta iota.
  destruct (existsb _ (rate_limit_rows (db w))) eqn:Hex; [done|].
  unfold crud_rate_limits.update, FastCRUD.exec. rewrite Hav.
  destruct (unique_names _); [|done]. simpl.
  apply find_some in Hr as [Hin Hr]. apply andb_true_iff in Hr as [Htier _].
  apply Z.eqb_eq in Htier.
  apply (update_keeps_one_rule_per_tier_path values (RateLimit.id r) _ r); auto.
  - by apply list_elem_of_In.
  - by rewrite Htier.
Qed.

Lemma erase_rate_limit_keeps_one_rule tier_name id w :
  one_rule_per_tier_path (rate_limit_rows (db w)) ->
  one_rule_per_tier_path (rate_limit_rows (db (erase_rate_limit tier_name id w).2)).
Proof.
  intros Hinv.
  unfold erase_rate_limit, tier_by_name, bind, FastCRUD.get, FastCRUD.query.
  destruct (available (db w)) eqn:Hav; [|done]. cbv beta iota.
  destruct (find _ (tier_rows (db w))) as [t|]; [|done]. rewrite Hav. cbv beta iota.
  destruct (find _ (rate_limit_rows (db w))) as [r|]; [|done].
  unfold crud_rate_limits.delete, FastCRUD.exec. rewrite Hav. simpl.
  by apply NoDup_map_filter.
Qed.

(* ===================================================================== *)
(** * Further properties of the path sanitizer and the counter *)
(* ===================================================================== *)

(** X1. [sanitize_path] is idempotent, and a path without '/' is left as it
    is: the path of a validated body is a fixed point of the validator, so
    validating a second time (as [RateLimitCreateInternal] does) changes
    nothing. *)
Theorem sanitize_path_fixed_point :
  (forall p, sanitize_path (sanitize_path p) = sanitize_path p)
  /\ (forall p, Str.contains "/" p = false -> sanitize_path p = p)
  /\ (forall path limit period name,
        let body := RateLimitCreate_validate path limit period name in
        RateLimitCreate_validate (create_path body) (create_limit body)
          (create_period body) (create_name body) = body)
  /\ (forall path limit period name,
        let body := RateLimitUpdate_validate path limit period name in
        RateLimitUpdate_validate (update_path body) (update_limit body)
          (update_period body) (update_name body) = body).
Proof.
  split; [exact sanitize_path_idempotent|]. split; [|split].
  - intros p H. unfold sanitize_path, Str.strip.
    by rewrite (lstrip_absent _ _ H), (rstrip_absent _ _ H), (replace_absent _ _ _ H).
  - intros path limit period name. unfold RateLimitCreate_validate. simpl.
    by rewrite sanitize_path_idempotent.
  - intros [path|] limit period name; unfold RateLimitUpdate_validate; simpl; [|done].
    by rewrite sanitize_path_idempotent.
Qed.

(** What one call does to the store, exactly, under a positive period. *)
Lemma is_rate_limited_store now user_id path limit period w r :
  client w = Some r -> reachable r = true -> 0 < period ->
  let key := ratelimit_key user_id (sanitize_path path) (now - now mod period) in
  match redis_lookup now key r with
  | None =>
      is_rate_limited now user_id path limit period w
      = (Ok (1 >? limit),
         mkWorld (db w)
           (Some (mkRedis true (<[key := (1, Some (now + period))]> (store r)))) (logs w))
  | Some (n, d) =>
      n <> 0 ->
      is_rate_limited now user_id path limit period w
      = (Ok (n + 1 >? limit),
         mkWorld (db w) (Some (mkRedis true (<[key := (n + 1, d)]> (store r)))) (logs w))
  end.
Proof.
  intros Hc Hr HT. cbv zeta.
  set (key := ratelimit_key user_id (sanitize_path path) (now - now mod period)).
  assert (forall res,
            (current_count <- client_call (redis_incr now key) ;;
             (if current_count =? 1
              then client_call (redis_expire now key period) ;;; ret tt
              else ret tt) ;;;
             if current_count >? limit then ret true else ret false) w = res ->
            is_ok res.1 = true ->
            is_rate_limited now user_id path limit period w = res) as Hbody.
  { intros res <- Hok. unfold is_rate_limited. rewrite Hc.
    unfold py_mod. destruct (Z.eqb_spec period 0) as [?|_]; [lia|].
    unfold bind at 1. unfold ret at 1. fold key. unfold try_except.
    match goal with |- (let (_, _) := ?m in _) = _ => destruct m as [[b|e] w'] end;
      [done|discriminate]. }
  unfold bind, client_call in Hbody. rewrite Hc in Hbody.
  unfold redis_incr in Hbody. rewrite Hr in Hbody.
  destruct (redis_lookup now key r) as [[n d]|] eqn:Hl.
  - intros Hn. apply Hbody; [|done]. simpl.
    destruct (Z.eqb_spec (n + 1) 1) as [?|_]; [lia|]. by destruct (n + 1 >? limit).
  - apply Hbody; [|done]. simpl. unfold redis_expire, redis_lookup. simpl.
    rewrite lookup_insert_eq. simpl.
    destruct (Z.leb_spec period 0) as [?|_]; [lia|]. simpl.
    rewrite insert_insert_eq. by destruct (1 >? limit).
Qed.

Lemma run_calls_same_window user_id path limit period window_start ts :
  0 < period ->
  forall w r k deadline,
    client w = Some r -> reachable r = true -> 0 < k ->
    store r !! ratelimit_key user_id (sanitize_path path) window_start
    = Some (k, Some deadline) ->
    window_start + period <= deadline ->
    Forall (fun t => (t / period) * period = window_start) ts ->
    exists r',
      client (run_calls (map (fun t => mkCall t user_id path limit period) ts) w).2 = Some r'
      /\ reachable r' = true
      /\ store r' !! ratelimit_key user_id (sanitize_path path) window_start
         = Some (k + Z.of_nat (length ts), Some deadline).
Proof.
  intros HT. induction ts as [|t ts IH]; intros w r k deadline Hc Hr Hk Hs Hd Hall; simpl.
  - exists r. rewrite Z.add_0_r. auto.
  - apply Forall_cons in Hall as [Ht Hall].
    destruct (window_start_floor t period HT) as [Hws Hin]. rewrite Ht in Hws.
    pose proof (is_rate_limited_store t user_id path limit period w r Hc Hr HT) as Hstep.
    cbv zeta in Hstep. rewrite Hws in Hstep.
    assert (redis_lookup t (ratelimit_key user_id (sanitize_path path) window_start) r
            = Some (k, Some deadline)) as Hl.
    { unfold redis_lookup. rewrite Hs. unfold live. simpl.
      destruct (Z.ltb_spec t deadline); [done|lia]. }
    rewrite Hl in Hstep. rewrite Hstep by lia.
    set (r1 := mkRedis true
                 (<[ratelimit_key user_id (sanitize_path path) window_start
                    := (k + 1, Some deadline)]> (store r))).
    destruct (IH (mkWorld (db w) (Some r1) (logs w)) r1 (k + 1) deadline)
      as (r' & Hc' & Hr' & Hs'); [done|done|lia| |done|done|].
    { simpl. apply lookup_insert_eq. }
    exists r'. split; [|split; [done|]].
    + by destruct (run_calls _ _).
    + rewrite Hs'. do 2 f_equal. lia.
Qed.

(** X3. The window is fixed, not sliding: the first request of a window
    arms the expiry at its own time plus the period, and the later requests
    of the window only count. After a first request at [t1] and any further
    requests in the same window, the counter holds their number and its
    expiry is still the one armed at [t1], [t1 + period], however late in
    the window the last request came; at every clock reading past
    [t1 + period] the store has no counter under the key. Nothing is said
    of the reading [t1 + period] itself: the code reads its clock in whole
    seconds, and within that second the store may still hold the key. *)
Theorem window_expiry_is_fixed user_id path limit period window_start t1 ts w r :
  0 < period ->
  client w = Some r -> reachable r = true ->
  (forall e,
     store r !! ratelimit_key user_id (sanitize_path path) window_start = Some e ->
     live window_start e = false) ->
  Forall (fun t => (t / period) * period = window_start) (t1 :: ts) ->
  exists r',
    client (run_calls (map (fun t => mkCall t user_id path limit period) (t1 :: ts)) w).2
    = Some r'
    /\ store r' !! ratelimit_key user_id (sanitize_path path) window_start
       = Some (1 + Z.of_nat (length ts), Some (t1 + period))
    /\ forall t, t1 + period < t ->
         redis_lookup t (ratelimit_key user_id (sanitize_path path) window_start) r' = None.
Proof.
  intros HT Hc Hr Hfresh Hall. apply Forall_cons in Hall as [Ht1 Hall]. simpl.
  destruct (window_start_floor t1 period HT) as [Hws Hin]. rewrite Ht1 in Hws.
  pose proof (is_rate_limited_store t1 user_id path limit period w r Hc Hr HT) as Hstep.
  cbv zeta in Hstep. rewrite Hws in Hstep.
  assert (redis_lookup t1 (ratelimit_key user_id (sanitize_path path) window_start) r = None)
    as Hl.
  { unfold redis_lookup. destruct (store r !! _) as [e|] eqn:E; [|done].
    by rewrite (live_later window_start t1 e (Hfresh e eq_refl)) by lia. }
  rewrite Hl in Hstep. rewrite Hstep.
  set (r1 := mkRedis true
               (<[ratelimit_key user_id (sanitize_path path) window_start
                  := (1, Some (t1 + period))]> (store r))).
  destruct (run_calls_same_window user_id path limit period window_start ts HT
              (mkWorld (db w) (Some r1) (logs w)) r1 1 (t1 + period))
    as (r' & Hc' & Hr' & Hs'); [done|done|lia| |lia|done|].
  { simpl. apply lookup_insert_eq. }
  exists r'. split; [by destruct (run_calls _ _)|]. split; [done|].
  intros t Ht. unfold redis_lookup. rewrite Hs'. unfold live. simpl.
  destruct (Z.ltb_spec t (t1 + period)); [lia|done].
Qed.

Lemma window_expiry_is_fixed_witness :
  exists r',
    client (run_calls
              (map (fun t => mkCall t (UserIdentity 7) "/users" 2 60) [130; 150; 179])
              (mkWorld (mkDB true [] [] [] [] 0 0) (Some (mkRedis true ∅)) [])).2
    = Some r'
    /\ store r' !! ratelimit_key (UserIdentity 7) (sanitize_path "/users") 120
       = Some (3, Some 190)
    /\ redis_lookup 191 (ratelimit_key (UserIdentity 7) (sanitize_path "/users") 120) r'
       = None.
Proof.
  assert (130 + 60 < 191) as Hlate by lia.
  destruct (window_expiry_is_fixed (UserIdentity 7) "/users" 2 60 120 130 [150; 179]
              (mkWorld (mkDB true [] [] [] [] 0 0) (Some (mkRedis true ∅)) [])
              (mkRedis true ∅)) as (r' & Hc & Hs & Hgone).
  - lia.
  - reflexivity.
  - reflexivity.
  - intros e He. simpl in He. by rewrite lookup_empty in He.
  - repeat (apply Forall_cons; split; [reflexivity|]). apply Forall_nil_2.
  - exists r'. split; [exact Hc|]. split; [exact Hs|exact (Hgone 191 Hlate)].
Defined.

Lemma is_rate_limited_negative_period now user_id path limit period w r :
  period < 0 ->
  client w = Some r -> reachable r = true ->
  store r !! ratelimit_key user_id (sanitize_path path) (now - now mod period) = None ->
  is_rate_limited now user_id path limit period w = (Ok (1 >? limit), w).
Proof.
  intros HT Hc Hr Hs.
  set (key := ratelimit_key user_id (sanitize_path path) (now - now mod period)) in *.
  unfold is_rate_limited. rewrite Hc.
  unfold py_mod. destruct (Z.eqb_spec period 0) as [?|_]; [lia|].
  unfold bind at 1. unfold ret at 1. fold key.
  unfold try_except, bind, client_call. rewrite Hc.
  unfold redis_incr, redis_lookup. rewrite Hr, Hs. simpl.
  unfold redis_expire, redis_lookup. simpl. rewrite lookup_insert_eq. simpl.
  destruct (Z.leb_spec period 0) as [_|?]; [|lia]. simpl.
  rewrite delete_insert_eq, (delete_id _ _ Hs).
  destruct w as [d c l], r as [re st]. simpl in *. subst.
  by destruct (1 >? limit).
Qed.

(** X2. A period that is not positive. With [period = 0] the call fails on
    the modulo with [ZeroDivisionError] before it reaches the store, and
    outside the guarded block: nothing is counted and nothing is logged.
    With [period < 0] the expiry command deletes the key that the
    increment has just created, so the counter never passes 1: on a store
    without counters of the identity and path, every request, however many
    and whenever, is answered [1 > limit] (allowed as soon as the limit is
    1), and the world is left as it was. *)
Theorem nonpositive_period_never_counts user_id path limit w r :
  client w = Some r ->
  (forall now, is_rate_limited now user_id path limit 0 w = (Raise ZeroDivisionError, w))
  /\ (forall period times,
        period < 0 -> reachable r = true ->
        (forall window_start,
           store r !! ratelimit_key user_id (sanitize_path path) window_start = None) ->
        run_calls (map (fun t => mkCall t user_id path limit period) times) w
        = (map (fun _ => Ok (1 >? limit)) times, w)).
Proof.
  intros Hc. split.
  - intros now. unfold is_rate_limited. by rewrite Hc.
  - intros period times HT Hr Hs. induction times as [|t times IH]; simpl; [done|].
    rewrite (is_rate_limited_negative_period t user_id path limit period w r) by auto.
    by rewrite IH.
Qed.

Lemma nonpositive_period_never_counts_witness :
  run_calls (map (fun t => mkCall t (UserIdentity 7) "/users" 1 (-60)) [10; 20; 30; 400])
    (mkWorld (mkDB true [] [] [] [] 0 0) (Some (mkRedis true ∅)) [])
  = ([Ok false; Ok false; Ok false; Ok false],
     mkWorld (mkDB true [] [] [] [] 0 0) (Some (mkRedis true ∅)) []).
Proof.
  refine (proj2 (nonpositive_period_never_counts (UserIdentity 7) "/users" 1
                   (mkWorld (mkDB true [] [] [] [] 0 0) (Some (mkRedis true ∅)) [])
                   (mkRedis true ∅) eq_refl) (-60) [10; 20; 30; 400] _ eq_refl _).
  - lia.
  - intros ws. simpl. apply lookup_empty.
Defined.

Lemma contains_app c a b :
  Str.contains c (a ++ b) = Str.contains c a || Str.contains c b.
Proof.
  induction a as [|x a IH]; simpl; [done|]. by rewrite IH, orb_assoc.
Qed.

Lemma pretty_N_go_colon x s :
  Str.contains ":" (pretty_N_go x s) = Str.contains ":" s.
Proof.
  revert s. induction (N.lt_wf_0 x) as [x _ IH]; intros s.
  assert (x = 0 \/ 0 < x)%N as [->|Hx] by lia.
  - by rewrite pretty_N_go_0.
  - rewrite pretty_N_go_step by done. rewrite IH by (by apply N.div_lt).
    simpl. unfold pretty_N_char. by repeat case_match.
Qed.

Lemma pretty_Z_no_colon (z : Z) : Str.contains ":" (pretty z) = false.
Proof.
  assert (forall p : positive, Str.contains ":" (pretty p) = false) as Hp.
  { intros p. unfold pretty, pretty_positive, pretty, pretty_N.
    case_decide; [done|]. apply pretty_N_go_colon. }
  destruct z as [|p|p]; unfold pretty, pretty_Z; [done|apply Hp|].
  change ("-" +:+ pretty p) with (String "-" (pretty p)). simpl. apply Hp.
Qed.

(** Two strings that agree once a colon-free head and a colon are put in
    front have the same head and the same rest. *)
Lemma split_at_first_colon a a' r r' :
  Str.contains ":" a = false -> Str.contains ":" a' = false ->
  a ++ ":" ++ r = a' ++ ":" ++ r' -> a = a' /\ r = r'.
Proof.
  revert a'. induction a as [|x a IH]; intros [|x' a'] Ha Ha' H; simpl in *.
  - by injection H.
  - injection H as <- _. by rewrite Ascii.eqb_refl in Ha'.
  - injection H as -> _. by rewrite Ascii.eqb_refl in Ha.
  - injection H as <- H. apply orb_false_iff in Ha as [_ Ha], Ha' as [_ Ha'].
    destruct (IH a' Ha Ha' H) as [-> ->]. done.
Qed.

(** The same with a colon-free tail after the last colon. *)
Lemma split_at_last_colon p p' d d' :
  Str.contains ":" d = false -> Str.contains ":" d' = false ->
  p ++ ":" ++ d = p' ++ ":" ++ d' -> p = p' /\ d = d'.
Proof.
  intros Hd Hd'. revert p'. induction p as [|x p IH]; intros [|x' p'] H; simpl in *.
  - by injection H.
  - injection H as _ H. change ("" ++ d) with d in H. rewrite H, contains_app in Hd.
    apply orb_false_iff in Hd as [_ Hd]. simpl in Hd. done.
  - injection H as _ H. change ("" ++ d') with d' in H. rewrite <- H, contains_app in Hd'.
    apply orb_false_iff in Hd' as [_ Hd']. simpl in Hd'. done.
  - injection H as <- H. destruct (IH p' H) as [-> ->]. done.
Qed.

Lemma ratelimit_key_user_inj a b p p' ws ws' :
  ratelimit_key (UserIdentity a) p ws = ratelimit_key (UserIdentity b) p' ws' ->
  a = b /\ p = p' /\ ws = ws'.
Proof.
  unfold ratelimit_key. simpl. intros H. apply String.app_inj in H.
  apply split_at_first_colon in H as [Hab H]; [|apply pretty_Z_no_colon..].
  apply split_at_last_colon in H as [Hp Hws]; [|apply pretty_Z_no_colon..].
  split; [by apply (inj pretty)|]. split; [done|by apply (inj pretty)].
Qed.

(** X4. The counters of authenticated users are separate: the key
    determines the user id, the sanitized path and the window, whatever
    colons the path holds. Hence a call of another user, on another
    (sanitized) path or in another window, however it ends, leaves a
    user's counter for a path and window as it was. *)
Theorem authenticated_counters_are_separate :
  (forall a b p p' ws ws',
     ratelimit_key (UserIdentity a) p ws = ratelimit_key (UserIdentity b) p' ws' ->
     a = b /\ p = p' /\ ws = ws')
  /\ (forall a p ws now b path limit period w r,
        client w = Some r ->
        (b <> a \/ sanitize_path path <> p \/ now - now mod period <> ws) ->
        db (is_rate_limited now (UserIdentity b) path limit period w).2 = db w
        /\ exists r',
             client (is_rate_limited now (UserIdentity b) path limit period w).2 = Some r'
             /\ store r' !! ratelimit_key (UserIdentity a) p ws
                = store r !! ratelimit_key (UserIdentity a) p ws).
Proof.
  split; [exact ratelimit_key_user_inj|].
  intros a p ws now b path limit period w r Hc Hne.
  destruct (is_rate_limited now (UserIdentity b) path limit period w) as [res w'] eqn:E.
  destruct (is_rate_limited_frame _ _ _ _ _ _ _ _ _ Hc E) as (Hdb & r' & Hc' & _ & Hfr).
  split; [done|]. exists r'. split; [done|]. apply Hfr.
  intros _ Heq. apply ratelimit_key_user_inj in Heq as (? & ? & ?).
  destruct Hne as [?|[?|?]]; congruence.
Qed.

(* ===================================================================== *)
(** * Resolving the caller *)
(* ===================================================================== *)

Lemma verify_token_closed_form jwt_verify now token w :
  available (db w) = true ->
  verify_token jwt_verify now token w = (Ok (token_subject jwt_verify now token (db w)), w).
Proof.
  intros Hav. unfold verify_token, token_subject, bind at 1, FastCRUD.exists_, FastCRUD.query.
  rewrite Hav. destruct (existsb _ _); [done|].
  unfold try_except_cls, try_except, bind, jwt_decode.
  destruct (jwt_verify token) as [payload|]; [|done].
  destruct (exp payload) as [e|].
  - destruct (e <? now); [done|]. unfold ret. by destruct (sub payload).
  - unfold ret. by destruct (sub payload).
Qed.

Lemma get_current_user_closed_form jwt_verify now token w :
  available (db w) = true ->
  get_current_user jwt_verify now token w
  = match token_subject jwt_verify now token (db w) with
    | None => (Raise (UnauthorizedException "User not authenticated."), w)
    | Some s =>
        match user_of_subject s (db w) with
        | Some u => (Ok u, w)
        | None => (Raise (UnauthorizedException "User not authenticated."), w)
        end
    end.
Proof.
  intros Hav. unfold get_current_user, bind at 1.
  rewrite (verify_token_closed_form jwt_verify now token w Hav).
  destruct (token_subject jwt_verify now token (db w)) as [s|]; [|done].
  unfold user_of_subject, bind, FastCRUD.get, FastCRUD.query.
  destruct (Str.contains "@" s); rewrite Hav; by destruct (find _ _).
Qed.

Lemma token_subject_Some jwt_verify now token d s :
  token_subject jwt_verify now token d = Some s ->
  (forall row, In row (token_blacklist_rows d) -> TokenBlacklist.token row <> token)
  /\ exists payload,
       jwt_verify token = Some payload /\ sub payload = Some s
       /\ (forall e, exp payload = Some e -> now <= e).
Proof.
  unfold token_subject. destruct (existsb _ _) eqn:Hbl; [done|].
  destruct (jwt_verify token) as [payload|]; [|done]. intros H. split.
  - intros row Hin Htok.
    assert (existsb (fun r => String.eqb (TokenBlacklist.token r) token)
              (token_blacklist_rows d) = true); [|congruence].
    apply blacklisted_exists. eauto.
  - exists payload. split; [done|]. destruct (exp payload) as [e|].
    + destruct (Z.ltb_spec e now); [done|]. split; [done|]. by intros e' [= <-].
    + split; [done|]. by intros e' [=].
Qed.

(** X5. [get_current_user], with the database answering, never changes the
    world and has two outcomes only. Either it returns a row of the user
    table that is not soft-deleted and whose email (when the subject holds
    an '@') or username (otherwise) is the subject of the token, the token
    being absent from the blacklist, signed and not expired; or it raises
    the 401 "User not authenticated.". *)
Theorem get_current_user_resolves jwt_verify now token w :
  available (db w) = true ->
  (get_current_user jwt_verify now token w).2 = w
  /\ match (get_current_user jwt_verify now token w).1 with
     | Ok u =>
         In u (user_rows (db w))
         /\ User.is_deleted u = false
         /\ (forall row, In row (token_blacklist_rows (db w)) ->
                         TokenBlacklist.token row <> token)
         /\ exists payload s,
              jwt_verify token = Some payload
              /\ sub payload = Some s
              /\ (forall e, exp payload = Some e -> now <= e)
              /\ (if Str.contains "@" s then User.email u = s else User.username u = s)
     | Raise e => e = UnauthorizedException "User not authenticated."
     end.
Proof.
  intros Hav. rewrite (get_current_user_closed_form jwt_verify now token w Hav).
  destruct (token_subject jwt_verify now token (db w)) as [s|] eqn:Hs; [|done].
  destruct (user_of_subject s (db w)) as [u|] eqn:Hu; [|done].
  split; [done|]. simpl.
  apply token_subject_Some in Hs as (Hnb & payload & Hv & Hsub & Hexp).
  unfold user_of_subject in Hu. apply find_some in Hu as [Hin Hf].
  apply andb_true_iff in Hf as [Hn Hd].
  apply String.eqb_eq in Hn. apply Bool.eqb_prop in Hd.
  split; [done|]. split; [done|]. split; [done|].
  exists payload, s. repeat (split; [done|]). by destruct (Str.contains "@" s).
Qed.

(** "alice" is soft-deleted: her signed, unexpired token is answered
    with the 401. *)
Lemma get_current_user_resolves_witness :
  (get_current_user
     (fun t => if String.eqb t "tok" then Some (mkPayload (Some "alice") (Some 2000)) else None)
     1000 "tok"
     (mkWorld
        (mkDB true [] [] [User.mk 5 "alice" "alice@example.com" false true None] [] 0 0)
        None [])).1
  = Raise (UnauthorizedException "User not authenticated.").
Proof.
  generalize (proj2 (get_current_user_resolves
    (fun t => if String.eqb t "tok" then Some (mkPayload (Some "alice") (Some 2000)) else None)
    1000 "tok"
    (mkWorld
       (mkDB true [] [] [User.mk 5 "alice" "alice@example.com" false true None] [] 0 0)
       None []) eq_refl)).
  vm_compute. intros _. reflexivity.
Defined.

(* ===================================================================== *)
(** * Logging out *)
(* ===================================================================== *)

Lemma logout_undecodable jwt_verify now token w :
  (jwt_verify token = None
   \/ exists payload e, jwt_verify token = Some payload /\ exp payload = Some e /\ e < now) ->
  logout jwt_verify now token w = (Raise (UnauthorizedException "Invalid token."), w).
Proof.
  intros H. unfold logout, try_except_cls, try_except, bind, blacklist_token, bind, jwt_decode.
  destruct H as [->|(payload & e & -> & -> & He)]; [done|].
  destruct (Z.ltb_spec e now); [done|lia].
Qed.

(** X6. [logout] on a token that does not decode, because its signature
    is bad or because it has expired, answers the 401 "Invalid token." and
    stores nothing, whatever the state of the database. A token that
    decodes is blacklisted once: the first [logout] with it succeeds, a
    second one, while the token has not expired, meets the UNIQUE
    constraint of the blacklist and ends in [IntegrityError], the table
    unchanged; and [verify_token] rejects the token from then on. *)
Theorem logout_twice jwt_verify token now w :
  ((jwt_verify token = None
    \/ exists payload e, jwt_verify token = Some payload /\ exp payload = Some e /\ e < now) ->
   logout jwt_verify now token w = (Raise (UnauthorizedException "Invalid token."), w))
  /\ (forall payload e,
        available (db w) = true ->
        jwt_verify token = Some payload ->
        exp payload = Some e ->
        now <= e ->
        (forall row, In row (token_blacklist_rows (db w)) ->
           TokenBlacklist.token row <> token) ->
        (logout jwt_verify now token w).1 = Ok "Logged out successfully"
        /\ (forall now', now' <= e ->
              logout jwt_verify now' token (logout jwt_verify now token w).2
              = (Raise IntegrityError, (logout jwt_verify now token w).2))
        /\ (forall now',
              verify_token jwt_verify now' token (logout jwt_verify now token w).2
              = (Ok None, (logout jwt_verify now token w).2))).
Proof.
  split; [apply logout_undecodable|].
  intros payload e Hav Hv He Hnow Hfresh.
  assert (existsb (fun r => String.eqb (TokenBlacklist.token r) token)
            (token_blacklist_rows (db w)) = false) as Hex.
  { destruct (existsb _ _) eqn:E; [|done].
    apply blacklisted_exists in E as (row & Hin & Htok). by destruct (Hfresh row Hin). }
  assert (exists w1,
            logout jwt_verify now token w = (Ok "Logged out successfully", w1)
            /\ available (db w1) = true
            /\ existsb (fun r => String.eqb (TokenBlacklist.token r) token)
                 (token_blacklist_rows (db w1)) = true)
    as (w1 & Hlog & Hav1 & Hex1).
  { eexists. split; [|split].
    - unfold logout, try_except_cls, try_except, bind at 1.
      rewrite (blacklist_token_decoded jwt_verify now token payload e w Hav Hv He Hnow).
      by rewrite Hex.
    - done.
    - apply blacklisted_exists. eexists. split; [apply in_or_app; right; by left|done]. }
  rewrite Hlog. cbn [fst snd]. split; [done|]. split.
  - intros now' Hnow'.
    unfold logout, try_except_cls, try_except, bind at 1.
    rewrite (blacklist_token_decoded jwt_verify now' token payload e w1 Hav1 Hv He Hnow').
    by rewrite Hex1.
  - intros now'. rewrite (verify_token_closed_form jwt_verify now' token w1 Hav1).
    unfold token_subject. by rewrite Hex1.
Qed.

Lemma logout_twice_witness :
  let jwt_verify := fun t =>
    if String.eqb t "tok" then Some (mkPayload (Some "alice") (Some 2000)) else None in
  let w := mkWorld (mkDB true [] [] [] [] 0 0) None [] in
  logout jwt_verify 1000 "forged" w = (Raise (UnauthorizedException "Invalid token."), w)
  /\ logout jwt_verify 2001 "tok" w = (Raise (UnauthorizedException "Invalid token."), w)
  /\ (logout jwt_verify 1000 "tok" w).1 = Ok "Logged out successfully"
  /\ (logout jwt_verify 1500 "tok" (logout jwt_verify 1000 "tok" w).2).1 = Raise IntegrityError
  /\ (verify_token jwt_verify 1500 "tok" (logout jwt_verify 1000 "tok" w).2).1 = Ok None.
Proof.
  intros jwt_verify w.
  assert (1000 <= 2000) as H1000 by lia.
  assert (1500 <= 2000) as H1500 by lia.
  assert (2000 < 2001) as H2001 by lia.
  split; [|split].
  - apply (proj1 (logout_twice jwt_verify "forged" 1000 w)). by left.
  - apply (proj1 (logout_twice jwt_verify "tok" 2001 w)). right.
    exists (mkPayload (Some "alice") (Some 2000)), 2000. by repeat split.
  - destruct (proj2 (logout_twice jwt_verify "tok" 1000 w)
                (mkPayload (Some "alice") (Some 2000)) 2000 eq_refl eq_refl eq_refl H1000
                (fun row (Hin : In row []) => match Hin with end)) as (Hfirst & Hsecond & Hver).
    split; [exact Hfirst|]. split.
    + exact (f_equal fst (Hsecond 1500 H1500)).
    + exact (f_equal fst (Hver 1500)).
Defined.

(* ===================================================================== *)
(** * The rate-limit endpoints at work *)
(* ===================================================================== *)

Lemma unique_names_NoDup rows :
  unique_names rows = true <-> NoDup (map RateLimit.name rows).
Proof.
  induction rows as [|r rows IH]; simpl.
  - split; [constructor|done].
  - rewrite andb_true_iff, negb_true_iff, NoDup_cons, IH.
    assert (existsb (fun r' => String.eqb (RateLimit.name r') (RateLimit.name r)) rows = false
            <-> RateLimit.name r ∉ map RateLimit.name rows) as ->; [|done].
    rewrite <- not_true_iff_false, existsb_exists, list_elem_of_In, in_map_iff.
    split; intros H (x & A & B); apply H; exists x.
    + split; [done|]. by apply String.eqb_eq.
    + apply String.eqb_eq in B. done.
Qed.

Lemma find_snoc {A} (f : A -> bool) (l : list A) (x : A) :
  find f (l ++ [x]) = match find f l with
                      | Some y => Some y
                      | None => if f x then Some x else None
                      end.
Proof.
  induction l as [|a l IH]; simpl; [done|]. by destruct (f a).
Qed.

Lemma find_none_intro {A} (f : A -> bool) (l : list A) :
  (forall x, In x l -> f x = false) -> find f l = None.
Proof.
  induction l as [|a l IH]; simpl; intros H; [done|].
  rewrite (H a) by auto. apply IH. auto.
Qed.

Lemma find_map_preserving {A} (p : A -> bool) (f : A -> A) (l : list A) :
  (forall x, p (f x) = p x) -> find p (map f l) = option_map f (find p l).
Proof.
  intros H. induction l as [|a l IH]; simpl; [done|]. rewrite H. by destruct (p a).
Qed.

Lemma existsb_false_forall {A} (f : A -> bool) (l : list A) :
  existsb f l = false <-> forall x, In x l -> f x = false.
Proof.
  rewrite <- not_true_iff_false, existsb_exists. split.
  - intros H x Hin. destruct (f x) eqn:E; [|done]. destruct H. eauto.
  - intros H (x & Hin & Hx). rewrite (H x Hin) in Hx. done.
Qed.

(** The endpoints once the database answers: the lookups and checks in the
    order of the code, then the write. *)
Lemma write_rate_limit_closed_form tier_name body w :
  available (db w) = true ->
  write_rate_limit tier_name body w
  = match find (fun t => String.eqb (Tier.name t) tier_name) (tier_rows (db w)) with
    | None => (Raise (NotFoundException "Tier not found"), w)
    | Some db_tier =>
        if existsb (fun r => FastCRUD.eq_opt String.eqb (RateLimit.name r) (create_name body))
             (rate_limit_rows (db w))
        then (Raise (DuplicateValueException "Rate Limit Name not available"), w)
        else crud_rate_limits.create (Tier.id db_tier)
               (RateLimitCreate_validate (create_path body) (create_limit body)
                  (create_period body) (create_name body)) w
    end.
Proof.
  intros Hav. unfold write_rate_limit, tier_by_name, bind,
    FastCRUD.get, FastCRUD.exists_, FastCRUD.query.
  rewrite Hav. cbv beta iota.
  destruct (find _ (tier_rows (db w))) as [t|]; [|done]. rewrite Hav. cbv beta iota.
  by destruct (existsb _ (rate_limit_rows (db w))).
Qed.

Lemma patch_rate_limit_closed_form tier_name id values w :
  available (db w) = true ->
  patch_rate_limit tier_name id values w
  = match find (fun t => String.eqb (Tier.name t) tier_name) (tier_rows (db w)) with
    | None => (Raise (NotFoundException "Tier not found"), w)
    | Some db_tier =>
        match find (fun r => (RateLimit.tier_id r =? Tier.id db_tier) && (RateLimit.id r =? id))
                (rate_limit_rows (db w)) with
        | None => (Raise (NotFoundException "Rate Limit not found"), w)
        | Some db_rate_limit =>
            if existsb
                 (fun r => (RateLimit.tier_id r =? Tier.id db_tier)
                           && FastCRUD.eq_opt String.eqb (RateLimit.path r) (update_path values))
                 (rate_limit_rows (db w))
            then (Raise (DuplicateValueException
                           "There is already a rate limit for this path"), w)
            else
              let rows :=
                map (fun r => if RateLimit.id r =? RateLimit.id db_rate_limit
                              then crud_rate_limits.apply_update values r else r)
                    (rate_limit_rows (db w)) in
              if unique_names rows
              then (Ok "Rate Limit updated",
                    mkWorld
                      (mkDB (available (db w)) (tier_rows (db w)) rows (user_rows (db w))
                         (token_blacklist_rows (db w)) (rate_limit_seq (db w))
                         (token_blacklist_seq (db w)))
                      (client w) (logs w))
              else (Raise IntegrityError, w)
        end
    end.
Proof.
  intros Hav. rewrite patch_rate_limit_dead_guard.
  unfold patch_rate_limit_without_name_guard, tier_by_name, bind,
    FastCRUD.get, FastCRUD.exists_, FastCRUD.query.
  rewrite Hav. cbv beta iota.
  destruct (find _ (tier_rows (db w))) as [t|]; [|done]. rewrite Hav. cbv beta iota.
  destruct (find _ (rate_limit_rows (db w))) as [r|]; [|done]. rewrite Hav. cbv beta iota.
  destruct (existsb _ (rate_limit_rows (db w))); [done|].
  unfold crud_rate_limits.update, FastCRUD.exec. rewrite Hav. cbv beta iota zeta.
  destruct (unique_names _); [done|by destruct w].
Qed.

Lemma erase_rate_limit_closed_form tier_name id w :
  available (db w) = true ->
  erase_rate_limit tier_name id w
  = match find (fun t => String.eqb (Tier.name t) tier_name) (tier_rows (db w)) with
    | None => (Raise (NotFoundException "Tier not found"), w)
    | Some db_tier =>
        match find (fun r => (RateLimit.tier_id r =? Tier.id db_tier) && (RateLimit.id r =? id))
                (rate_limit_rows (db w)) with
        | None => (Raise (NotFoundException "Rate Limit not found"), w)
        | Some db_rate_limit =>
            (Ok "Rate Limit deleted",
             mkWorld
               (mkDB (available (db w)) (tier_rows (db w))
                  (List.filter (fun r => negb (RateLimit.id r =? RateLimit.id db_rate_limit))
                     (rate_limit_rows (db w)))
                  (user_rows (db w)) (token_blacklist_rows (db w))
                  (rate_limit_seq (db w)) (token_blacklist_seq (db w)))
               (client w) (logs w))
        end
    end.
Proof.
  intros Hav. unfold erase_rate_limit, tier_by_name, bind, FastCRUD.get, FastCRUD.query.
  rewrite Hav. cbv beta iota.
  destruct (find _ (tier_rows (db w))) as [t|]; [|done]. rewrite Hav. cbv beta iota.
  destruct (find _ (rate_limit_rows (db w))) as [r|]; [|done].
  unfold crud_rate_limits.delete, FastCRUD.exec. by rewrite Hav.
Qed.

Lemma read_rate_limit_closed_form tier_name id w :
  available (db w) = true ->
  read_rate_limit tier_name id w
  = match find (fun t => String.eqb (Tier.name t) tier_name) (tier_rows (db w)) with
    | None => (Raise (NotFoundException "Tier not found"), w)
    | Some db_tier =>
        match find (fun r => (RateLimit.tier_id r =? Tier.id db_tier) && (RateLimit.id r =? id))
                (rate_limit_rows (db w)) with
        | None => (Raise (NotFoundException "Rate Limit not found"), w)
        | Some db_rate_limit => (Ok db_rate_limit, w)
        end
    end.
Proof.
  intros Hav. unfold read_rate_limit, tier_by_name, bind, FastCRUD.get, FastCRUD.query.
  rewrite Hav. cbv beta iota.
  destruct (find _ (tier_rows (db w))) as [t|]; [|done]. rewrite Hav. cbv beta iota.
  by destruct (find _ (rate_limit_rows (db w))).
Qed.

Lemma existsb_never {A} (l : list A) : existsb (fun _ => false) l = false.
Proof. induction l; simpl; auto. Qed.

Lemma existsb_name_false rows n :
  existsb (fun r => FastCRUD.eq_opt String.eqb (RateLimit.name r) (Some n)) rows = false
  <-> forall r, In r rows -> RateLimit.name r <> n.
Proof.
  rewrite existsb_false_forall. split; intros H r Hin; specialize (H r Hin); simpl in *.
  - by apply String.eqb_neq.
  - by apply String.eqb_neq.
Qed.

Lemma unique_names_snoc rows row :
  unique_names rows = true ->
  (forall r, In r rows -> RateLimit.name r <> RateLimit.name row) ->
  unique_names (rows ++ [row]) = true.
Proof.
  rewrite !unique_names_NoDup, map_app. simpl. intros Hnd Hfresh.
  apply NoDup_app. split; [done|]. split; [|apply NoDup_singleton].
  intros x Hx Hx'. apply list_elem_of_singleton in Hx' as ->.
  apply list_elem_of_In, in_map_iff in Hx as (r & Hr & Hin). by destruct (Hfresh r Hin).
Qed.

(** X8. The outcomes of [write_rate_limit] when the database answers and
    the names in the table are distinct: 404 when the tier is unknown;
    [IntegrityError] when the body gives no name (the column is NOT NULL);
    409 "Rate Limit Name not available" when the name is in use, so a
    duplicate name never reaches the insert; otherwise the new rule, with
    the next id, the tier's id and the sanitized path, appended to the
    table. In the first three cases nothing changes. *)
Theorem write_rate_limit_outcomes tier_name body w :
  available (db w) = true ->
  unique_names (rate_limit_rows (db w)) = true ->
  (find (fun t => String.eqb (Tier.name t) tier_name) (tier_rows (db w)) = None ->
   write_rate_limit tier_name body w = (Raise (NotFoundException "Tier not found"), w))
  /\ (forall t,
        find (fun t => String.eqb (Tier.name t) tier_name) (tier_rows (db w)) = Some t ->
        (create_name body = None ->
         write_rate_limit tier_name body w = (Raise IntegrityError, w))
        /\ (forall n,
              create_name body = Some n ->
              ((exists r, In r (rate_limit_rows (db w)) /\ RateLimit.name r = n) ->
               write_rate_limit tier_name body w
               = (Raise (DuplicateValueException "Rate Limit Name not available"), w))
              /\ ((forall r, In r (rate_limit_rows (db w)) -> RateLimit.name r <> n) ->
                  let row :=
                    RateLimit.mk (rate_limit_seq (db w) + 1) (Tier.id t) n
                      (sanitize_path (create_path body)) (create_limit body)
                      (create_period body) in
                  write_rate_limit tier_name body w
                  = (Ok row,
                     mkWorld
                       (mkDB (available (db w)) (tier_rows (db w))
                          (rate_limit_rows (db w) ++ [row])%list (user_rows (db w))
                          (token_blacklist_rows (db w)) (rate_limit_seq (db w) + 1)
                          (token_blacklist_seq (db w)))
                       (client w) (logs w))))).
Proof.
  intros Hav Hun. rewrite (write_rate_limit_closed_form tier_name body w Hav). split.
  - by intros ->.
  - intros t ->. split.
    + intros ->. simpl.
      rewrite existsb_never.
      unfold crud_rate_limits.create, FastCRUD.exec. rewrite Hav. simpl. by destruct w.
    + intros n ->. split.
      * intros (r & Hin & Hn).
        assert (existsb (fun r => FastCRUD.eq_opt String.eqb (RateLimit.name r) (Some n))
                  (rate_limit_rows (db w)) = true) as ->; [|done].
        apply existsb_exists. exists r. split; [done|]. simpl. by apply String.eqb_eq.
      * intros Hfresh row.
        rewrite (proj2 (existsb_name_false _ n) Hfresh).
        unfold crud_rate_limits.create, FastCRUD.exec. rewrite Hav. simpl.
        fold row. by rewrite (unique_names_snoc _ row Hun Hfresh).
Qed.

Lemma write_rate_limit_outcomes_witness :
  (write_rate_limit "free" (RateLimitCreate_validate "/users/" 5 60 None)
     (mkWorld (mkDB true [Tier.mk 1 "free"] [] [] [] 0 0) None [])).1
  = Raise IntegrityError.
Proof.
  refine (f_equal fst
    (proj1 (proj2 (write_rate_limit_outcomes "free" (RateLimitCreate_validate "/users/" 5 60 None)
                     (mkWorld (mkDB true [Tier.mk 1 "free"] [] [] [] 0 0) None [])
                     eq_refl eq_refl) (Tier.mk 1 "free") eq_refl) eq_refl)).
Defined.

Lemma Forall_le_weaken (rows : list RateLimit.t) (a b : Z) :
  a <= b -> Forall (fun r => RateLimit.id r <= a) rows ->
  Forall (fun r => RateLimit.id r <= b) rows.
Proof.
  intros Hab H. eapply Forall_impl; [exact H|]. intros r. simpl. lia.
Qed.

Lemma map_id_update v id rows :
  map RateLimit.id
    (map (fun r => if RateLimit.id r =? id then crud_rate_limits.apply_update v r else r) rows)
  = map RateLimit.id rows.
Proof.
  rewrite map_map. apply map_ext. intros r. by destruct (RateLimit.id r =? id).
Qed.

(** X13. Whatever they are asked and however they end, [write_rate_limit],
    [patch_rate_limit] and [erase_rate_limit] leave a well-formed table of
    rules well formed: ids distinct and no greater than the sequence, names
    distinct. *)
Theorem rate_limit_endpoints_keep_table_ok w :
  rate_limit_table_ok (db w) ->
  (forall tier_name body,
     rate_limit_table_ok (db (write_rate_limit tier_name body w).2))
  /\ (forall tier_name id values,
        rate_limit_table_ok (db (patch_rate_limit tier_name id values w).2))
  /\ (forall tier_name id,
        rate_limit_table_ok (db (erase_rate_limit tier_name id w).2)).
Proof.
  intros Hok. pose proof Hok as (Hids & Hseq & Hnames).
  destruct (available (db w)) eqn:Hav.
  2:{ split; [|split]; intros;
        unfold write_rate_limit, patch_rate_limit, erase_rate_limit, tier_by_name, bind,
          FastCRUD.get, FastCRUD.query; rewrite Hav; exact Hok. }
  split; [|split].
  - intros tier_name body. rewrite (write_rate_limit_closed_form _ _ _ Hav).
    destruct (find _ (tier_rows (db w))) as [t|]; [|exact Hok].
    destruct (existsb _ (rate_limit_rows (db w))); [exact Hok|].
    unfold crud_rate_limits.create, FastCRUD.exec. rewrite Hav. simpl.
    destruct (create_name body) as [n|]; [|exact Hok].
    destruct (unique_names (_ ++ _)) eqn:Hun; [|exact Hok].
    unfold rate_limit_table_ok. simpl.
    split; [|split; [|done]].
    + rewrite map_app. simpl. apply NoDup_app. split; [done|].
      split; [|apply NoDup_singleton].
      intros x Hx Hx'. apply list_elem_of_singleton in Hx' as ->.
      apply list_elem_of_In, in_map_iff in Hx as (r & Hr & Hin).
      rewrite Forall_forall in Hseq. apply list_elem_of_In, Hseq in Hin. lia.
    + apply Forall_app. split.
      * apply (Forall_le_weaken _ (rate_limit_seq (db w))); [lia|done].
      * apply Forall_cons. split; [simpl; lia|apply Forall_nil_2].
  - intros tier_name id values. rewrite (patch_rate_limit_closed_form _ _ _ _ Hav).
    destruct (find _ (tier_rows (db w))) as [t|]; [|exact Hok].
    destruct (find _ (rate_limit_rows (db w))) as [r|]; [|exact Hok].
    destruct (existsb _ (rate_limit_rows (db w))); [exact Hok|]. cbv zeta.
    destruct (unique_names (map _ _)) eqn:Hun; [|exact Hok].
    unfold rate_limit_table_ok. simpl.
    split; [by rewrite map_id_update|]. split; [|done].
    apply Forall_forall. intros x Hx.
    apply list_elem_of_In, in_map_iff in Hx as (y & <- & Hy).
    rewrite Forall_forall in Hseq. apply list_elem_of_In, Hseq in Hy.
    by destruct (RateLimit.id y =? RateLimit.id r).
  - intros tier_name id. rewrite (erase_rate_limit_closed_form _ _ _ Hav).
    destruct (find _ (tier_rows (db w))) as [t|]; [|exact Hok].
    destruct (find _ (rate_limit_rows (db w))) as [r|]; [|exact Hok].
    unfold rate_limit_table_ok. simpl.
    split; [by apply NoDup_map_filter|]. split.
    + apply Forall_forall. intros x Hx. apply list_elem_of_In, filter_In in Hx as [Hx _].
      rewrite Forall_forall in Hseq. by apply Hseq, list_elem_of_In.
    + apply unique_names_NoDup, NoDup_map_filter. by apply unique_names_NoDup.
Qed.

Lemma rate_limit_endpoints_keep_table_ok_witness :
  rate_limit_table_ok
    (db (write_rate_limit "free" (RateLimitCreate_validate "/users/" 5 60 (Some "users:5:60"))
           (mkWorld (mkDB true [Tier.mk 1 "free"] [] [] [] 0 0) None [])).2).
Proof.
  refine (proj1 (rate_limit_endpoints_keep_table_ok
                   (mkWorld (mkDB true [Tier.mk 1 "free"] [] [] [] 0 0) None []) _) _ _).
  split; [constructor|]. split; [constructor|reflexivity].
Defined.

Lemma write_rate_limit_success tier_name body w t n :
  available (db w) = true ->
  unique_names (rate_limit_rows (db w)) = true ->
  find (fun t => String.eqb (Tier.name t) tier_name) (tier_rows (db w)) = Some t ->
  create_name body = Some n ->
  (forall r, In r (rate_limit_rows (db w)) -> RateLimit.name r <> n) ->
  write_rate_limit tier_name body w
  = (Ok (RateLimit.mk (rate_limit_seq (db w) + 1) (Tier.id t) n
           (sanitize_path (create_path body)) (create_limit body) (create_period body)),
     mkWorld
       (mkDB (available (db w)) (tier_rows (db w))
          (rate_limit_rows (db w)
           ++ [RateLimit.mk (rate_limit_seq (db w) + 1) (Tier.id t) n
                 (sanitize_path (create_path body)) (create_limit body)
                 (create_period body)])%list
          (user_rows (db w)) (token_blacklist_rows (db w)) (rate_limit_seq (db w) + 1)
          (token_blacklist_seq (db w)))
       (client w) (logs w)).
Proof.
  intros Hav Hun Ht Hn Hfresh.
  rewrite (write_rate_limit_closed_form tier_name body w Hav), Ht, Hn.
  rewrite (proj2 (existsb_name_false _ n) Hfresh).
  unfold crud_rate_limits.create, FastCRUD.exec. rewrite Hav. simpl.
  by rewrite (unique_names_snoc _ (RateLimit.mk _ _ n _ _ _) Hun Hfresh).
Qed.

(** [rate_limiter] for a user whose tier has a rule for the path, and for
    one whose tier has none. *)
Lemma rate_limiter_of_rule settings now request u t rule w :
  available (db w) = true ->
  tier_of (db w) u = Some t ->
  rule_of (db w) t (sanitize_path (url_path request)) = Some rule ->
  rate_limiter settings now request (Some u) w
  = enforce now (sanitize_path (url_path request))
      (UserIdentity (User.id u), RateLimit.limit rule, RateLimit.period rule) w.
Proof.
  intros Hav Ht Hr.
  destruct (rate_limiter_resolution settings now request (Some u) w) as (msgs & E & _ & _ & Hm);
    [by left|].
  assert (msgs = []) as -> by (apply Hm; right; by exists u, t, rule).
  rewrite E. unfold spec_tier_resolution. rewrite Ht, Hr, app_nil_r. by destruct w.
Qed.

Lemma rate_limiter_without_rule settings now request u t w :
  available (db w) = true ->
  tier_of (db w) u = Some t ->
  rule_of (db w) t (sanitize_path (url_path request)) = None ->
  exists m,
    levelname m = WARNING
    /\ rate_limiter settings now request (Some u) w
       = enforce now (sanitize_path (url_path request))
           (UserIdentity (User.id u),
            DEFAULT_RATE_LIMIT_LIMIT settings, DEFAULT_RATE_LIMIT_PERIOD settings)
           (mkWorld (db w) (client w) (logs w ++ [m])%list).
Proof.
  intros Hav Ht Hr.
  destruct (rate_limiter_resolution settings now request (Some u) w)
    as (msgs & E & Hwarn & Hlen & Hm); [by left|].
  destruct msgs as [|m [|m' msgs]]; [| |simpl in Hlen; lia].
  - destruct (proj1 Hm eq_refl) as [?|(u' & t' & r' & ? & Ht' & Hr')]; [done|].
    simplify_eq; congruence.
  - exists m. split; [by apply Forall_cons in Hwarn as [? _]|].
    rewrite E. unfold spec_tier_resolution. by rewrite Ht, Hr.
Qed.

(** X9. A rule that [write_rate_limit] has created for a tier that had no
    rule for the path is the one [rate_limiter] enforces from then on for
    the users of the tier, on every route whose sanitized path is the
    rule's: their requests are counted against the limit and the period of
    the body. (When the tier has a rule for the path already, the table
    ends with two rules for the pair and the lookup of the limiter names
    no order, so nothing is claimed.) *)
Theorem write_rate_limit_takes_effect tier_name body w t n u settings now request :
  available (db w) = true ->
  unique_names (rate_limit_rows (db w)) = true ->
  find (fun t => String.eqb (Tier.name t) tier_name) (tier_rows (db w)) = Some t ->
  create_name body = Some n ->
  (forall r, In r (rate_limit_rows (db w)) -> RateLimit.name r <> n) ->
  tier_of (db w) u = Some t ->
  sanitize_path (url_path request) = sanitize_path (create_path body) ->
  (forall r, In r (rate_limit_rows (db w)) ->
     RateLimit.tier_id r = Tier.id t -> RateLimit.path r <> sanitize_path (url_path request)) ->
  is_ok (write_rate_limit tier_name body w).1 = true
  /\ rate_limiter settings now request (Some u) (write_rate_limit tier_name body w).2
     = enforce now (sanitize_path (url_path request))
         (UserIdentity (User.id u), create_limit body, create_period body)
         (write_rate_limit tier_name body w).2.
Proof.
  intros Hav Hun Ht Hn Hfresh Htier Hpath Hnorule.
  assert (rule_of (db w) t (sanitize_path (url_path request)) = None) as Hnone.
  { unfold rule_of. apply find_none_intro. intros r Hin.
    destruct (Z.eqb_spec (RateLimit.tier_id r) (Tier.id t)) as [Hrt|]; [|done]. simpl.
    apply String.eqb_neq. by apply Hnorule. }
  rewrite (write_rate_limit_success tier_name body w t n Hav Hun Ht Hn Hfresh).
  split; [done|]. simpl.
  apply (rate_limiter_of_rule settings now request u t
           (RateLimit.mk (rate_limit_seq (db w) + 1) (Tier.id t) n
              (sanitize_path (create_path body)) (create_limit body)
              (create_period body))); [done|done|].
  unfold rule_of in *. simpl. rewrite find_snoc, Hnone. simpl.
  by rewrite Z.eqb_refl, Hpath, String.eqb_refl.
Qed.

(** The tier "free" gets the rule (1, 60) for "users"; of two requests of
    one of its users within the minute, the second is rejected. *)
Lemma write_rate_limit_takes_effect_witness :
  let w := mkWorld (mkDB true [Tier.mk 1 "free"] [] [] [] 0 0) (Some (mkRedis true ∅)) [] in
  let body := RateLimitCreate_validate "/users/" 1 60 (Some "users:1:60") in
  let u := User.mk 5 "alice" "alice@example.com" false false (Some 1) in
  let request := mkRequest None "/users" "10.0.0.1" in
  (run_limiter (DefaultRateLimitSettings ∅) request (Some u) [120; 130]
     (write_rate_limit "free" body w).2).1
  = [Ok tt; Raise (RateLimitException "Rate limit exceeded.")].
Proof.
  intros w body u request. unfold run_limiter.
  destruct (write_rate_limit_takes_effect "free" body w (Tier.mk 1 "free") "users:1:60" u
              (DefaultRateLimitSettings ∅) 120 request eq_refl eq_refl eq_refl eq_refl
              (fun r (H : In r []) => match H with end) eq_refl eq_refl
              (fun r (H : In r []) => match H with end)) as (_ & H120).
  rewrite H120. reflexivity.
Defined.

Lemma rule_of_the_rule d t r :
  one_rule_per_tier_path (rate_limit_rows d) ->
  In r (rate_limit_rows d) -> RateLimit.tier_id r = Tier.id t ->
  rule_of d t (RateLimit.path r) = Some r.
Proof.
  intros Hinv Hin Htier. unfold rule_of.
  destruct (find _ (rate_limit_rows d)) as [x|] eqn:Hf.
  - apply find_some in Hf as [Hx Hf]. apply andb_true_iff in Hf as [Ht Hp].
    apply Z.eqb_eq in Ht. apply String.eqb_eq in Hp. f_equal.
    apply (NoDup_map_inj_on _ _ Hinv); [by apply list_elem_of_In..|]. congruence.
  - apply find_none with (x := r) in Hf; [|done].
    rewrite Htier, Z.eqb_refl in Hf. by rewrite String.eqb_refl in Hf.
Qed.

(** X7. Deleting a rule takes effect at once. With one rule per (tier,
    path) in the table, a user of the tier is limited by the rule before
    [erase_rate_limit]; after it the rule cannot be read any more (404) and
    the same request falls back to the default policy, with the warning. *)
Theorem erase_rate_limit_falls_back tier_name id w t r u settings now request :
  available (db w) = true ->
  one_rule_per_tier_path (rate_limit_rows (db w)) ->
  find (fun t => String.eqb (Tier.name t) tier_name) (tier_rows (db w)) = Some t ->
  find (fun r => (RateLimit.tier_id r =? Tier.id t) && (RateLimit.id r =? id))
       (rate_limit_rows (db w)) = Some r ->
  tier_of (db w) u = Some t ->
  sanitize_path (url_path request) = RateLimit.path r ->
  rate_limiter settings now request (Some u) w
  = enforce now (sanitize_path (url_path request))
      (UserIdentity (User.id u), RateLimit.limit r, RateLimit.period r) w
  /\ (erase_rate_limit tier_name id w).1 = Ok "Rate Limit deleted"
  /\ read_rate_limit tier_name id (erase_rate_limit tier_name id w).2
     = (Raise (NotFoundException "Rate Limit not found"), (erase_rate_limit tier_name id w).2)
  /\ exists m,
       levelname m = WARNING
       /\ rate_limiter settings now request (Some u) (erase_rate_limit tier_name id w).2
          = enforce now (sanitize_path (url_path request))
              (UserIdentity (User.id u),
               DEFAULT_RATE_LIMIT_LIMIT settings, DEFAULT_RATE_LIMIT_PERIOD settings)
              (mkWorld (db (erase_rate_limit tier_name id w).2)
                 (client (erase_rate_limit tier_name id w).2)
                 (logs (erase_rate_limit tier_name id w).2 ++ [m])%list).
Proof.
  intros Hav Hinv Ht Hr Htier Hpath.
  apply find_some in Hr as Hr'. destruct Hr' as [Hin Hr'].
  apply andb_true_iff in Hr' as [Hrt Hrid]. apply Z.eqb_eq in Hrt, Hrid.
  split.
  { apply rate_limiter_of_rule with (t := t); [done|done|].
    rewrite Hpath. by apply rule_of_the_rule. }
  rewrite (erase_rate_limit_closed_form tier_name id w Hav), Ht, Hr.
  split; [done|]. simpl. split.
  - rewrite read_rate_limit_closed_form by done. simpl. rewrite Ht.
    rewrite find_none_intro; [done|].
    intros x Hx. apply filter_In in Hx as [_ Hx]. apply negb_true_iff in Hx.
    rewrite <- Hrid, Hx. apply andb_false_r.
  - apply rate_limiter_without_rule with (t := t); [done|done|].
    unfold rule_of. simpl. apply find_none_intro.
    intros x Hx. apply filter_In in Hx as [Hx Hne]. apply negb_true_iff in Hne.
    destruct ((RateLimit.tier_id x =? Tier.id t)
              && String.eqb (RateLimit.path x) (sanitize_path (url_path request))) eqn:E;
      [|done].
    apply andb_true_iff in E as [E1 E2]. apply Z.eqb_eq in E1. apply String.eqb_eq in E2.
    assert (x = r) as ->.
    { apply (NoDup_map_inj_on _ _ Hinv); [by apply list_elem_of_In..|]. congruence. }
    by rewrite Z.eqb_refl in Hne.
Qed.

Lemma erase_rate_limit_falls_back_witness :
  let w :=
    mkWorld (mkDB true [Tier.mk 1 "free"] [RateLimit.mk 3 1 "users:1:60" "users" 1 60] [] [] 3 0)
      (Some (mkRedis true ∅)) [] in
  let u := User.mk 5 "alice" "alice@example.com" false false (Some 1) in
  read_rate_limit "free" 3 (erase_rate_limit "free" 3 w).2
  = (Raise (NotFoundException "Rate Limit not found"), (erase_rate_limit "free" 3 w).2).
Proof.
  intros w u.
  exact (proj1 (proj2 (proj2
    (erase_rate_limit_falls_back "free" 3 w (Tier.mk 1 "free")
       (RateLimit.mk 3 1 "users:1:60" "users" 1 60) u (DefaultRateLimitSettings ∅) 100
       (mkRequest None "/users/" "10.0.0.1") eq_refl
       ltac:(apply NoDup_singleton) eq_refl eq_refl eq_refl eq_refl)))).
Defined.

(** X10. What [write_rate_limit] returns can be read back: on a
    well-formed table, after a successful creation [read_rate_limit] with
    the tier's name and the id of the returned rule answers that very
    rule. *)
Theorem write_then_read_rate_limit tier_name body w t n :
  available (db w) = true ->
  rate_limit_table_ok (db w) ->
  find (fun t => String.eqb (Tier.name t) tier_name) (tier_rows (db w)) = Some t ->
  create_name body = Some n ->
  (forall r, In r (rate_limit_rows (db w)) -> RateLimit.name r <> n) ->
  exists row,
    (write_rate_limit tier_name body w).1 = Ok row
    /\ RateLimit.tier_id row = Tier.id t
    /\ RateLimit.path row = sanitize_path (create_path body)
    /\ read_rate_limit tier_name (RateLimit.id row) (write_rate_limit tier_name body w).2
       = (Ok row, (write_rate_limit tier_name body w).2).
Proof.
  intros Hav (Hids & Hseq & Hun) Ht Hn Hfresh.
  rewrite (write_rate_limit_success tier_name body w t n Hav Hun Ht Hn Hfresh).
  eexists. split; [reflexivity|]. split; [reflexivity|]. split; [reflexivity|].
  rewrite read_rate_limit_closed_form by done. simpl. rewrite Ht, find_snoc.
  rewrite find_none_intro.
  - simpl. by rewrite !Z.eqb_refl.
  - intros x Hx. rewrite Forall_forall in Hseq. apply list_elem_of_In, Hseq in Hx.
    destruct (Z.eqb_spec (RateLimit.id x) (rate_limit_seq (db w) + 1)); [lia|].
    apply andb_false_r.
Qed.

Lemma write_then_read_rate_limit_witness :
  let w := mkWorld (mkDB true [Tier.mk 1 "free"] [] [] [] 0 0) None [] in
  let body := RateLimitCreate_validate "/users/" 5 60 (Some "users:5:60") in
  exists row,
    (write_rate_limit "free" body w).1 = Ok row
    /\ read_rate_limit "free" (RateLimit.id row) (write_rate_limit "free" body w).2
       = (Ok row, (write_rate_limit "free" body w).2).
Proof.
  intros w body.
  destruct (write_then_read_rate_limit "free" body w (Tier.mk 1 "free") "users:5:60"
              eq_refl (conj (NoDup_nil_2) (conj (Forall_nil_2 _) eq_refl)) eq_refl eq_refl
              (fun r (H : In r []) => match H with end)) as (row & H1 & _ & _ & H2).
  exists row. split; [exact H1|exact H2].
Defined.

Lemma unique_names_update v id rows :
  NoDup (map RateLimit.id rows) ->
  unique_names rows = true ->
  (forall n, update_name v = Some n ->
     forall x, In x rows -> RateLimit.id x <> id -> RateLimit.name x <> n) ->
  unique_names
    (map (fun r => if RateLimit.id r =? id then crud_rate_limits.apply_update v r else r) rows)
  = true.
Proof.
  intros Hids Hun Hfresh. apply unique_names_NoDup in Hun.
  apply unique_names_NoDup. rewrite map_map.
  assert (forall x y, x ∈ rows -> y ∈ rows ->
            (RateLimit.id x =? id) = true -> (RateLimit.id y =? id) = false ->
            RateLimit.name (crud_rate_limits.apply_update v x) = RateLimit.name y -> x = y)
    as Hmixed.
  { intros x y Hx Hy Hix Hiy Heq. simpl in Heq.
    destruct (update_name v) as [n|] eqn:Hn; simpl in Heq.
    - apply Z.eqb_neq in Hiy. apply list_elem_of_In in Hy.
      by destruct (Hfresh n eq_refl y Hy Hiy).
    - by apply (NoDup_map_inj_on RateLimit.name rows Hun). }
  apply NoDup_map_of_inj_on; [by eapply NoDup_of_map|].
  intros x y Hx Hy.
  destruct (RateLimit.id x =? id) eqn:Hix; destruct (RateLimit.id y =? id) eqn:Hiy.
  - intros _. apply (NoDup_map_inj_on RateLimit.id rows Hids); auto.
    apply Z.eqb_eq in Hix, Hiy. congruence.
  - by apply Hmixed.
  - intros Heq. symmetry. by apply Hmixed.
  - by apply (NoDup_map_inj_on RateLimit.name rows Hun).
Qed.

(** [patch_rate_limit] on the attributes of a body: what the update leaves
    when no field of the body is a null. *)
Lemma patch_rate_limit_applied tier_name id values w t r :
  available (db w) = true ->
  rate_limit_table_ok (db w) ->
  find (fun t => String.eqb (Tier.name t) tier_name) (tier_rows (db w)) = Some t ->
  find (fun r => (RateLimit.tier_id r =? Tier.id t) && (RateLimit.id r =? id))
       (rate_limit_rows (db w)) = Some r ->
  (forall p, update_path values = Some p ->
     forall x, In x (rate_limit_rows (db w)) ->
               RateLimit.tier_id x = Tier.id t -> RateLimit.path x <> p) ->
  (forall n, update_name values = Some n ->
     forall x, In x (rate_limit_rows (db w)) ->
               RateLimit.id x <> RateLimit.id r -> RateLimit.name x <> n) ->
  (patch_rate_limit tier_name id values w).1 = Ok "Rate Limit updated"
  /\ read_rate_limit tier_name id (patch_rate_limit tier_name id values w).2
     = (Ok (RateLimit.mk (RateLimit.id r) (RateLimit.tier_id r)
              (default (RateLimit.name r) (update_name values))
              (default (RateLimit.path r) (update_path values))
              (default (RateLimit.limit r) (update_limit values))
              (default (RateLimit.period r) (update_period values))),
        (patch_rate_limit tier_name id values w).2)
  /\ (update_path values = None ->
      forall u settings now request,
        tier_of (db w) u = Some t ->
        rule_of (db w) t (sanitize_path (url_path request)) = Some r ->
        rate_limiter settings now request (Some u) (patch_rate_limit tier_name id values w).2
        = enforce now (sanitize_path (url_path request))
            (UserIdentity (User.id u),
             default (RateLimit.limit r) (update_limit values),
             default (RateLimit.period r) (update_period values))
            (patch_rate_limit tier_name id values w).2).
Proof.
  intros Hav (Hids & Hseq & Hun) Ht Hr Hpath Hname.
  apply find_some in Hr as Hr'. destruct Hr' as [Hin Hr'].
  apply andb_true_iff in Hr' as [Hrt Hrid]. apply Z.eqb_eq in Hrid.
  rewrite (patch_rate_limit_closed_form tier_name id values w Hav), Ht, Hr.
  assert (existsb
            (fun x => (RateLimit.tier_id x =? Tier.id t)
                      && FastCRUD.eq_opt String.eqb (RateLimit.path x) (update_path values))
            (rate_limit_rows (db w)) = false) as ->.
  { apply existsb_false_forall. intros x Hx.
    destruct (update_path values) as [p|] eqn:Hp; simpl; [|apply andb_false_r].
    destruct (Z.eqb_spec (RateLimit.tier_id x) (Tier.id t)) as [Hxt|]; [|done]. simpl.
    apply String.eqb_neq. by apply (Hpath p eq_refl x Hx). }
  cbv zeta. rewrite (unique_names_update values (RateLimit.id r) _ Hids Hun Hname).
  split; [done|]. simpl. split.
  - rewrite read_rate_limit_closed_form by done. simpl. rewrite Ht.
    rewrite find_map_preserving.
    + rewrite Hr. simpl. by rewrite Z.eqb_refl.
    + intros x. by destruct (RateLimit.id x =? RateLimit.id r).
  - intros Hp u settings now request Htier Hrule.
    apply (rate_limiter_of_rule settings now request u t
             (crud_rate_limits.apply_update values r)); [done|done|].
    unfold rule_of in *. simpl. rewrite find_map_preserving.
    + rewrite Hrule. simpl. by rewrite Z.eqb_refl.
    + intros x. destruct (RateLimit.id x =? RateLimit.id r); [|done].
      simpl. by rewrite Hp.
Qed.

Lemma patch_body_without_null tier_name id body w :
  PatchBody.has_null body = false ->
  PatchBody.patch_rate_limit tier_name id body w
  = patch_rate_limit tier_name id (PatchBody.values body) w.
Proof.
  intros Hnull.
  unfold PatchBody.patch_rate_limit, patch_rate_limit, tier_by_name, FastCRUD.get,
    FastCRUD.exists_, FastCRUD.query, PatchBody.update, bind, raise, ret. cbv zeta beta.
  destruct (available (db w)) eqn:Hav; [|done].
  destruct (find _ (tier_rows (db w))) as [t|]; [|done].
  cbv beta iota. rewrite ?Hav.
  destruct (find _ (rate_limit_rows (db w))) as [r|]; [|done].
  cbv beta iota. rewrite ?Hav.
  destruct (existsb _ (rate_limit_rows (db w))); [done|].
  cbv beta iota. by rewrite ?Hav, ?Hnull.
Qed.

Lemma patch_body_with_null tier_name id body w t r :
  available (db w) = true ->
  find (fun t => String.eqb (Tier.name t) tier_name) (tier_rows (db w)) = Some t ->
  find (fun r => (RateLimit.tier_id r =? Tier.id t) && (RateLimit.id r =? id))
       (rate_limit_rows (db w)) = Some r ->
  existsb
    (fun x => (RateLimit.tier_id x =? Tier.id t)
              && FastCRUD.eq_opt String.eqb (RateLimit.path x)
                   (update_path (PatchBody.values body)))
    (rate_limit_rows (db w)) = false ->
  PatchBody.has_null body = true ->
  PatchBody.patch_rate_limit tier_name id body w = (Raise IntegrityError, w).
Proof.
  intros Hav Ht Hr Hpath Hnull.
  assert (existsb (fun x => RateLimit.id x =? RateLimit.id r) (rate_limit_rows (db w)) = true)
    as Hrow.
  { apply existsb_exists. exists r. split; [by apply find_some in Hr as [? _]|].
    apply Z.eqb_refl. }
  unfold PatchBody.patch_rate_limit, tier_by_name, FastCRUD.get, FastCRUD.exists_,
    FastCRUD.query, PatchBody.update, bind, raise, ret. cbv zeta beta.
  rewrite Hav, Ht. cbv beta iota. rewrite Hav, Hr. cbv beta iota. rewrite Hav, Hpath.
  cbv beta iota. by rewrite ?Hav, ?Hnull, ?Hrow.
Qed.

(** X11. A patch that passes the checks is what is read and enforced
    afterwards, unless it sends a null. On a well-formed table, when the
    tier and the rule are found, the new path (if any) is not taken in the
    tier and the new name (if any) is not borne by another rule: a body
    with a field sent as null ends in [IntegrityError] (the columns are NOT
    NULL) and changes nothing; a body whose fields are left out or carry
    values succeeds, [read_rate_limit] then answers the rule with exactly
    the fields that carry values replaced, and when the path is left
    alone and the table has one rule per (tier, path), a user of the tier
    for whom the rule decided is limited by the new limit and period. *)
Theorem patch_rate_limit_takes_effect tier_name id body w t r :
  let values := PatchBody.values body in
  let w' := (PatchBody.patch_rate_limit tier_name id body w).2 in
  available (db w) = true ->
  rate_limit_table_ok (db w) ->
  find (fun t => String.eqb (Tier.name t) tier_name) (tier_rows (db w)) = Some t ->
  find (fun r => (RateLimit.tier_id r =? Tier.id t) && (RateLimit.id r =? id))
       (rate_limit_rows (db w)) = Some r ->
  (forall p, update_path values = Some p ->
     forall x, In x (rate_limit_rows (db w)) ->
               RateLimit.tier_id x = Tier.id t -> RateLimit.path x <> p) ->
  (forall n, update_name values = Some n ->
     forall x, In x (rate_limit_rows (db w)) ->
               RateLimit.id x <> RateLimit.id r -> RateLimit.name x <> n) ->
  (PatchBody.has_null body = true ->
   PatchBody.patch_rate_limit tier_name id body w = (Raise IntegrityError, w))
  /\ (PatchBody.has_null body = false ->
      (PatchBody.patch_rate_limit tier_name id body w).1 = Ok "Rate Limit updated"
      /\ read_rate_limit tier_name id w'
         = (Ok (RateLimit.mk (RateLimit.id r) (RateLimit.tier_id r)
                  (default (RateLimit.name r) (update_name values))
                  (default (RateLimit.path r) (update_path values))
                  (default (RateLimit.limit r) (update_limit values))
                  (default (RateLimit.period r) (update_period values))),
            w')
      /\ (update_path values = None ->
          one_rule_per_tier_path (rate_limit_rows (db w)) ->
          forall u settings now request,
            tier_of (db w) u = Some t ->
            rule_of (db w) t (sanitize_path (url_path request)) = Some r ->
            rate_limiter settings now request (Some u) w'
            = enforce now (sanitize_path (url_path request))
                (UserIdentity (User.id u),
                 default (RateLimit.limit r) (update_limit values),
                 default (RateLimit.period r) (update_period values))
                w')).
Proof.
  intros values w' Hav Hok Ht Hr Hpath Hname. split.
  - intros Hnull. apply (patch_body_with_null tier_name id body w t r); try done.
    apply existsb_false_forall. intros x Hx. fold values.
    destruct (update_path values) as [p|] eqn:Hp; simpl; [|apply andb_false_r].
    destruct (Z.eqb_spec (RateLimit.tier_id x) (Tier.id t)) as [Hxt|]; [|done]. simpl.
    apply String.eqb_neq. by apply (Hpath p eq_refl x Hx).
  - intros Hnull. subst w'.
    rewrite (patch_body_without_null tier_name id body w Hnull). fold values.
    destruct (patch_rate_limit_applied tier_name id values w t r Hav Hok Ht Hr Hpath Hname)
      as (Hres & Hread & Hlim).
    split; [done|]. split; [done|].
    intros Hp _. by apply Hlim.
Qed.

(** The rule (5, 60) of the tier "free" for "users" is patched with
    [{"limit": 1}]: it reads back with limit 1, and of two requests of a
    user of the tier within the minute the second is rejected. The body
    [{"path": null, "limit": 20}] ends in [IntegrityError]. *)
Lemma patch_rate_limit_takes_effect_witness :
  let w :=
    mkWorld (mkDB true [Tier.mk 1 "free"] [RateLimit.mk 3 1 "users:5:60" "users" 5 60] [] [] 3 0)
      (Some (mkRedis true ∅)) [] in
  let body := PatchBody.mk PatchBody.Unset (PatchBody.Value 1) PatchBody.Unset PatchBody.Unset in
  let null_path :=
    PatchBody.mk PatchBody.Null (PatchBody.Value 20) PatchBody.Unset PatchBody.Unset in
  let w' := (PatchBody.patch_rate_limit "free" 3 body w).2 in
  let u := User.mk 5 "alice" "alice@example.com" false false (Some 1) in
  let request := mkRequest None "/users" "10.0.0.1" in
  PatchBody.patch_rate_limit "free" 3 null_path w = (Raise IntegrityError, w)
  /\ read_rate_limit "free" 3 w' = (Ok (RateLimit.mk 3 1 "users:5:60" "users" 1 60), w')
  /\ (run_limiter (DefaultRateLimitSettings ∅) request (Some u) [120; 130] w').1
     = [Ok tt; Raise (RateLimitException "Rate limit exceeded.")].
Proof.
  intros w body null_path w' u request.
  assert (rate_limit_table_ok (db w)) as Hok.
  { split; [apply NoDup_singleton|]. split; [|reflexivity].
    apply Forall_cons. split; [simpl; lia|apply Forall_nil_2]. }
  assert (one_rule_per_tier_path (rate_limit_rows (db w))) as Hone by apply NoDup_singleton.
  split; [|split].
  - refine (proj1 (patch_rate_limit_takes_effect "free" 3 null_path w (Tier.mk 1 "free")
                     (RateLimit.mk 3 1 "users:5:60" "users" 5 60) eq_refl Hok eq_refl eq_refl
                     _ _) eq_refl).
    + intros p [=].
    + intros n [=].
  - refine (proj1 (proj2 (proj2
              (patch_rate_limit_takes_effect "free" 3 body w (Tier.mk 1 "free")
                 (RateLimit.mk 3 1 "users:5:60" "users" 5 60) eq_refl Hok eq_refl eq_refl
                 _ _) eq_refl))).
    + intros p [=].
    + intros n [=].
  - unfold run_limiter.
    rewrite (proj2 (proj2 (proj2
               (patch_rate_limit_takes_effect "free" 3 body w (Tier.mk 1 "free")
                  (RateLimit.mk 3 1 "users:5:60" "users" 5 60) eq_refl Hok eq_refl eq_refl
                  (fun p (H : None = Some p) => match H with end)
                  (fun n (H : None = Some n) => match H with end)) eq_refl))
               eq_refl Hone u (DefaultRateLimitSettings ∅) 120 request eq_refl eq_refl).
    reflexivity.
Defined.

(** X12. A duplicate name is not caught by [patch_rate_limit] itself: when
    the checks of the endpoint pass and the new name is the name of
    another rule, the update reaches the table, whose UNIQUE constraint on
    [name] answers [IntegrityError]; nothing is changed. The same name on
    [write_rate_limit] is answered with the 409. *)
Theorem patch_rate_limit_duplicate_name tier_name id values w t r n other :
  available (db w) = true ->
  find (fun t => String.eqb (Tier.name t) tier_name) (tier_rows (db w)) = Some t ->
  find (fun r => (RateLimit.tier_id r =? Tier.id t) && (RateLimit.id r =? id))
       (rate_limit_rows (db w)) = Some r ->
  existsb
    (fun x => (RateLimit.tier_id x =? Tier.id t)
              && FastCRUD.eq_opt String.eqb (RateLimit.path x) (update_path values))
    (rate_limit_rows (db w)) = false ->
  update_name values = Some n ->
  In other (rate_limit_rows (db w)) ->
  RateLimit.id other <> RateLimit.id r ->
  RateLimit.name other = n ->
  patch_rate_limit tier_name id values w = (Raise IntegrityError, w)
  /\ forall body, create_name body = Some n ->
       write_rate_limit tier_name body w
       = (Raise (DuplicateValueException "Rate Limit Name not available"), w).
Proof.
  intros Hav Ht Hr Hpath Hn Hin Hid Hname. split.
  - apply find_some in Hr as Hr'. destruct Hr' as [Hinr _].
    rewrite (patch_rate_limit_closed_form tier_name id values w Hav), Ht, Hr, Hpath.
    cbv zeta.
    destruct (unique_names _) eqn:Hun; [|done]. exfalso.
    apply unique_names_NoDup in Hun. apply Hid. symmetry.
    set (f := fun x => if RateLimit.id x =? RateLimit.id r
                       then crud_rate_limits.apply_update values x else x) in *.
    assert (f r = f other) as Heq.
    { apply (NoDup_map_inj_on RateLimit.name _ Hun).
      - apply list_elem_of_In, in_map. done.
      - apply list_elem_of_In, in_map. done.
      - unfold f. rewrite Z.eqb_refl.
        destruct (Z.eqb_spec (RateLimit.id other) (RateLimit.id r)); [done|].
        simpl. by rewrite Hn. }
    unfold f in Heq. rewrite Z.eqb_refl in Heq.
    destruct (Z.eqb_spec (RateLimit.id other) (RateLimit.id r)); [done|].
    by rewrite <- Heq.
  - intros body Hb. rewrite (write_rate_limit_closed_form tier_name body w Hav), Ht, Hb.
    assert (existsb (fun r => FastCRUD.eq_opt String.eqb (RateLimit.name r) (Some n))
              (rate_limit_rows (db w)) = true) as ->; [|done].
    apply existsb_exists. exists other. split; [done|]. simpl. by apply String.eqb_eq.
Qed.

Lemma patch_rate_limit_duplicate_name_witness :
  patch_rate_limit "free" 3 (mkRateLimitUpdate None None None (Some "posts:5:60"))
    (mkWorld
       (mkDB true [Tier.mk 1 "free"]
          [RateLimit.mk 3 1 "users:5:60" "users" 5 60;
           RateLimit.mk 4 1 "posts:5:60" "posts" 5 60] [] [] 4 0)
       None [])
  = (Raise IntegrityError,
     mkWorld
       (mkDB true [Tier.mk 1 "free"]
          [RateLimit.mk 3 1 "users:5:60" "users" 5 60;
           RateLimit.mk 4 1 "posts:5:60" "posts" 5 60] [] [] 4 0)
       None []).
Proof.
  refine (proj1 (patch_rate_limit_duplicate_name "free" 3
                   (mkRateLimitUpdate None None None (Some "posts:5:60"))
                   (mkWorld
                      (mkDB true [Tier.mk 1 "free"]
                         [RateLimit.mk 3 1 "users:5:60" "users" 5 60;
                          RateLimit.mk 4 1 "posts:5:60" "posts" 5 60] [] [] 4 0)
                      None [])
                   (Tier.mk 1 "free") (RateLimit.mk 3 1 "users:5:60" "users" 5 60)
                   "posts:5:60" (RateLimit.mk 4 1 "posts:5:60" "posts" 5 60)
                   eq_refl eq_refl eq_refl eq_refl eq_refl _ _ eq_refl)).
  - right. by left.
  - simpl. lia.
Defined.

(** X20. [patch_rate_limit] and [erase_rate_limit] never produce a second
    rule for a (tier, path): from a table with distinct ids and at most one
    rule per pair, whatever they are asked and however they end, the table
    they leave has at most one rule per pair. *)
Theorem patch_and_erase_keep_one_rule w :
  NoDup (map RateLimit.id (rate_limit_rows (db w))) ->
  one_rule_per_tier_path (rate_limit_rows (db w)) ->
  (forall tier_name id values,
     one_rule_per_tier_path (rate_limit_rows (db (patch_rate_limit tier_name id values w).2)))
  /\ (forall tier_name id,
        one_rule_per_tier_path (rate_limit_rows (db (erase_rate_limit tier_name id w).2))).
Proof.
  intros Hids Hinv. split.
  - intros. by apply patch_rate_limit_keeps_one_rule.
  - intros. by apply erase_rate_limit_keeps_one_rule.
Qed.

Lemma patch_and_erase_keep_one_rule_witness :
  one_rule_per_tier_path
    (rate_limit_rows
       (db (patch_rate_limit "free" 3 (mkRateLimitUpdate (Some "posts") None None None)
              (mkWorld
                 (mkDB true [Tier.mk 1 "free"]
                    [RateLimit.mk 3 1 "users:5:60" "users" 5 60] [] [] 3 0)
                 None [])).2)).
Proof.
  refine (proj1 (patch_and_erase_keep_one_rule
                   (mkWorld
                      (mkDB true [Tier.mk 1 "free"]
                         [RateLimit.mk 3 1 "users:5:60" "users" 5 60] [] [] 3 0)
                      None []) _ _) "free" 3 _).
  - apply NoDup_singleton.
  - apply NoDup_singleton.
Defined.

(* ===================================================================== *)
(** * Issuing and refreshing tokens *)
(* ===================================================================== *)

Section TokenProperties.

Variable jwt_verify : string -> option Payload.
Variable jwt_encode : Payload -> string.
Variable crypt : CryptSettings.

(** The expiry [create_access_token] writes into the token. *)
Lemma create_access_token_payload now data expires_delta :
  create_access_token jwt_encode crypt now data expires_delta
  = jwt_encode
      (mkPayload (sub data)
         (Some (match expires_delta with
                | Some seconds =>
                    if seconds =? 0 then now + ACCESS_TOKEN_EXPIRE_MINUTES crypt * 60
                    else now + seconds
                | None => now + ACCESS_TOKEN_EXPIRE_MINUTES crypt * 60
                end))).
Proof.
  unfold create_access_token, timedelta_truthy.
  destruct expires_delta as [s|]; [|done]. simpl. by destruct (s =? 0).
Qed.

(** X14. A token that [create_access_token] issues at [now] for a subject
    is accepted by [verify_token], with that subject, at every instant up
    to its expiry and at none after it, as long as it is not blacklisted:
    the expiry is [now] plus the given delta, and [now] plus the configured
    minutes when no delta is given or when the delta is zero (a zero
    [timedelta] is falsy). The token library is only asked to decode what
    it encoded. *)
Theorem access_token_round_trip now s expires_delta w :
  let token := create_access_token jwt_encode crypt now (mkPayload (Some s) None) expires_delta in
  let expire :=
    match expires_delta with
    | Some seconds =>
        if seconds =? 0 then now + ACCESS_TOKEN_EXPIRE_MINUTES crypt * 60 else now + seconds
    | None => now + ACCESS_TOKEN_EXPIRE_MINUTES crypt * 60
    end in
  jwt_verify token = Some (mkPayload (Some s) (Some expire)) ->
  available (db w) = true ->
  (forall row, In row (token_blacklist_rows (db w)) -> TokenBlacklist.token row <> token) ->
  forall now',
    verify_token jwt_verify now' token w
    = (Ok (if expire <? now' then None else Some s), w).
Proof.
  intros token expire Hrt Hav Hnb now'.
  rewrite (verify_token_closed_form jwt_verify now' token w Hav). unfold token_subject.
  assert (existsb (fun r => String.eqb (TokenBlacklist.token r) token)
            (token_blacklist_rows (db w)) = false) as ->.
  { destruct (existsb _ _) eqn:E; [|done].
    apply blacklisted_exists in E as (row & Hin & Htok). by destruct (Hnb row Hin). }
  rewrite Hrt. simpl. done.
Qed.

End TokenProperties.

Lemma access_token_round_trip_witness :
  let encode := fun p : Payload => "signed" in
  let verify := fun t : string =>
    if String.eqb t "signed" then Some (mkPayload (Some "alice") (Some 2800)) else None in
  let w := mkWorld (mkDB true [] [] [] [] 0 0) None [] in
  let token :=
    create_access_token encode (load_CryptSettings ∅) 1000 (mkPayload (Some "alice") None)
      (Some 0) in
  verify_token verify 2800 token w = (Ok (Some "alice"), w)
  /\ verify_token verify 2801 token w = (Ok None, w).
Proof.
  intros encode verify w token.
  assert (forall now',
            verify_token verify now' token w
            = (Ok (if 2800 <? now' then None else Some "alice"), w)) as H.
  { intros now'.
    exact (access_token_round_trip verify encode (load_CryptSettings ∅) 1000 "alice" (Some 0) w
             eq_refl eq_refl (fun row (Hin : In row []) => match Hin with end) now'). }
  split; [exact (H 2800)|exact (H 2801)].
Defined.

Lemma not_blacklisted_existsb token (rows : list TokenBlacklist.t) :
  (forall row, In row rows -> TokenBlacklist.token row <> token) ->
  existsb (fun r => String.eqb (TokenBlacklist.token r) token) rows = false.
Proof.
  intros Hnb. destruct (existsb _ _) eqn:E; [|done].
  apply blacklisted_exists in E as (row & Hin & Htok). by destruct (Hnb row Hin).
Qed.

Lemma refresh_access_token_closed_form jwt_verify jwt_encode crypt now now_access t w :
  t <> "" ->
  available (db w) = true ->
  refresh_access_token jwt_verify jwt_encode crypt now now_access (Some t) w
  = match token_subject jwt_verify now t (db w) with
    | Some s =>
        (Ok (create_access_token jwt_encode crypt now_access (mkPayload (Some s) None) None,
             "bearer"), w)
    | None => (Raise (UnauthorizedException "Invalid refresh token."), w)
    end.
Proof.
  intros Ht Hav. unfold refresh_access_token.
  destruct t as [|a t]; [done|]. simpl. unfold bind.
  rewrite (verify_token_closed_form jwt_verify now _ w Hav).
  by destruct (token_subject _ _ _ _).
Qed.

(** X15. [refresh_access_token] answers the 401 "Refresh token missing."
    when the cookie is absent or empty, without reading the database (so
    also when it is down). With a cookie and the database up it answers the
    401 "Invalid refresh token." when the token is blacklisted, does not
    decode, has expired or names no subject, and leaves the world as it
    was; otherwise it answers a bearer token for the cookie's subject that
    expires the configured minutes after the clock reading. The endpoint
    never looks at what kind of token the cookie holds. *)
Theorem refresh_access_token_outcomes jwt_verify jwt_encode crypt now now_access w :
  (forall cookie, cookie = None \/ cookie = Some "" ->
     refresh_access_token jwt_verify jwt_encode crypt now now_access cookie w
     = (Raise (UnauthorizedException "Refresh token missing."), w))
  /\ (forall t, t <> "" -> available (db w) = true ->
        ((exists row, In row (token_blacklist_rows (db w)) /\ TokenBlacklist.token row = t)
         \/ jwt_verify t = None
         \/ (exists p e, jwt_verify t = Some p /\ exp p = Some e /\ e < now)
         \/ (exists p, jwt_verify t = Some p /\ sub p = None) ->
         refresh_access_token jwt_verify jwt_encode crypt now now_access (Some t) w
         = (Raise (UnauthorizedException "Invalid refresh token."), w))
        /\ (forall p s,
              (forall row, In row (token_blacklist_rows (db w)) -> TokenBlacklist.token row <> t) ->
              jwt_verify t = Some p -> sub p = Some s ->
              (forall e, exp p = Some e -> now <= e) ->
              refresh_access_token jwt_verify jwt_encode crypt now now_access (Some t) w
              = (Ok (jwt_encode
                       (mkPayload (Some s)
                          (Some (now_access + ACCESS_TOKEN_EXPIRE_MINUTES crypt * 60))),
                     "bearer"), w))).
Proof.
  split.
  - by intros cookie [->| ->].
  - intros t Ht Hav.
    rewrite (refresh_access_token_closed_form _ _ _ _ _ t w Ht Hav). unfold token_subject.
    split.
    + intros [(row & Hin & Htok)|[Hv|[(p & e & Hv & He & Hlt)|(p & Hv & Hs)]]].
      * assert (existsb (fun r => String.eqb (TokenBlacklist.token r) t)
                  (token_blacklist_rows (db w)) = true) as ->; [|done].
        apply blacklisted_exists. eauto.
      * destruct (existsb _ _); [done|]. by rewrite Hv.
      * destruct (existsb _ _); [done|]. rewrite Hv, He.
        by destruct (Z.ltb_spec e now); [|lia].
      * destruct (existsb _ _); [done|]. rewrite Hv, Hs.
        destruct (exp p) as [e|]; [|done]. by destruct (e <? now).
    + intros p s Hnb Hv Hs He. rewrite (not_blacklisted_existsb _ _ Hnb), Hv, Hs.
      assert (match exp p with
              | Some e => if e <? now then None else Some s
              | None => Some s
              end = Some s) as ->.
      { destruct (exp p) as [e|]; [|done].
        specialize (He e eq_refl). by destruct (Z.ltb_spec e now); [lia|]. }
      by rewrite create_access_token_payload.
Qed.

(** X16. [logout] revokes the access token it is given and nothing else:
    a different token that [verify_token] accepted before the logout is
    still accepted after it, so a request that still carries the refresh
    token obtains a new access token from [refresh_access_token], while
    the access token that was logged out is refused by
    [get_current_user]. *)
Theorem logout_leaves_refresh_token_valid jwt_verify jwt_encode crypt
    access_token payload e refresh_token s now now' now_access w :
  available (db w) = true ->
  jwt_verify access_token = Some payload ->
  exp payload = Some e ->
  now <= e ->
  (forall row, In row (token_blacklist_rows (db w)) ->
     TokenBlacklist.token row <> access_token) ->
  refresh_token <> access_token ->
  refresh_token <> "" ->
  verify_token jwt_verify now' refresh_token w = (Ok (Some s), w) ->
  let w' := (logout jwt_verify now access_token w).2 in
  (logout jwt_verify now access_token w).1 = Ok "Logged out successfully"
  /\ refresh_access_token jwt_verify jwt_encode crypt now' now_access (Some refresh_token) w'
     = (Ok (create_access_token jwt_encode crypt now_access (mkPayload (Some s) None) None,
            "bearer"), w')
  /\ get_current_user jwt_verify now' access_token w'
     = (Raise (UnauthorizedException "User not authenticated."), w').
Proof.
  intros Hav Hv He Hnow Hnb Hne Hnz Hver w'.
  assert (exists w1,
            logout jwt_verify now access_token w = (Ok "Logged out successfully", w1)
            /\ available (db w1) = true
            /\ token_blacklist_rows (db w1)
               = (token_blacklist_rows (db w)
                  ++ [TokenBlacklist.mk (token_blacklist_seq (db w) + 1) access_token e])%list)
    as (w1 & Hlog & Hav1 & Hrows).
  { eexists. split; [|split].
    - unfold logout, try_except_cls, try_except, bind at 1.
      rewrite (blacklist_token_decoded jwt_verify now access_token payload e w Hav Hv He Hnow).
      by rewrite (not_blacklisted_existsb _ _ Hnb).
    - done.
    - done. }
  subst w'. rewrite Hlog. cbn [fst snd]. split; [done|].
  rewrite (verify_token_closed_form jwt_verify now' refresh_token w Hav) in Hver.
  assert (token_subject jwt_verify now' refresh_token (db w) = Some s) as Hs by congruence.
  split.
  - rewrite refresh_access_token_closed_form; [|done|done].
    unfold token_subject in *. rewrite Hrows, existsb_app. cbn [existsb TokenBlacklist.token].
    destruct (existsb _ (token_blacklist_rows (db w))); [done|].
    assert ((access_token =? refresh_token)%string = false) as ->
      by (apply String.eqb_neq; congruence).
    cbn [orb]. by rewrite Hs.
  - rewrite get_current_user_closed_form; [|done].
    unfold token_subject. rewrite Hrows, existsb_app. cbn [existsb TokenBlacklist.token].
    rewrite String.eqb_refl. by rewrite !orb_true_r.
Qed.

Lemma logout_leaves_refresh_token_valid_witness :
  let verify := fun t : string =>
    if String.eqb t "a" then Some (mkPayload (Some "alice") (Some 100))
    else if String.eqb t "r" then Some (mkPayload (Some "alice") (Some 1000))
    else None in
  let encode := fun p : Payload => "new" in
  let w := mkWorld (mkDB true [] [] [] [] 0 0) None [] in
  let w' := (logout verify 50 "a" w).2 in
  (logout verify 50 "a" w).1 = Ok "Logged out successfully"
  /\ refresh_access_token verify encode (load_CryptSettings ∅) 60 60 (Some "r") w'
     = (Ok ("new", "bearer"), w')
  /\ get_current_user verify 60 "a" w'
     = (Raise (UnauthorizedException "User not authenticated."), w').
Proof.
  intros verify encode w w'.
  refine (logout_leaves_refresh_token_valid verify encode (load_CryptSettings ∅)
            "a" (mkPayload (Some "alice") (Some 100)) 100 "r" "alice" 50 60 60 w
            _ _ _ _ _ _ _ _).
  - reflexivity.
  - reflexivity.
  - reflexivity.
  - lia.
  - intros row [].
  - discriminate.
  - discriminate.
  - reflexivity.
Defined.

(* ===================================================================== *)
(** * Logging in *)
(* ===================================================================== *)

(** The first match of a filter is the only row with its key when the key
    column is UNIQUE and the filter fixes the key. *)
Lemma find_unique_key {A B} (key : A -> B) (p : A -> bool) (l : list A) (u : A) :
  NoDup (map key l) ->
  In u l ->
  p u = true ->
  (forall x, In x l -> p x = true -> key x = key u) ->
  find p l = Some u.
Proof.
  intros Hnd Hin Hp Hkey.
  destruct (find p l) as [x|] eqn:E.
  - apply find_some in E as [Hx Hpx]. f_equal.
    apply (NoDup_map_inj_on key l Hnd); [by apply list_elem_of_In..|]. by apply Hkey.
  - by rewrite (find_none p l E u Hin) in Hp.
Qed.

Lemma authenticate_user_closed_form bcrypt_checkpw hashed_password name password w :
  available (db w) = true ->
  authenticate_user bcrypt_checkpw hashed_password name password w
  = (Ok (match user_of_subject name (db w) with
         | Some u => if bcrypt_checkpw password (hashed_password (User.id u)) then Some u
                     else None
         | None => None
         end), w).
Proof.
  intros Hav. unfold authenticate_user, user_of_subject, bind, FastCRUD.get, FastCRUD.query,
    verify_password.
  destruct (Str.contains "@" name); rewrite Hav; (destruct (find _ _) as [u|]; [|done]);
    by destruct (bcrypt_checkpw _ _).
Qed.

(** X17. A login that [authenticate_user] accepts, by username or by
    email, answers a bearer access token for the row's username that
    expires the configured minutes after the clock reading, and sets a
    refresh cookie whose max-age is the lifetime of the refresh token it
    holds. With that access token, until it expires and unless it is
    blacklisted, [get_current_user] resolves the very row that logged in.
    The usernames are distinct (the column is UNIQUE) and hold no '@'; the
    token library is only asked to decode what it encoded. *)
Theorem login_then_get_current_user jwt_verify jwt_encode bcrypt_checkpw hashed_password crypt
    now_access now_refresh now' name password u w :
  let access :=
    jwt_encode (mkPayload (Some (User.username u))
                  (Some (now_access + ACCESS_TOKEN_EXPIRE_MINUTES crypt * 60))) in
  let refresh :=
    jwt_encode (mkPayload (Some (User.username u))
                  (Some (now_refresh + REFRESH_TOKEN_EXPIRE_DAYS crypt * 86400))) in
  available (db w) = true ->
  NoDup (map User.username (user_rows (db w))) ->
  authenticate_user bcrypt_checkpw hashed_password name password w = (Ok (Some u), w) ->
  Str.contains "@" (User.username u) = false ->
  jwt_verify access
  = Some (mkPayload (Some (User.username u))
            (Some (now_access + ACCESS_TOKEN_EXPIRE_MINUTES crypt * 60))) ->
  (forall row, In row (token_blacklist_rows (db w)) -> TokenBlacklist.token row <> access) ->
  now' <= now_access + ACCESS_TOKEN_EXPIRE_MINUTES crypt * 60 ->
  login_for_access_token jwt_encode bcrypt_checkpw hashed_password crypt now_access now_refresh
    name password w
  = (Ok (mkLoginResponse access "bearer" refresh (REFRESH_TOKEN_EXPIRE_DAYS crypt * 86400)), w)
  /\ get_current_user jwt_verify now' access w = (Ok u, w).
Proof.
  intros access refresh Hav Hnd Hauth Hat Hrt Hnb Hnow. split.
  - unfold login_for_access_token, bind. rewrite Hauth. unfold ret.
    rewrite create_access_token_payload. unfold create_refresh_token. simpl.
    subst access refresh. do 3 f_equal.
    + by destruct (_ =? 0).
    + lia.
  - rewrite (authenticate_user_closed_form _ _ _ _ w Hav) in Hauth.
    assert (In u (user_rows (db w)) /\ User.is_deleted u = false) as [Hin Hdel].
    { unfold user_of_subject in Hauth.
      destruct (find _ _) as [x|] eqn:E; [|done].
      apply find_some in E as [Hx Hpx]. apply andb_true_iff in Hpx as [_ Hd].
      destruct (bcrypt_checkpw _ _); [|done].
      assert (x = u) as <- by congruence. split; [done|]. by destruct (User.is_deleted x). }
    rewrite (get_current_user_closed_form jwt_verify now' access w Hav).
    unfold token_subject. rewrite (not_blacklisted_existsb _ _ Hnb), Hrt. simpl.
    destruct (Z.ltb_spec (now_access + ACCESS_TOKEN_EXPIRE_MINUTES crypt * 60) now'); [lia|].
    unfold user_of_subject. rewrite Hat.
    rewrite (find_unique_key User.username _ _ u Hnd Hin); [done| |].
    + by rewrite String.eqb_refl, Hdel.
    + intros x _ Hp. apply andb_true_iff in Hp as [Hp _]. by apply String.eqb_eq in Hp.
Qed.

Lemma login_then_get_current_user_witness :
  let encode := fun p : Payload => "signed" in
  let verify := fun t : string =>
    if String.eqb t "signed" then Some (mkPayload (Some "alice") (Some 2800)) else None in
  let checkpw := fun plain hashed : string => String.eqb ("h:" ++ plain) hashed in
  let hashed := fun id : Z => "h:secret" in
  let alice := User.mk 1 "alice" "alice@example.com" false false None in
  let w := mkWorld (mkDB true [] [] [alice] [] 0 0) None [] in
  login_for_access_token encode checkpw hashed (load_CryptSettings ∅) 1000 1000
    "alice@example.com" "secret" w
  = (Ok (mkLoginResponse "signed" "bearer" "signed" 604800), w)
  /\ get_current_user verify 2800 "signed" w = (Ok alice, w).
Proof.
  intros encode verify checkpw hashed alice w.
  refine (login_then_get_current_user verify encode checkpw hashed (load_CryptSettings ∅)
            1000 1000 2800 "alice@example.com" "secret" alice w _ _ _ _ _ _ _).
  - reflexivity.
  - apply NoDup_singleton.
  - reflexivity.
  - reflexivity.
  - reflexivity.
  - intros row [].
  - vm_compute. discriminate.
Defined.

(** X18. [login_for_access_token] answers the 401 "Wrong username, email
    or password." and changes nothing whenever no row that is not
    soft-deleted carries the given name (as its email when the name holds
    an '@', as its username otherwise) together with a password hash the
    given password checks against: an unknown name, a soft-deleted user
    and a wrong password are answered alike. With the database down the
    login ends in [OperationalError] instead. *)
Theorem login_rejected jwt_encode bcrypt_checkpw hashed_password crypt
    now_access now_refresh name password w :
  (available (db w) = true ->
   (forall u, In u (user_rows (db w)) ->
      (if Str.contains "@" name then User.email u else User.username u) = name ->
      User.is_deleted u = false ->
      bcrypt_checkpw password (hashed_password (User.id u)) = false) ->
   login_for_access_token jwt_encode bcrypt_checkpw hashed_password crypt now_access
     now_refresh name password w
   = (Raise (UnauthorizedException "Wrong username, email or password."), w))
  /\ (available (db w) = false ->
      login_for_access_token jwt_encode bcrypt_checkpw hashed_password crypt now_access
        now_refresh name password w
      = (Raise OperationalError, w)).
Proof.
  split.
  - intros Hav Hno. unfold login_for_access_token, bind.
    rewrite (authenticate_user_closed_form _ _ _ _ w Hav). unfold user_of_subject.
    destruct (find _ _) as [u|] eqn:E; [|done].
    apply find_some in E as [Hin Hp]. apply andb_true_iff in Hp as [Hn Hd].
    apply String.eqb_eq in Hn. rewrite (Hno u Hin Hn); [done|].
    by destruct (User.is_deleted u).
  - intros Hav. unfold login_for_access_token, bind, authenticate_user, bind, FastCRUD.get,
      FastCRUD.query.
    destruct (Str.contains "@" name); by rewrite Hav.
Qed.

Lemma login_rejected_witness :
  let checkpw := fun plain hashed : string => String.eqb ("h:" ++ plain) hashed in
  let hashed := fun id : Z => "h:secret" in
  let w :=
    mkWorld (mkDB true [] [] [User.mk 1 "alice" "alice@example.com" false false None] [] 0 0)
      None [] in
  login_for_access_token (fun _ => "signed") checkpw hashed (load_CryptSettings ∅) 1000 1000
    "alice" "guess" w
  = (Raise (UnauthorizedException "Wrong username, email or password."), w).
Proof.
  intros checkpw hashed w.
  refine (proj1 (login_rejected (fun _ => "signed") checkpw hashed (load_CryptSettings ∅)
                   1000 1000 "alice" "guess" w) _ _).
  - reflexivity.
  - intros u [<-|[]] _ _. reflexivity.
Defined.

Lemma refresh_access_token_outcomes_witness :
  let verify := fun t : string =>
    if String.eqb t "r" then Some (mkPayload (Some "alice") (Some 1000)) else None in
  let encode := fun p : Payload =>
    match exp p with Some e => "exp=" ++ pretty e | None => "no exp" end in
  let w := mkWorld (mkDB true [] [] [] [] 0 0) None [] in
  refresh_access_token verify encode (load_CryptSettings ∅) 60 60 (Some "r") w
  = (Ok ("exp=1860", "bearer"), w).
Proof.
  intros verify encode w.
  refine (proj2 (proj2 (refresh_access_token_outcomes verify encode (load_CryptSettings ∅)
                          60 60 w) "r" _ _)
            (mkPayload (Some "alice") (Some 1000)) "alice" _ _ _ _).
  - discriminate.
  - reflexivity.
  - intros row [].
  - reflexivity.
  - reflexivity.
  - intros e [= <-]. lia.
Defined.

(* ===================================================================== *)
(** * Deleting a user, assigning a tier *)
(* ===================================================================== *)

Lemma soft_deleted_hidden (p : User.t -> bool) username rows u :
  find (fun x => p x && Bool.eqb (User.is_deleted x) false) (soft_deleted username rows) = Some u ->
  User.username u <> username /\ In u rows.
Proof.
  intros E. apply find_some in E as [Hin Hp]. apply andb_true_iff in Hp as [_ Hd].
  apply in_map_iff in Hin as (x & Hx & Hin).
  destruct (String.eqb_spec (User.username x) username) as [Heq|Hne].
  - subst u. done.
  - by subst u.
Qed.

Lemma soft_deleted_others username rows u :
  In u rows -> User.username u <> username -> In u (soft_deleted username rows).
Proof.
  intros Hin Hne. apply in_map_iff. exists u. split; [|done].
  by destruct (String.eqb_spec (User.username u) username).
Qed.

Lemma find_username_some username (rows : list User.t) :
  (exists u, In u rows /\ User.username u = username) ->
  exists u, find (fun u => String.eqb (User.username u) username) rows = Some u.
Proof.
  intros (u & Hin & Hu). destruct (find _ rows) as [x|] eqn:E; [by eexists|].
  pose proof (find_none _ _ E u Hin) as Hf. simpl in Hf.
  by rewrite Hu, String.eqb_refl in Hf.
Qed.

Lemma find_username_none username (rows : list User.t) :
  (forall u, In u rows -> User.username u <> username) ->
  find (fun u => String.eqb (User.username u) username) rows = None.
Proof.
  intros Hno. apply find_none_intro. intros u Hin. apply String.eqb_neq. by apply Hno.
Qed.

(** X19. [erase_user] deletes an account only for its owner: for a
    username no row carries it answers the 404 "User not found", and for
    the username of a live account of somebody else than the caller the
    403, a superuser included; in both cases nothing is written. *)
Theorem erase_user_refused jwt_verify forbidden_detail now username current_user token w :
  available (db w) = true ->
  ((forall u, In u (user_rows (db w)) -> User.username u <> username) ->
   erase_user jwt_verify forbidden_detail now username current_user token w
   = (Raise (NotFoundException "User not found"), w))
  /\ ((exists u, In u (user_rows (db w)) /\ User.username u = username
                 /\ User.is_deleted u = false) ->
      User.username current_user <> username ->
      erase_user jwt_verify forbidden_detail now username current_user token w
      = (Raise (ForbiddenException forbidden_detail), w)).
Proof.
  intros Hav. split.
  - intros Hno. unfold erase_user, bind at 1, FastCRUD.get, FastCRUD.query. rewrite Hav.
    by rewrite (find_username_none _ _ Hno).
  - intros (u0 & Hin & Hu0 & _) Hne.
    unfold erase_user, bind at 1, FastCRUD.get, FastCRUD.query. rewrite Hav.
    destruct (find_username_some username (user_rows (db w))) as (u & ->); [by eauto|].
    assert ((username =? User.username current_user)%string = false) as ->; [|done].
    apply String.eqb_neq. congruence.
Qed.

Lemma erase_user_refused_witness :
  let alice := User.mk 1 "alice" "alice@example.com" false false None in
  let root := User.mk 2 "root" "root@example.com" true false None in
  let w := mkWorld (mkDB true [] [] [alice; root] [] 0 0) None [] in
  erase_user (fun _ => None) "Forbidden" 0 "alice" root "t" w
  = (Raise (ForbiddenException "Forbidden"), w).
Proof.
  intros alice root w.
  refine (proj2 (erase_user_refused (fun _ => None) "Forbidden" 0 "alice" root "t" w _) _ _).
  - reflexivity.
  - exists alice. split; [by left|split; reflexivity].
  - discriminate.
Defined.

(** X21. When the owner deletes the live account with a token that
    decodes and is not blacklisted, [erase_user] answers "User deleted", and from
    then on the account is shut: [get_current_user] resolves no token, at
    no time, to a row with that username, [authenticate_user] accepts no
    password for it, and the token of the request is refused. The rows of
    the other users are left as they were. *)
Theorem erase_user_locks_out jwt_verify forbidden_detail now username current_user token
    payload e w :
  available (db w) = true ->
  NoDup (map User.username (user_rows (db w))) ->
  (exists u, In u (user_rows (db w)) /\ User.username u = username
             /\ User.is_deleted u = false) ->
  User.username current_user = username ->
  jwt_verify token = Some payload ->
  exp payload = Some e ->
  now <= e ->
  (forall row, In row (token_blacklist_rows (db w)) -> TokenBlacklist.token row <> token) ->
  let w' := (erase_user jwt_verify forbidden_detail now username current_user token w).2 in
  (erase_user jwt_verify forbidden_detail now username current_user token w).1
  = Ok "User deleted"
  /\ (forall now' tok u w'',
        get_current_user jwt_verify now' tok w' = (Ok u, w'') -> User.username u <> username)
  /\ (forall bcrypt_checkpw hashed_password name password u w'',
        authenticate_user bcrypt_checkpw hashed_password name password w' = (Ok (Some u), w'') ->
        User.username u <> username)
  /\ (forall now',
        get_current_user jwt_verify now' token w'
        = (Raise (UnauthorizedException "User not authenticated."), w'))
  /\ (forall u, In u (user_rows (db w)) -> User.username u <> username ->
        In u (user_rows (db w'))).
Proof.
  intros Hav Hnd Hex Hme Hv He Hnow Hnb w'.
  assert (exists w1,
            erase_user jwt_verify forbidden_detail now username current_user token w
            = (Ok "User deleted", w1)
            /\ available (db w1) = true
            /\ user_rows (db w1) = soft_deleted username (user_rows (db w))
            /\ token_blacklist_rows (db w1)
               = (token_blacklist_rows (db w)
                  ++ [TokenBlacklist.mk (token_blacklist_seq (db w) + 1) token e])%list)
    as (w1 & Hrun & Hav1 & Hrows & Hbl).
  { eexists. split; [|split; [|split]].
    - unfold erase_user, bind at 1, FastCRUD.get, FastCRUD.query. rewrite Hav.
      destruct Hex as (u0 & Hin & Hu0 & _).
      destruct (find_username_some username (user_rows (db w))) as (u & ->); [by eauto|].
      rewrite Hme, String.eqb_refl. cbn [negb].
      unfold bind at 1, crud_users.delete, FastCRUD.exec. rewrite Hav. cbv beta iota.
      unfold bind at 1.
      erewrite blacklist_token_decoded; [|reflexivity|exact Hv|exact He|exact Hnow].
      cbn [db token_blacklist_rows].
      rewrite (not_blacklisted_existsb _ _ Hnb). reflexivity.
    - done.
    - done.
    - done. }
  subst w'. rewrite Hrun. cbn [fst snd]. split; [done|]. split; [|split; [|split]].
  - intros now' tok u w'' Hget.
    rewrite (get_current_user_closed_form jwt_verify now' tok w1 Hav1) in Hget.
    destruct (token_subject _ _ _ _) as [s|]; [|done].
    unfold user_of_subject in Hget. rewrite Hrows in Hget.
    destruct (find _ _) as [x|] eqn:E; [|done].
    apply soft_deleted_hidden in E as [Hx _]. congruence.
  - intros chk hp name password u w'' Hauth.
    rewrite (authenticate_user_closed_form chk hp name password w1 Hav1) in Hauth.
    unfold user_of_subject in Hauth. rewrite Hrows in Hauth.
    destruct (find _ _) as [x|] eqn:E; [|done].
    apply soft_deleted_hidden in E as [Hx _].
    destruct (chk _ _); [|done]. congruence.
  - intros now'. rewrite (get_current_user_closed_form jwt_verify now' token w1 Hav1).
    unfold token_subject. rewrite Hbl, existsb_app. cbn [existsb TokenBlacklist.token].
    by rewrite String.eqb_refl, !orb_true_r.
  - intros u Hin Hne. rewrite Hrows. by apply soft_deleted_others.
Qed.

Lemma erase_user_locks_out_witness :
  let verify := fun t : string =>
    if String.eqb t "t" then Some (mkPayload (Some "alice") (Some 100)) else None in
  let alice := User.mk 1 "alice" "alice@example.com" false false None in
  let bob := User.mk 2 "bob" "bob@example.com" false false None in
  let w := mkWorld (mkDB true [] [] [alice; bob] [] 0 0) None [] in
  let w' := (erase_user verify "Forbidden" 50 "alice" alice "t" w).2 in
  (erase_user verify "Forbidden" 50 "alice" alice "t" w).1 = Ok "User deleted"
  /\ get_current_user verify 60 "t" w'
     = (Raise (UnauthorizedException "User not authenticated."), w')
  /\ In bob (user_rows (db w')).
Proof.
  intros verify alice bob w w'.
  assert (available (db w) = true) as Hav by reflexivity.
  assert (NoDup (map User.username (user_rows (db w)))) as Hnd.
  { apply NoDup_cons. split; [|apply NoDup_singleton].
    intros Hin. apply list_elem_of_In in Hin. destruct Hin as [?|[]]. discriminate. }
  assert (exists u, In u (user_rows (db w)) /\ User.username u = "alice"
                    /\ User.is_deleted u = false) as Hex.
  { exists alice. split; [by left|split; reflexivity]. }
  assert (forall row, In row (token_blacklist_rows (db w)) -> TokenBlacklist.token row <> "t")
    as Hnb by (intros row []).
  assert (50 <= 100) as Hle by lia.
  destruct (erase_user_locks_out verify "Forbidden" 50 "alice" alice "t"
              (mkPayload (Some "alice") (Some 100)) 100 w
              Hav Hnd Hex eq_refl eq_refl eq_refl Hle Hnb)
    as (Hres & _ & _ & Hget & Hothers).
  split; [exact Hres|]. split; [exact (Hget 60)|].
  apply Hothers; [right; by left|discriminate].
Defined.

Lemma tier_assigned_others username tid rows u :
  In u rows -> User.username u <> username -> In u (tier_assigned username tid rows).
Proof.
  intros Hin Hne. apply in_map_iff. exists u. split; [|done].
  by destruct (String.eqb_spec (User.username u) username).
Qed.

Lemma tier_assigned_owner username tid rows u :
  In u rows -> User.username u = username ->
  In (User.mk (User.id u) (User.username u) (User.email u) (User.is_superuser u)
        (User.is_deleted u) (Some tid))
     (tier_assigned username tid rows).
Proof.
  intros Hin Heq. apply in_map_iff. exists u. split; [|done].
  by destruct (String.eqb_spec (User.username u) username).
Qed.

Lemma patch_user_tier_closed_form user_name username tid w :
  available (db w) = true ->
  patch_user_tier user_name username tid w
  = match find (fun u => String.eqb (User.username u) username) (user_rows (db w)) with
    | None => (Raise (NotFoundException "User not found"), w)
    | Some db_user =>
        match find (fun t => Tier.id t =? tid) (tier_rows (db w)) with
        | None => (Raise (NotFoundException "Tier not found"), w)
        | Some _ =>
            (Ok ("User " ++ user_name (User.id db_user) ++ " Tier updated"),
             mkWorld
               (mkDB (available (db w)) (tier_rows (db w)) (rate_limit_rows (db w))
                  (tier_assigned username tid (user_rows (db w)))
                  (token_blacklist_rows (db w)) (rate_limit_seq (db w))
                  (token_blacklist_seq (db w)))
               (client w) (logs w))
        end
    end.
Proof.
  intros Hav. unfold patch_user_tier, bind at 1, FastCRUD.get, FastCRUD.query. rewrite Hav.
  destruct (find _ (user_rows (db w))) as [u|]; [|done].
  unfold bind at 1. rewrite Hav.
  destruct (find _ (tier_rows (db w))) as [t|]; [|done].
  unfold bind, crud_users.update_tier, FastCRUD.exec. by rewrite Hav.
Qed.

(** X22. [patch_user_tier] never assigns a tier that does not exist: for
    an unknown username it answers the 404 "User not found", for the
    username of a live account and a tier id no tier carries the 404
    "Tier not found", and in both cases no row is changed. *)
Theorem patch_user_tier_refused user_name username tid w :
  available (db w) = true ->
  ((forall u, In u (user_rows (db w)) -> User.username u <> username) ->
   patch_user_tier user_name username tid w = (Raise (NotFoundException "User not found"), w))
  /\ ((exists u, In u (user_rows (db w)) /\ User.username u = username
                 /\ User.is_deleted u = false) ->
      (forall t, In t (tier_rows (db w)) -> Tier.id t <> tid) ->
      patch_user_tier user_name username tid w
      = (Raise (NotFoundException "Tier not found"), w)).
Proof.
  intros Hav. rewrite (patch_user_tier_closed_form user_name username tid w Hav). split.
  - intros Hno. by rewrite (find_username_none _ _ Hno).
  - intros (u0 & Hin & Hu0 & _) Hno.
    destruct (find_username_some username (user_rows (db w))) as (u & ->); [by eauto|].
    rewrite find_none_intro; [done|]. intros t Ht. apply Z.eqb_neq. by apply Hno.
Qed.

Lemma patch_user_tier_refused_witness :
  let w :=
    mkWorld (mkDB true [Tier.mk 1 "free"] []
               [User.mk 1 "alice" "alice@example.com" false false None] [] 0 0) None [] in
  patch_user_tier (fun _ => "Alice") "alice" 2 w
  = (Raise (NotFoundException "Tier not found"), w).
Proof.
  intros w.
  refine (proj2 (patch_user_tier_refused (fun _ => "Alice") "alice" 2 w _) _ _).
  - reflexivity.
  - eexists. split; [by left|split; reflexivity].
  - intros t [<-|[]]. discriminate.
Defined.

(** X23. A tier that [patch_user_tier] assigns to a live account takes
    effect in the limiter: the call answers "User <name> Tier updated", the user's row
    carries the tier and the other users' rows are as before, and from
    then on [rate_limiter] counts that user's requests, on every route the
    tier has a rule for, against the rule's limit and period. Usernames
    and tier ids are distinct (UNIQUE, primary key). *)
Theorem patch_user_tier_takes_effect user_name username tid u t w :
  available (db w) = true ->
  NoDup (map User.username (user_rows (db w))) ->
  NoDup (map Tier.id (tier_rows (db w))) ->
  In u (user_rows (db w)) -> User.username u = username -> User.is_deleted u = false ->
  In t (tier_rows (db w)) -> Tier.id t = tid ->
  let w' := (patch_user_tier user_name username tid w).2 in
  let u' :=
    User.mk (User.id u) (User.username u) (User.email u) (User.is_superuser u)
      (User.is_deleted u) (Some tid) in
  (patch_user_tier user_name username tid w).1
  = Ok ("User " ++ user_name (User.id u) ++ " Tier updated")
  /\ In u' (user_rows (db w'))
  /\ (forall x, In x (user_rows (db w)) -> User.username x <> username ->
        In x (user_rows (db w')))
  /\ (forall settings now request rule,
        rule_of (db w) t (sanitize_path (url_path request)) = Some rule ->
        rate_limiter settings now request (Some u') w'
        = enforce now (sanitize_path (url_path request))
            (UserIdentity (User.id u), RateLimit.limit rule, RateLimit.period rule) w').
Proof.
  intros Hav Hndu Hndt Hu Hun Hlive Ht Htid w' u'.
  assert (find (fun u => String.eqb (User.username u) username) (user_rows (db w)) = Some u)
    as Hfu.
  { apply (find_unique_key User.username); [done|done| |].
    - by apply String.eqb_eq.
    - intros x _ Hx. apply String.eqb_eq in Hx. congruence. }
  assert (find (fun t => Tier.id t =? tid) (tier_rows (db w)) = Some t) as Hft.
  { apply (find_unique_key Tier.id); [done|done| |].
    - by apply Z.eqb_eq.
    - intros x _ Hx. apply Z.eqb_eq in Hx. congruence. }
  subst w'. rewrite (patch_user_tier_closed_form user_name username tid w Hav), Hfu, Hft.
  cbn [fst snd]. split; [done|]. split; [|split].
  - by apply tier_assigned_owner.
  - intros x Hx Hne. by apply tier_assigned_others.
  - intros settings now request rule Hrule.
    apply (rate_limiter_of_rule settings now request u' t rule); [done| |done].
    unfold tier_of. by subst u'.
Qed.

(** The tier "free" has the rule (1, 60) for "users" and the default is
    (10, 3600). Alice, without a tier, has used one request of the minute
    that starts at 0; she is assigned the tier, and her request at 10 is
    the second of that minute: it is rejected under the rule, where the
    default would have allowed it, and the counter stands at 2. *)
Lemma patch_user_tier_takes_effect_witness :
  let free := Tier.mk 1 "free" in
  let alice := User.mk 7 "alice" "alice@example.com" false false None in
  let rule := RateLimit.mk 3 1 "users:1:60" "users" 1 60 in
  let key := ratelimit_key (UserIdentity 7) "users" 0 in
  let w :=
    mkWorld (mkDB true [free] [rule] [alice] [] 3 0)
      (Some (mkRedis true {[ key := (1, Some 60) ]})) [] in
  let w' := (patch_user_tier (fun _ => "Alice") "alice" 1 w).2 in
  let request := mkRequest None "/users/" "10.0.0.1" in
  let served :=
    rate_limiter (mkSettings 10 3600) 10 request
      (Some (User.mk 7 "alice" "alice@example.com" false false (Some 1))) w' in
  (patch_user_tier (fun _ => "Alice") "alice" 1 w).1 = Ok "User Alice Tier updated"
  /\ served.1 = Raise (RateLimitException "Rate limit exceeded.")
  /\ (client served.2 ≫= fun r => store r !! key) = Some (2, Some 60).
Proof.
  intros free alice rule key w w' request served.
  assert (available (db w) = true) as Hav by reflexivity.
  assert (NoDup (map User.username (user_rows (db w)))) as Hndu by apply NoDup_singleton.
  assert (NoDup (map Tier.id (tier_rows (db w)))) as Hndt by apply NoDup_singleton.
  assert (In alice (user_rows (db w))) as Hu by (by left).
  assert (In free (tier_rows (db w))) as Ht by (by left).
  destruct (patch_user_tier_takes_effect (fun _ => "Alice") "alice" 1 alice free w
              Hav Hndu Hndt Hu eq_refl eq_refl Ht eq_refl)
    as (Hres & _ & _ & Hlim).
  split; [exact Hres|].
  assert (served = enforce 10 "users" (UserIdentity 7, 1, 60) w') as Hserved
    by exact (Hlim (mkSettings 10 3600) 10 request rule eq_refl).
  rewrite Hserved. split; vm_compute; reflexivity.
Defined.

(* ===================================================================== *)
(** * The dependency chain of a rate-limited route *)
(* ===================================================================== *)

Lemma rate_limiter_anonymous settings now request w :
  rate_limiter settings now request None w
  = enforce now (sanitize_path (url_path request))
      (AnonymousIdentity (client_host request),
       DEFAULT_RATE_LIMIT_LIMIT settings, DEFAULT_RATE_LIMIT_PERIOD settings) w.
Proof. reflexivity. Qed.

Lemma get_optional_user_bearer jwt_verify now request token ty sep v w :
  authorization request = Some token ->
  Str.partition " " token = (ty, sep, v) ->
  Str.lower ty = "bearer" ->
  v <> "" ->
  (available (db w) = true ->
   get_optional_user jwt_verify now request w
   = (Ok (match token_subject jwt_verify now v (db w) with
          | Some s => user_of_subject s (db w)
          | None => None
          end), w))
  /\ (available (db w) = false ->
      get_optional_user jwt_verify now request w
      = (Ok None,
         mkWorld (db w) (client w)
           (logs w ++ [mkLog ERROR "Unexpected error in get_optional_user: "
                         (Some OperationalError)])%list)).
Proof.
  intros Hauth Hpart Hty Hv.
  assert (Str.truthy token = true) as Htok.
  { destruct token; [|done]. vm_compute in Hpart. congruence. }
  assert (Str.truthy v = true) as Hvt by (by destruct v).
  unfold get_optional_user. rewrite Hauth, Htok. cbn [negb]. unfold try_except.
  rewrite Hpart, Hty, Hvt. cbn [negb orb]. rewrite String.eqb_refl. cbn [negb orb].
  split; intros Hav.
  - unfold bind at 1. rewrite (verify_token_closed_form jwt_verify now v w Hav).
    destruct (token_subject jwt_verify now v (db w)) as [s|] eqn:Hs; [|done].
    unfold bind. rewrite (get_current_user_closed_form jwt_verify now v w Hav), Hs.
    by destruct (user_of_subject s (db w)).
  - unfold bind at 1, verify_token, bind at 1, FastCRUD.exists_, FastCRUD.query.
    by rewrite Hav.
Qed.

(** X24. A route behind [rate_limiter] never answers 401 for a bad
    token: the request is counted as anonymous, by client host, against
    the default limit and period when it has no Authorization header or an
    empty one, when the scheme is not "bearer" or the token part is empty,
    and when [get_current_user] refuses the token (blacklisted, invalid,
    expired, or naming no live user). When [get_current_user] resolves the
    token, the limiter runs for that user. With the database down a bearer
    request is still limited as anonymous, after one ERROR record in the
    log. *)
Theorem rate_limiter_dependency_falls_back jwt_verify settings now request w :
  let anonymous :=
    enforce now (sanitize_path (url_path request))
      (AnonymousIdentity (client_host request),
       DEFAULT_RATE_LIMIT_LIMIT settings, DEFAULT_RATE_LIMIT_PERIOD settings) in
  (authorization request = None \/ authorization request = Some "" ->
   rate_limiter_dependency jwt_verify settings now request w = anonymous w)
  /\ (forall token ty sep v,
        authorization request = Some token ->
        Str.partition " " token = (ty, sep, v) ->
        (Str.lower ty <> "bearer" \/ v = "" ->
         rate_limiter_dependency jwt_verify settings now request w = anonymous w)
        /\ (Str.lower ty = "bearer" -> v <> "" ->
            (available (db w) = true ->
             (forall e, get_current_user jwt_verify now v w = (Raise e, w) ->
                rate_limiter_dependency jwt_verify settings now request w = anonymous w)
             /\ (forall u, get_current_user jwt_verify now v w = (Ok u, w) ->
                   rate_limiter_dependency jwt_verify settings now request w
                   = rate_limiter settings now request (Some u) w))
            /\ (available (db w) = false ->
                rate_limiter_dependency jwt_verify settings now request w
                = anonymous
                    (mkWorld (db w) (client w)
                       (logs w ++ [mkLog ERROR "Unexpected error in get_optional_user: "
                                     (Some OperationalError)])%list)))).
Proof.
  intros anonymous. split.
  - intros Hno. unfold rate_limiter_dependency, bind at 1.
    assert (get_optional_user jwt_verify now request w = (Ok None, w)) as ->; [|done].
    unfold get_optional_user. by destruct Hno as [->| ->].
  - intros token ty sep v Hauth Hpart. split.
    + intros Hbad. unfold rate_limiter_dependency, bind at 1.
      assert (get_optional_user jwt_verify now request w = (Ok None, w)) as ->; [|done].
      unfold get_optional_user. rewrite Hauth.
      destruct (Str.truthy token); [|done]. cbn [negb]. unfold try_except. rewrite Hpart.
      destruct Hbad as [Hty| ->].
      * apply String.eqb_neq in Hty. by rewrite Hty.
      * cbn [Str.truthy negb]. by rewrite orb_true_r.
    + intros Hty Hv.
      destruct (get_optional_user_bearer jwt_verify now request token ty sep v w
                  Hauth Hpart Hty Hv) as [Hup Hdown].
      split.
      * intros Hav. rewrite (get_current_user_closed_form jwt_verify now v w Hav).
        split.
        -- intros e He. unfold rate_limiter_dependency, bind at 1. rewrite (Hup Hav).
           destruct (token_subject _ _ _ _) as [s|]; [|done].
           by destruct (user_of_subject s (db w)).
        -- intros u Hu. unfold rate_limiter_dependency, bind at 1. rewrite (Hup Hav).
           destruct (token_subject _ _ _ _) as [s|]; [|done].
           destruct (user_of_subject s (db w)); [|done]. congruence.
      * intros Hav. unfold rate_limiter_dependency, bind at 1. by rewrite (Hdown Hav).
Qed.

(** A request with a forged bearer token from a host that has used the
    ten requests of the default policy (10, 3600) in the hour that starts
    at 0: it is counted under the key of the host, as the eleventh, and
    answered the 429, not a 401. *)
Lemma rate_limiter_dependency_falls_back_witness :
  let request := mkRequest (Some "Bearer forged") "/users/" "10.0.0.1" in
  let key := ratelimit_key (AnonymousIdentity "10.0.0.1") "users" 0 in
  let w :=
    mkWorld (mkDB true [] [] [] [] 0 0)
      (Some (mkRedis true {[ key := (10, Some 3600) ]})) [] in
  let served := rate_limiter_dependency (fun _ => None) (mkSettings 10 3600) 10 request w in
  served.1 = Raise (RateLimitException "Rate limit exceeded.")
  /\ (client served.2 ≫= fun r => store r !! key) = Some (11, Some 3600).
Proof.
  intros request key w served.
  assert ("forged" <> "") as Hforged by discriminate.
  assert (served = enforce 10 "users" (AnonymousIdentity "10.0.0.1", 10, 3600) w) as Hserved
    by exact (proj1 (proj1 (proj2 (proj2 (rate_limiter_dependency_falls_back
                                            (fun _ => None) (mkSettings 10 3600) 10 request w)
                                     "Bearer forged" "Bearer" " " "forged" eq_refl eq_refl)
                              eq_refl Hforged) eq_refl)
                (UnauthorizedException "User not authenticated.") eq_refl).
  rewrite Hserved. split; vm_compute; reflexivity.
Defined.

(** X25. The refresh cookie that [login_for_access_token] sets is good
    for exactly its max-age: presented to [refresh_access_token] at any
    instant up to max-age seconds after the login it yields a bearer access
    token for the username that logged in, expiring the configured minutes
    after the refresh, and presented later it is answered the 401 "Invalid
    refresh token."; the world is unchanged either way. The token library
    is only asked to decode what it encoded, and the cookie is not
    blacklisted. *)
Theorem refresh_cookie_lifetime jwt_verify jwt_encode bcrypt_checkpw hashed_password crypt
    now_access now_refresh name password u w :
  let cookie :=
    jwt_encode (mkPayload (Some (User.username u))
                  (Some (now_refresh + REFRESH_TOKEN_EXPIRE_DAYS crypt * 86400))) in
  available (db w) = true ->
  authenticate_user bcrypt_checkpw hashed_password name password w = (Ok (Some u), w) ->
  jwt_verify cookie
  = Some (mkPayload (Some (User.username u))
            (Some (now_refresh + REFRESH_TOKEN_EXPIRE_DAYS crypt * 86400))) ->
  cookie <> "" ->
  (forall row, In row (token_blacklist_rows (db w)) -> TokenBlacklist.token row <> cookie) ->
  exists response,
    login_for_access_token jwt_encode bcrypt_checkpw hashed_password crypt now_access
      now_refresh name password w = (Ok response, w)
    /\ refresh_token_cookie response = cookie
    /\ forall now' now_access',
         (now' <= now_refresh + refresh_token_max_age response ->
          refresh_access_token jwt_verify jwt_encode crypt now' now_access'
            (Some (refresh_token_cookie response)) w
          = (Ok (jwt_encode
                   (mkPayload (Some (User.username u))
                      (Some (now_access' + ACCESS_TOKEN_EXPIRE_MINUTES crypt * 60))),
                 "bearer"), w))
         /\ (now_refresh + refresh_token_max_age response < now' ->
             refresh_access_token jwt_verify jwt_encode crypt now' now_access'
               (Some (refresh_token_cookie response)) w
             = (Raise (UnauthorizedException "Invalid refresh token."), w)).
Proof.
  intros cookie Hav Hauth Hrt Hnz Hnb. eexists. split; [|split].
  - unfold login_for_access_token, bind. rewrite Hauth. reflexivity.
  - reflexivity.
  - intros now' now_access'. cbn [refresh_token_cookie refresh_token_max_age].
    unfold create_refresh_token. cbn [timedelta_truthy sub]. fold cookie.
    rewrite (refresh_access_token_closed_form _ _ _ _ _ cookie w Hnz Hav).
    unfold token_subject. rewrite (not_blacklisted_existsb _ _ Hnb), Hrt. cbn [exp sub].
    split; intros Hnow.
    + destruct (Z.ltb_spec (now_refresh + REFRESH_TOKEN_EXPIRE_DAYS crypt * 86400) now');
        [lia|]. by rewrite create_access_token_payload.
    + by destruct (Z.ltb_spec (now_refresh + REFRESH_TOKEN_EXPIRE_DAYS crypt * 86400) now');
        [|lia].
Qed.

Lemma refresh_cookie_lifetime_witness :
  let encode := fun p : Payload =>
    match exp p with Some e => "exp=" ++ pretty e | None => "no exp" end in
  let verify := fun t : string =>
    if String.eqb t "exp=605800" then Some (mkPayload (Some "alice") (Some 605800))
    else None in
  let checkpw := fun plain hashed : string => String.eqb ("h:" ++ plain) hashed in
  let hashed := fun id : Z => "h:secret" in
  let alice := User.mk 1 "alice" "alice@example.com" false false None in
  let w := mkWorld (mkDB true [] [] [alice] [] 0 0) None [] in
  exists response,
    login_for_access_token encode checkpw hashed (load_CryptSettings ∅) 1000 1000
      "alice" "secret" w = (Ok response, w)
    /\ refresh_access_token verify encode (load_CryptSettings ∅) 605800 605800
         (Some (refresh_token_cookie response)) w
       = (Ok ("exp=607600", "bearer"), w)
    /\ refresh_access_token verify encode (load_CryptSettings ∅) 605801 605801
         (Some (refresh_token_cookie response)) w
       = (Raise (UnauthorizedException "Invalid refresh token."), w).
Proof.
  intros encode verify checkpw hashed alice w.
  pose (cookie :=
          encode (mkPayload (Some "alice")
                    (Some (1000 + REFRESH_TOKEN_EXPIRE_DAYS (load_CryptSettings ∅) * 86400)))).
  assert (forall row, In row (token_blacklist_rows (db w)) ->
            TokenBlacklist.token row <> cookie) as Hnb by (intros row []).
  assert (cookie <> "") as Hnz by (vm_compute; discriminate).
  assert (verify cookie = Some (mkPayload (Some "alice") (Some 605800))) as Hrt
    by (vm_compute; reflexivity).
  destruct (refresh_cookie_lifetime verify encode checkpw hashed (load_CryptSettings ∅)
              1000 1000 "alice" "secret" alice w eq_refl eq_refl Hrt Hnz Hnb)
    as (response & Hlogin & Hcookie & Hlife).
  exists response. split; [exact Hlogin|]. split.
  - apply (proj1 (Hlife 605800 605800)).
    injection Hlogin as <-. vm_compute. discriminate.
  - apply (proj2 (Hlife 605801 605801)).
    injection Hlogin as <-. vm_compute. reflexivity.
Defined.

Lemma authenticated_counters_are_separate_witness :
  let r := mkRedis true {[ ratelimit_key (UserIdentity 7) "users" 0 := (3, Some 60) ]} in
  let w := mkWorld (mkDB true [] [] [] [] 0 0) (Some r) [] in
  exists r',
    client (is_rate_limited 10 (UserIdentity 8) "/users/" 5 60 w).2 = Some r'
    /\ store r' !! ratelimit_key (UserIdentity 7) "users" 0
       = store r !! ratelimit_key (UserIdentity 7) "users" 0.
Proof.
  intros r w.
  refine (proj2 (proj2 authenticated_counters_are_separate 7 "users" 0 10 8 "/users/" 5 60 w r
                   _ _)).
  - reflexivity.
  - left. discriminate.
Defined.

Lemma sanitize_path_fixed_point_witness : sanitize_path "users_me" = "users_me".
Proof.
  refine (proj1 (proj2 sanitize_path_fixed_point) "users_me" _). reflexivity.
Defined.
